(** * EduNexus: the assignment and lecture routes

    A shallow embedding of [backend/routes/assignments.js] and of the upload
    route of [backend/routes/lectures.js], with the properties of the
    submission and grading life cycle proved over it.

    Conventions of the embedding.
    - An ObjectId is the string that [toString()] gives for it; the handlers
      compare ids that way ([x.toString() === req.user.id]).
    - A JavaScript number that the handlers only store (marks, maxMarks, a
      video duration, a lecture order) is kept as the numeral that was sent.
    - A [Date] is its number of milliseconds, an integer.
    - A collection is a finite map from [_id] to document.
    - A handler is a function from the store and the request to the response
      and the new store.  What the handler reads from outside (the clock, the
      answers of Cloudinary, a newly generated ObjectId) is an argument.
    - The id in the path of a request is taken to cast to an ObjectId.  A
      value that a body sends for a path of a schema is cast when the document
      is saved or updated: a lecture order, and the ids, the number and the
      date of an assignment update, fail the request when they do not cast.
      Beyond that, writes to MongoDB are taken to succeed. *)

From Stdlib Require Import ZArith NArith Ascii String.
From stdpp Require Import base option list gmap strings sorting relations.

Local Open Scope string_scope.
Local Open Scope Z_scope.

(** ** Documents *)

Inductive Role := Admin | Instructor | Student.

#[global] Instance Role_eq_dec : EqDecision Role.
Proof. solve_decision. Defined.

(** [req.user], as the Identity Provider resolves it. *)
Module Actor.
Record t := mk { id : string; role : Role }.
End Actor.

(** Modelled from the spec: the schema of [models/User], not among the
    sources.  The fields of a user document that [populate(_, 'name email')]
    selects. *)
Module UserDoc.
Record t := mk { name : string; email : string }.
End UserDoc.

(** Modelled from the spec: the schemas of [models/Assignment],
    [models/Course] and [models/Lecture], not among the sources.  The records
    below have the fields of the data model that the routes read or write;
    [createdAt] is the timestamp the list of assignments is sorted by. *)

Module Attachment.
Record t := mk { name : string; url : string; type : string }.
End Attachment.

Inductive Status := submitted | late | graded.

Module Submission.
Record t := mk {
  student : string;
  content : string;
  attachments : list Attachment.t;
  status : Status;
  marks : option string;
  feedback : option string
}.
End Submission.

Module Assignment.
Record t := mk {
  title : string;
  description : string;
  course : string;
  instructor : string;
  dueDate : Z;
  maxMarks : string;
  submissions : list Submission.t;
  createdAt : Z
}.

Definition with_submissions (l : list Submission.t) (a : t) : t :=
  mk (title a) (description a) (course a) (instructor a) (dueDate a)
     (maxMarks a) l (createdAt a).
End Assignment.

Module Course.
Record t := mk {
  instructor : string;
  students : list string;
  lectures : list string;
  assignments : list string;
  isPublished : bool
}.

Definition with_assignments (l : list string) (c : t) : t :=
  mk (instructor c) (students c) (lectures c) l (isPublished c).

Definition with_lectures (l : list string) (c : t) : t :=
  mk (instructor c) (students c) l (assignments c) (isPublished c).
End Course.

Module Lecture.
Record t := mk {
  title : string;
  description : option string;
  course : string;
  videoUrl : string;
  videoId : string;
  duration : option string;
  order : string;
  isPreview : bool;
  notes : option string
}.
End Lecture.

(** ** The store

    The three collections the routes work on, the user documents that
    [populate] resolves, the objects Cloudinary holds (by public id) and the
    ObjectIds given to documents so far: a new document never gets one of
    them again. *)

Record World := mkWorld {
  courseDocs : gmap string Course.t;
  assignmentDocs : gmap string Assignment.t;
  lectureDocs : gmap string Lecture.t;
  userDocs : gmap string UserDoc.t;
  cloud : list string;
  issued : gset string
}.

Definition set_assignmentDocs (m : gmap string Assignment.t) (w : World) : World :=
  mkWorld (courseDocs w) m (lectureDocs w) (userDocs w) (cloud w) (issued w).

Definition set_courseDocs (m : gmap string Course.t) (w : World) : World :=
  mkWorld m (assignmentDocs w) (lectureDocs w) (userDocs w) (cloud w) (issued w).

Definition set_lectureDocs (m : gmap string Lecture.t) (w : World) : World :=
  mkWorld (courseDocs w) (assignmentDocs w) m (userDocs w) (cloud w) (issued w).

Definition set_cloud (l : list string) (w : World) : World :=
  mkWorld (courseDocs w) (assignmentDocs w) (lectureDocs w) (userDocs w) l (issued w).

Definition set_issued (s : gset string) (w : World) : World :=
  mkWorld (courseDocs w) (assignmentDocs w) (lectureDocs w) (userDocs w) (cloud w) s.

(** ** Requests and responses *)

(** A file of a multipart request, as multer keeps it in memory. *)
Record File := mkFile {
  originalname : string;
  mimetype : string;
  buffer : string
}.

Definition file_size (f : File) : N := N.of_nat (String.length (buffer f)).

(** What Cloudinary's upload callback receives on success. *)
Record UploadResult := mkUploadResult {
  secure_url : string;
  public_id : string;
  upload_duration : option string
}.

(** [req.user], [req.params.id] (or [req.params.courseId]), [req.body] and
    the file parts of the request. *)
Module Req.
Record t (B : Type) := mk {
  user : option Actor.t;
  param : string;
  body : B;
  files : list File
}.
Arguments mk {B} _ _ _ _.
Arguments user {B} _.
Arguments param {B} _.
Arguments body {B} _.
Arguments files {B} _.
End Req.

Inductive Payload :=
| message (m : string)
| errors (es : list string)
| message_assignment (m : string) (id : string) (a : Assignment.t)
| assignment_list (l : list (string * Assignment.t * option UserDoc.t))
| message_submission (m : string) (s : Submission.t)
| submission_list (l : list (Submission.t * option UserDoc.t))
| message_lecture (m : string) (id : string) (l : Lecture.t).

(** [json s p] is [res.status(s).json(p)].  The other three answers come
    from the middleware in front of a handler: from [auth], from [authorize],
    and an error that multer hands to [next]. *)
Inductive Response :=
| unauthenticated
| forbidden_role
| next_error (m : string)
| json (status : Z) (p : Payload).

Definition is_success (r : Response) : bool :=
  match r with
  | json s _ => bool_decide (200 ≤ s < 300)
  | _ => false
  end.

(** The 403 answers: the Forbidden of the error taxonomy. *)
Definition is_forbidden (r : Response) : bool :=
  match r with
  | forbidden_role => true
  | json 403 (message _) => true
  | _ => false
  end.

(** The 404 answers: NotFound. *)
Definition is_not_found (r : Response) : bool :=
  match r with
  | json 404 (message _) => true
  | _ => false
  end.

(** ** Libraries in front of the handlers

    The functions of express-validator that the routes use, and the casts
    Mongoose applies when a document is saved or updated: to a date, to a
    number and to an ObjectId.  [castNumber] and [castObjectId] tell whether
    the cast goes through; what is stored is written as it was sent (ids are
    taken in their canonical form).  Their definitions are not part of the
    repository; the routes are embedded over any such functions. *)

Record Library := mkLibrary {
  trim : string → string;
  isLength : nat → string → bool;
  isNumeric : string → bool;
  isMongoId : string → bool;
  isISO8601 : string → bool;
  castDate : string → option Z;
  castNumber : string → bool;
  castObjectId : string → bool
}.

(** Modelled from the spec: the [auth] middleware of [middleware/auth], not
    among the sources.  The Identity Provider resolves a request to a user id
    and a role, or fails with Unauthenticated. *)
Definition auth {B} (req : Req.t B) : Response + Actor.t :=
  match Req.user req with
  | None => inl unauthenticated
  | Some u => inr u
  end.

(** Modelled from the spec: the [authorize] middleware of [middleware/auth],
    not among the sources.  An identity that lacks the role is answered with
    Forbidden. *)
Definition authorize (allowed : list Role) (u : Actor.t) : option Response :=
  if bool_decide (Actor.role u ∈ allowed) then None else Some forbidden_role.

(** [multer.array(field, maxCount)] with memory storage and
    [limits.fileSize]: the files are taken in the order they arrive; one file
    too many or one file too large ends the request with an error handed to
    [next], past the handler. *)
Fixpoint multer_array (fileSize : N) (maxCount : nat) (fs : list File) {struct fs}
  : option Response :=
  match fs with
  | [] => None
  | file :: fs' =>
      match maxCount with
      | O => Some (next_error "LIMIT_UNEXPECTED_FILE")
      | S remaining =>
          if (file_size file <=? fileSize)%N then multer_array fileSize remaining fs'
          else Some (next_error "LIMIT_FILE_SIZE")
      end
  end.

(** [array.includes(x)] *)
Definition includes (x : string) (l : list string) : bool := bool_decide (x ∈ l).

(** The first submission of a student, with its index:
    [submissions.find(sub => sub.student.toString() === id)]. *)
Definition find_submission (id : string) (l : list Submission.t)
  : option (nat * Submission.t) :=
  list_find (λ sub, Submission.student sub = id) l.

(** One failed validator contributes its [withMessage] text. *)
Definition check (ok : bool) (msg : string) : list string :=
  if ok then [] else [msg].

(** A field that is absent is validated as the empty string. *)
Definition field (o : option string) : string := default "" o.

(** ** Request bodies *)

Record CreateBody := mkCreateBody {
  cr_title : option string;
  cr_description : option string;
  cr_course : option string;
  cr_dueDate : option string;
  cr_maxMarks : option string
}.

Record SubmitBody := mkSubmitBody { content : option string }.

Record GradeBody := mkGradeBody {
  studentId : option string;
  marks : option string;
  feedback : option string
}.

(** The body of an update is handed to [findByIdAndUpdate] whole: every path
    of the assignment schema it carries is set.  The bodies here carry
    paths of the schema with strings for values; a body of update operators
    ([$inc], [$push]) is not among them. *)
Record UpdateBody := mkUpdateBody {
  up_title : option string;
  up_description : option string;
  up_course : option string;
  up_instructor : option string;
  up_dueDate : option string;
  up_maxMarks : option string;
  up_submissions : option (list Submission.t)
}.

Record LectureBody := mkLectureBody {
  le_title : option string;
  le_description : option string;
  le_course : option string;
  le_order : option string;
  le_isPreview : option string;
  le_notes : option string
}.

(** ** What a handler reads from outside *)

(** [new Assignment(..)] draws an ObjectId; [save()] stamps [createdAt]. *)
Record CreateEnv := mkCreateEnv { new_id : string; created_now : Z }.

(** The two readings of [new Date()] in the submit handler, and the answer of
    Cloudinary to the upload of the i-th file: a result, or an error. *)
Record SubmitEnv := mkSubmitEnv {
  now_guard : Z;
  upload_stream : nat → File → option UploadResult;
  now_status : Z
}.

Record LectureEnv := mkLectureEnv {
  lecture_id : string;
  video_upload : File → option UploadResult
}.

(** The loop over [req.files]: a file whose upload succeeds is pushed to
    [attachments], a failure is logged and the loop goes on. *)
Fixpoint upload_files (up : nat → File → option UploadResult) (i : nat)
    (fs : list File) (attachments : list Attachment.t) (stored : list string)
  : list Attachment.t * list string :=
  match fs with
  | [] => (attachments, stored)
  | file :: fs' =>
      match up i file with
      | Some result =>
          upload_files up (S i) fs'
            (attachments ++ [Attachment.mk (originalname file) (secure_url result) (mimetype file)])%list
            (stored ++ [public_id result])%list
      | None => upload_files up (S i) fs' attachments stored
      end
  end.

(** [$pull: { assignments: id }] *)
Definition pull (id : string) (l : list string) : list string :=
  filter (λ x, x ≠ id) l.

(** [sort({ createdAt: -1 })] *)
Definition newest_first (x y : string * Assignment.t) : Prop :=
  Assignment.createdAt y.2 ≤ Assignment.createdAt x.2.

#[global] Instance newest_first_dec x y : Decision (newest_first x y).
Proof. unfold newest_first. apply _. Defined.

(** [Assignment.find({ course: id })] *)
Definition find_by_course (id : string) (m : gmap string Assignment.t)
  : list (string * Assignment.t) :=
  filter (λ p, Assignment.course p.2 = id) (map_to_list m).

Definition populate_instructor (users : gmap string UserDoc.t)
    (p : string * Assignment.t) : string * Assignment.t * option UserDoc.t :=
  (p.1, p.2, users !! Assignment.instructor p.2).

Definition populate_student (users : gmap string UserDoc.t)
    (s : Submission.t) : Submission.t * option UserDoc.t :=
  (s, users !! Submission.student s).

(** [multer.single('video')] of the lecture router, with its [fileFilter]. *)
Definition fileFilter (file : File) : bool :=
  String.prefix "video/" (mimetype file).

Definition multer_single (fileSize : N) (fs : list File)
  : Response + option File :=
  match fs with
  | [] => inr None
  | file :: rest =>
      if negb (fileFilter file) then inl (next_error "Only video files are allowed")
      else if negb (file_size file <=? fileSize)%N then inl (next_error "LIMIT_FILE_SIZE")
      else match rest with
           | [] => inr (Some file)
           | _ :: _ => inl (next_error "LIMIT_UNEXPECTED_FILE")
           end
  end.

(** Modelled from the spec: [handleValidationErrors] of
    [middleware/validation], not among the sources.  A validation error is
    detected before any mutation and ends the request; it is answered as
    the routes that call [validationResult] themselves answer it. *)
Definition handleValidationErrors (errs : list string) : option Response :=
  if bool_decide (errs = []) then None else Some (json 400 (errors errs)).

(** Modelled from the spec: the schema of [models/Lecture] is not among the
    sources; the spec has [order] an integer.  [order: order || 0] is 0 for
    an order that is absent or empty; an order that is given has to cast to a
    number, or [lecture.save()] fails. *)
Definition lecture_order (lib : Library) (b : LectureBody) : option string :=
  match le_order b with
  | None | Some "" => Some "0"
  | Some o => if castNumber lib o then Some o else None
  end.

(** ** The routes *)

Section Routes.
Context (lib : Library).

(** POST /api/assignments *)
Definition createAssignment (w : World) (env : CreateEnv) (req : Req.t CreateBody)
  : Response * World :=
  match auth req with
  | inl r => (r, w)
  | inr user =>
  match authorize [Instructor] user with
  | Some r => (r, w)
  | None =>
  let b := Req.body req in
  let title := trim lib (field (cr_title b)) in
  let description := trim lib (field (cr_description b)) in
  let errs :=
    (check (isLength lib 3 title) "Title must be at least 3 characters" ++
     check (isLength lib 10 description) "Description must be at least 10 characters" ++
     check (isMongoId lib (field (cr_course b))) "Valid course ID is required" ++
     check (isISO8601 lib (field (cr_dueDate b))) "Valid due date is required" ++
     match cr_maxMarks b with
     | None => []
     | Some m => check (isNumeric lib m) "Max marks must be a number"
     end)%list in
  match handleValidationErrors errs with
  | Some r => (r, w)
  | None =>
  let course := field (cr_course b) in
  let maxMarks := default "100" (cr_maxMarks b) in
  match courseDocs w !! course with
  | None => (json 404 (message "Course not found"), w)
  | Some courseDoc =>
  if negb (bool_decide (Course.instructor courseDoc = Actor.id user))
  then (json 403 (message "Not authorized to create assignments for this course"), w)
  else
  match castDate lib (field (cr_dueDate b)) with
  | None => (json 500 (message "Server error creating assignment"), w)
  | Some dueDate =>
  let assignment :=
    Assignment.mk title description course (Actor.id user) dueDate maxMarks []
                  (created_now env) in
  let courseDoc' :=
    Course.with_assignments (Course.assignments courseDoc ++ [new_id env])%list courseDoc in
  (json 201 (message_assignment "Assignment created successfully" (new_id env) assignment),
   set_issued ({[new_id env]} ∪ issued w)
     (set_courseDocs (<[course := courseDoc']> (courseDocs w))
        (set_assignmentDocs (<[new_id env := assignment]> (assignmentDocs w)) w)))
  end end end end end.

(** GET /api/assignments/:courseId *)
Definition listAssignments (w : World) (req : Req.t unit) : Response * World :=
  match auth req with
  | inl r => (r, w)
  | inr user =>
  match courseDocs w !! Req.param req with
  | None => (json 404 (message "Course not found"), w)
  | Some course =>
  let isEnrolled := includes (Actor.id user) (Course.students course) in
  let isInstructor := bool_decide (Course.instructor course = Actor.id user) in
  if negb isEnrolled && negb isInstructor
  then (json 403 (message "Not authorized to view assignments"), w)
  else
  let assignments :=
    populate_instructor (userDocs w) <$>
      merge_sort newest_first (find_by_course (Req.param req) (assignmentDocs w)) in
  (json 200 (assignment_list assignments), w)
  end end.

(** POST /api/assignments/:id/submit *)
Definition submitAssignment (w : World) (env : SubmitEnv) (req : Req.t SubmitBody)
  : Response * World :=
  match auth req with
  | inl r => (r, w)
  | inr user =>
  match authorize [Student] user with
  | Some r => (r, w)
  | None =>
  match multer_array (10 * 1024 * 1024) 5 (Req.files req) with
  | Some r => (r, w)
  | None =>
  let content := trim lib (field (content (Req.body req))) in
  let errs := check (negb (bool_decide (content = ""))) "Submission content is required" in
  if negb (bool_decide (errs = [])) then (json 400 (errors errs), w) else
  match assignmentDocs w !! Req.param req with
  | None => (json 404 (message "Assignment not found"), w)
  | Some assignment =>
  match courseDocs w !! Assignment.course assignment with
  | None => (json 500 (message "Server error submitting assignment"), w)
  | Some course =>
  if negb (includes (Actor.id user) (Course.students course))
  then (json 403 (message "Not enrolled in this course"), w)
  else
  match find_submission (Actor.id user) (Assignment.submissions assignment) with
  | Some _ => (json 400 (message "Assignment already submitted"), w)
  | None =>
  if bool_decide (now_guard env > Assignment.dueDate assignment)
  then (json 400 (message "Assignment submission deadline has passed"), w)
  else
  let '(attachments, stored) :=
    upload_files (upload_stream env) 0 (Req.files req) [] (cloud w) in
  let isLate := bool_decide (now_status env > Assignment.dueDate assignment) in
  let status := if isLate then late else submitted in
  let submission :=
    Submission.mk (Actor.id user) content attachments status None None in
  let assignment' :=
    Assignment.with_submissions (Assignment.submissions assignment ++ [submission])%list
                                assignment in
  (json 200 (message_submission "Assignment submitted successfully" submission),
   set_cloud stored
     (set_assignmentDocs (<[Req.param req := assignment']> (assignmentDocs w)) w))
  end end end end end end.

(** GET /api/assignments/:id/submissions *)
Definition listSubmissions (w : World) (req : Req.t unit) : Response * World :=
  match auth req with
  | inl r => (r, w)
  | inr user =>
  match authorize [Instructor] user with
  | Some r => (r, w)
  | None =>
  match assignmentDocs w !! Req.param req with
  | None => (json 404 (message "Assignment not found"), w)
  | Some assignment =>
  if negb (bool_decide (Assignment.instructor assignment = Actor.id user))
  then (json 403 (message "Not authorized to view submissions"), w)
  else
  match assignmentDocs w !! Req.param req with
  | None => (json 500 (message "Server error fetching submissions"), w)
  | Some submissions =>
  (json 200 (submission_list
               (populate_student (userDocs w) <$> Assignment.submissions submissions)), w)
  end end end end.

(** PUT /api/assignments/:id/grade *)
Definition gradeSubmission (w : World) (req : Req.t GradeBody) : Response * World :=
  match auth req with
  | inl r => (r, w)
  | inr user =>
  match authorize [Instructor] user with
  | Some r => (r, w)
  | None =>
  let b := Req.body req in
  let errs :=
    (check (isMongoId lib (field (studentId b))) "Valid student ID is required" ++
     check (isNumeric lib (field (marks b))) "Marks must be a number")%list in
  if negb (bool_decide (errs = [])) then (json 400 (errors errs), w) else
  let feedback := from_option (trim lib) "" (feedback b) in
  match assignmentDocs w !! Req.param req with
  | None => (json 404 (message "Assignment not found"), w)
  | Some assignment =>
  if negb (bool_decide (Assignment.instructor assignment = Actor.id user))
  then (json 403 (message "Not authorized to grade this assignment"), w)
  else
  match studentId b ≫= λ id, find_submission id (Assignment.submissions assignment) with
  | None => (json 404 (message "Submission not found"), w)
  | Some (i, submission) =>
  let submission' :=
    Submission.mk (Submission.student submission) (Submission.content submission)
                  (Submission.attachments submission) graded (marks b) (Some feedback) in
  let assignment' :=
    Assignment.with_submissions (<[i := submission']> (Assignment.submissions assignment))
                                assignment in
  (json 200 (message_submission "Assignment graded successfully" submission'),
   set_assignmentDocs (<[Req.param req := assignment']> (assignmentDocs w)) w)
  end end end end.

(** The update document Mongoose builds from [req.body]: the ids, the
    number and the date cast (the spec has [course] and [instructor]
    references, [maxMarks] numeric and [dueDate] a timestamp; the schema is
    not among the sources), the title and the description as the sanitizers
    left them.  [None] is a cast error. *)
Definition apply_update (b : UpdateBody) (a : Assignment.t) : option Assignment.t :=
  if negb (from_option (castObjectId lib) true (up_course b)
           && from_option (castObjectId lib) true (up_instructor b)
           && from_option (castNumber lib) true (up_maxMarks b))
  then None else
  match castDate lib <$> up_dueDate b with
  | Some None => None
  | dueDate =>
    Some (Assignment.mk
            (from_option (trim lib) (Assignment.title a) (up_title b))
            (from_option (trim lib) (Assignment.description a) (up_description b))
            (default (Assignment.course a) (up_course b))
            (default (Assignment.instructor a) (up_instructor b))
            (default (Assignment.dueDate a) (mjoin dueDate))
            (default (Assignment.maxMarks a) (up_maxMarks b))
            (default (Assignment.submissions a) (up_submissions b))
            (Assignment.createdAt a))
  end.

(** PUT /api/assignments/:id *)
Definition updateAssignment (w : World) (req : Req.t UpdateBody) : Response * World :=
  match auth req with
  | inl r => (r, w)
  | inr user =>
  match authorize [Instructor] user with
  | Some r => (r, w)
  | None =>
  let b := Req.body req in
  let errs :=
    (match up_title b with
     | None => []
     | Some t => check (isLength lib 3 (trim lib t)) "Title must be at least 3 characters"
     end ++
     match up_description b with
     | None => []
     | Some d =>
         check (isLength lib 10 (trim lib d)) "Description must be at least 10 characters"
     end)%list in
  if negb (bool_decide (errs = [])) then (json 400 (errors errs), w) else
  match assignmentDocs w !! Req.param req with
  | None => (json 404 (message "Assignment not found"), w)
  | Some assignment =>
  if negb (bool_decide (Assignment.instructor assignment = Actor.id user))
  then (json 403 (message "Not authorized to update this assignment"), w)
  else
  match apply_update b assignment with
  | None => (json 500 (message "Server error updating assignment"), w)
  | Some updatedAssignment =>
  (json 200 (message_assignment "Assignment updated successfully" (Req.param req)
                                updatedAssignment),
   set_assignmentDocs (<[Req.param req := updatedAssignment]> (assignmentDocs w)) w)
  end end end end.

(** DELETE /api/assignments/:id *)
Definition deleteAssignment (w : World) (req : Req.t unit) : Response * World :=
  match auth req with
  | inl r => (r, w)
  | inr user =>
  match authorize [Instructor] user with
  | Some r => (r, w)
  | None =>
  match assignmentDocs w !! Req.param req with
  | None => (json 404 (message "Assignment not found"), w)
  | Some assignment =>
  if negb (bool_decide (Assignment.instructor assignment = Actor.id user))
  then (json 403 (message "Not authorized to delete this assignment"), w)
  else
  match courseDocs w !! Assignment.course assignment with
  | None => (json 500 (message "Server error deleting assignment"), w)
  | Some course =>
  let course' :=
    Course.with_assignments (pull (Req.param req) (Course.assignments course)) course in
  (json 200 (message "Assignment deleted successfully"),
   set_assignmentDocs (delete (Req.param req) (assignmentDocs w))
     (set_courseDocs (<[Assignment.course assignment := course']> (courseDocs w)) w))
  end end end end.

(** POST /api/lectures *)
Definition uploadLecture (w : World) (env : LectureEnv) (req : Req.t LectureBody)
  : Response * World :=
  match auth req with
  | inl r => (r, w)
  | inr user =>
  match authorize [Instructor] user with
  | Some r => (r, w)
  | None =>
  match multer_single (100 * 1024 * 1024) (Req.files req) with
  | inl r => (r, w)
  | inr file =>
  let b := Req.body req in
  let title := trim lib (field (le_title b)) in
  let errs :=
    (check (isLength lib 3 title) "Title must be at least 3 characters" ++
     check (isMongoId lib (field (le_course b))) "Valid course ID is required")%list in
  match handleValidationErrors errs with
  | Some r => (r, w)
  | None =>
  match file with
  | None => (json 400 (message "Video file is required"), w)
  | Some file =>
  let course := field (le_course b) in
  match courseDocs w !! course with
  | None => (json 404 (message "Course not found"), w)
  | Some courseDoc =>
  if negb (bool_decide (Course.instructor courseDoc = Actor.id user))
  then (json 403 (message "Not authorized to add lectures to this course"), w)
  else
  match video_upload env file with
  | None => (json 500 (message "Server error uploading lecture"), w)
  | Some result =>
  match lecture_order lib b with
  | None =>
      (json 500 (message "Server error uploading lecture"),
       set_cloud (cloud w ++ [public_id result])%list w)
  | Some order =>
  let lecture :=
    Lecture.mk title (le_description b) course (secure_url result) (public_id result)
               (upload_duration result) order
               (bool_decide (le_isPreview b = Some "true")) (le_notes b) in
  let courseDoc' :=
    Course.with_lectures (Course.lectures courseDoc ++ [lecture_id env])%list courseDoc in
  (json 201 (message_lecture "Lecture uploaded successfully" (lecture_id env) lecture),
   set_issued ({[lecture_id env]} ∪ issued w)
     (set_cloud (cloud w ++ [public_id result])%list
        (set_courseDocs (<[course := courseDoc']> (courseDocs w))
           (set_lectureDocs (<[lecture_id env := lecture]> (lectureDocs w)) w))))
  end end end end end end end end.
End Routes.

(** ** Requests in sequence

    One request to one of the routes above, or a request to a route of
    [courses.js] or to another route of [lectures.js]: those never touch the
    assignment collection. *)

Inductive Op :=
| op_create (env : CreateEnv) (req : Req.t CreateBody)
| op_list (req : Req.t unit)
| op_submit (env : SubmitEnv) (req : Req.t SubmitBody)
| op_submissions (req : Req.t unit)
| op_grade (req : Req.t GradeBody)
| op_update (req : Req.t UpdateBody)
| op_delete (req : Req.t unit)
| op_upload_lecture (env : LectureEnv) (req : Req.t LectureBody)
| op_elsewhere (courses : gmap string Course.t) (lectures : gmap string Lecture.t)
               (users : gmap string UserDoc.t) (stored : list string)
               (generated : gset string).

(** The store after a request. *)
Definition after (lib : Library) (w : World) (op : Op) : World :=
  match op with
  | op_create env req => (createAssignment lib w env req).2
  | op_list req => (listAssignments w req).2
  | op_submit env req => (submitAssignment lib w env req).2
  | op_submissions req => (listSubmissions w req).2
  | op_grade req => (gradeSubmission lib w req).2
  | op_update req => (updateAssignment lib w req).2
  | op_delete req => (deleteAssignment w req).2
  | op_upload_lecture env req => (uploadLecture lib w env req).2
  | op_elsewhere courses lectures users stored generated =>
      mkWorld courses (assignmentDocs w) lectures users stored (generated ∪ issued w)
  end.

(** A new document never gets an ObjectId that was given out before. *)
Definition admissible (w : World) (op : Op) : Prop :=
  match op with
  | op_create env _ => new_id env ∉ issued w
  | op_upload_lecture env _ => lecture_id env ∉ issued w
  | _ => True
  end.

Definition step (lib : Library) (w w' : World) : Prop :=
  ∃ op, admissible w op ∧ w' = after lib w op.

(** An update that carries no [instructor] path. *)
Definition keeps_instructor (op : Op) : Prop :=
  match op with
  | op_update req => up_instructor (Req.body req) = None
  | _ => True
  end.

Definition step_keeping_instructor (lib : Library) (w w' : World) : Prop :=
  ∃ op, admissible w op ∧ keeps_instructor op ∧ w' = after lib w op.

(** Every assignment in the store has an ObjectId the driver generated. *)
Definition well_formed (w : World) : Prop :=
  dom (assignmentDocs w) ⊆ issued w.

(** ** The attachments of a submission, stated from the outcomes *)

Definition attachment_of (file : File) (outcome : option UploadResult)
  : option Attachment.t :=
  (λ result, Attachment.mk (originalname file) (secure_url result) (mimetype file))
    <$> outcome.

(** The files whose upload succeeded, in the order of [req.files]. *)
Definition uploaded (up : nat → File → option UploadResult) (fs : list File)
  : list Attachment.t :=
  omap id (imap (λ i file, attachment_of file (up i file)) fs).

(** ** A reference library

    Plain versions of the library functions for ASCII input: whitespace
    trimming, length in characters, [^[+-]?([0-9]*[.])?[0-9]+$] for numerals,
    twenty-four hexadecimal digits for ids and calendar dates [YYYY-MM-DD],
    cast to the milliseconds of their midnight in UTC. *)

Module Reference.
Definition is_space (c : ascii) : bool :=
  let n := nat_of_ascii c in
  bool_decide (n = 32 ∨ 9 ≤ n ≤ 13)%nat.

Definition is_digit (c : ascii) : bool :=
  let n := nat_of_ascii c in bool_decide (48 ≤ n ≤ 57)%nat.

Definition is_hex (c : ascii) : bool :=
  let n := nat_of_ascii c in
  bool_decide (48 ≤ n ≤ 57 ∨ 65 ≤ n ≤ 70 ∨ 97 ≤ n ≤ 102)%nat.

Fixpoint drop_spaces (l : list ascii) : list ascii :=
  match l with
  | c :: l' => if is_space c then drop_spaces l' else l
  | [] => []
  end.

Definition trim (s : string) : string :=
  string_of_list_ascii
    (rev (drop_spaces (rev (drop_spaces (list_ascii_of_string s))))).

Definition isLength (min : nat) (s : string) : bool :=
  bool_decide (min ≤ String.length s)%nat.

Definition digits (l : list ascii) : bool :=
  negb (bool_decide (l = [])) && forallb is_digit l.

Fixpoint split_dot (l : list ascii) : list ascii * option (list ascii) :=
  match l with
  | [] => ([], None)
  | c :: l' =>
      if bool_decide (c = "."%char) then ([], Some l')
      else let '(a, b) := split_dot l' in (c :: a, b)
  end.

Definition unsigned_numeric (l : list ascii) : bool :=
  match split_dot l with
  | (a, None) => digits a
  | (a, Some b) => forallb is_digit a && digits b
  end.

Definition isNumeric (s : string) : bool :=
  match list_ascii_of_string s with
  | c :: l =>
      if bool_decide (c = "+"%char ∨ c = "-"%char) then unsigned_numeric l
      else unsigned_numeric (c :: l)
  | [] => false
  end.

Definition isMongoId (s : string) : bool :=
  bool_decide (String.length s = 24%nat) && forallb is_hex (list_ascii_of_string s).

Definition number (l : list ascii) : Z :=
  foldl (λ n c, 10 * n + (Z.of_nat (nat_of_ascii c) - 48)) 0 l.

(** Year, month and day of [YYYY-MM-DD]. *)
Definition calendar_date (s : string) : option (Z * Z * Z) :=
  match list_ascii_of_string s with
  | [y1; y2; y3; y4; d1; m1; m2; d2; a1; a2] =>
      if forallb is_digit [y1; y2; y3; y4; m1; m2; a1; a2]
         && bool_decide (d1 = "-"%char) && bool_decide (d2 = "-"%char)
      then
        let m := number [m1; m2] in
        let d := number [a1; a2] in
        if bool_decide (1 ≤ m ≤ 12 ∧ 1 ≤ d ≤ 31)
        then Some (number [y1; y2; y3; y4], m, d) else None
      else None
  | _ => None
  end.

Definition isISO8601 (s : string) : bool :=
  bool_decide (is_Some (calendar_date s)).

(** Days from 1970-01-01 to a date of the proleptic Gregorian calendar. *)
Definition days_from_civil (y m d : Z) : Z :=
  let y := if bool_decide (m ≤ 2) then y - 1 else y in
  let era := y `div` 400 in
  let yoe := y - era * 400 in
  let mp := (m + 9) `mod` 12 in
  let doy := (153 * mp + 2) `div` 5 + d - 1 in
  let doe := yoe * 365 + yoe `div` 4 - yoe `div` 100 + doy in
  era * 146097 + doe - 719468.

Definition castDate (s : string) : option Z :=
  (λ '(y, m, d), days_from_civil y m d * 86400000) <$> calendar_date s.

(** A decimal numeral, or nothing but white space: the reference knows no
    exponent and no hexadecimal numeral. *)
Definition castNumber (s : string) : bool :=
  bool_decide (trim s = "") || isNumeric (trim s).

(** The 24 hexadecimal digits of an ObjectId. *)
Definition castObjectId (s : string) : bool := isMongoId s.

Definition library : Library :=
  mkLibrary trim isLength isNumeric isMongoId isISO8601 castDate castNumber castObjectId.
End Reference.

(** ** Preconditions of the operations, as the handlers test them *)

(** The request passes every test in front of the deadline guard: a student,
    files within multer's limits, content that is not empty once trimmed, an
    assignment whose course lists the student, and no submission of the
    student so far. *)
Definition reaches_guard (lib : Library) (w : World) (req : Req.t SubmitBody)
    (user : Actor.t) (a : Assignment.t) : Prop :=
  Req.user req = Some user ∧
  Actor.role user = Student ∧
  multer_array (10 * 1024 * 1024) 5 (Req.files req) = None ∧
  trim lib (field (content (Req.body req))) ≠ "" ∧
  assignmentDocs w !! Req.param req = Some a ∧
  (∃ c, courseDocs w !! Assignment.course a = Some c ∧
        Actor.id user ∈ Course.students c) ∧
  find_submission (Actor.id user) (Assignment.submissions a) = None.

(** The submission the handler pushes. *)
Definition new_submission (lib : Library) (env : SubmitEnv) (req : Req.t SubmitBody)
    (user : Actor.t) (a : Assignment.t) : Submission.t :=
  Submission.mk (Actor.id user)
    (trim lib (field (content (Req.body req))))
    (uploaded (upload_stream env) (Req.files req))
    (if bool_decide (now_status env > Assignment.dueDate a) then late else submitted)
    None None.

(** The body of a grading request passes its validators. *)
Definition grade_body_valid (lib : Library) (b : GradeBody) : Prop :=
  isMongoId lib (field (studentId b)) = true ∧ isNumeric lib (field (marks b)) = true.

(** The submission as the grade handler leaves it. *)
Definition graded_with (lib : Library) (b : GradeBody) (sub : Submission.t)
  : Submission.t :=
  Submission.mk (Submission.student sub) (Submission.content sub)
                (Submission.attachments sub) graded (marks b)
                (Some (from_option (trim lib) "" (feedback b))).

(** A grading request of the assignment's instructor with a valid body. *)
Definition grades_own_assignment (lib : Library) (w : World) (req : Req.t GradeBody)
    (user : Actor.t) (a : Assignment.t) : Prop :=
  Req.user req = Some user ∧
  Actor.role user = Instructor ∧
  grade_body_valid lib (Req.body req) ∧
  assignmentDocs w !! Req.param req = Some a ∧
  Assignment.instructor a = Actor.id user.

(** The order of a list of assignments as the route returns it: no entry
    is older than an entry after it. *)
Definition listed_newest_first (x y : string * Assignment.t * option UserDoc.t) : Prop :=
  Assignment.createdAt y.1.2 ≤ Assignment.createdAt x.1.2.

(** An upload request of the instructor of the course, with a valid title
    and course id. *)
Definition instructs_course (lib : Library) (w : World) (req : Req.t LectureBody)
    (user : Actor.t) (c : Course.t) : Prop :=
  Req.user req = Some user ∧
  Actor.role user = Instructor ∧
  isLength lib 3 (trim lib (field (le_title (Req.body req)))) = true ∧
  isMongoId lib (field (le_course (Req.body req))) = true ∧
  courseDocs w !! field (le_course (Req.body req)) = Some c ∧
  Course.instructor c = Actor.id user.

(** ** A course, an assignment and the people around them *)

Module Scenario.
Definition ada := "64b7f0a1c2d3e4f5a6b7c801".
Definition bob := "64b7f0a1c2d3e4f5a6b7c802".
Definition sam := "64b7f0a1c2d3e4f5a6b7c811".
Definition sue := "64b7f0a1c2d3e4f5a6b7c812".
Definition tom := "64b7f0a1c2d3e4f5a6b7c813".
Definition algebra := "64c7f0a1c2d3e4f5a6b7c901".
Definition essay := "64a7f0a1c2d3e4f5a6b7ca01".

(** 2026-01-01T00:00:00Z *)
Definition due : Z := 1767225600000.

Definition course0 : Course.t := Course.mk ada [sam; sue] [] [essay] true.

Definition assignment0 : Assignment.t :=
  Assignment.mk "Essay" "Write a short essay" algebra ada due "100" [] 1764547200000.

Definition world0 : World :=
  mkWorld {[algebra := course0]} {[essay := assignment0]} ∅
          {[ada := UserDoc.mk "Ada" "ada@edunexus.com";
            sam := UserDoc.mk "Sam" "sam@edunexus.com"]}
          [] {[essay; algebra]}.

Definition teacher : Actor.t := Actor.mk ada Instructor.
Definition colleague : Actor.t := Actor.mk bob Instructor.
Definition student1 : Actor.t := Actor.mk sam Student.
Definition student2 : Actor.t := Actor.mk sue Student.
Definition outsider : Actor.t := Actor.mk tom Student.

Definition notes : File := mkFile "notes.pdf" "application/pdf" "%PDF-1.7".
Definition broken : File := mkFile "broken.bin" "application/octet-stream" "0000".
Definition figure : File := mkFile "figure.png" "image/png" "PNG".

(** Cloudinary refuses [broken.bin] and stores everything else. *)
Definition cloudinary (i : nat) (file : File) : option UploadResult :=
  if bool_decide (originalname file = "broken.bin") then None
  else Some (mkUploadResult
               ("https://res.cloudinary.com/edunexus/" ++ originalname file)
               ("edunexus/assignments/" ++ originalname file) None).

Definition submit1 : Req.t SubmitBody :=
  Req.mk (Some student1) essay (mkSubmitBody (Some " my answer ")) [notes; broken; figure].

Definition submit1_again : Req.t SubmitBody :=
  Req.mk (Some student1) essay (mkSubmitBody (Some "another answer")) [].

(** Both readings of the clock before the deadline. *)
Definition in_time : SubmitEnv := mkSubmitEnv (due - 60000) cloudinary (due - 59000).

(** The guard passes one second before the deadline; the uploads end two
    seconds after it. *)
Definition across_deadline : SubmitEnv := mkSubmitEnv (due - 1000) cloudinary (due + 2000).

Definition too_late : SubmitEnv := mkSubmitEnv (due + 1) cloudinary (due + 2).

(** The store once Sam has submitted in time. *)
Definition world1 : World :=
  (submitAssignment Reference.library world0 in_time submit1).2.

Definition submission1 : Submission.t :=
  new_submission Reference.library in_time submit1 student1 assignment0.

Definition assignment1 : Assignment.t :=
  Assignment.with_submissions [submission1] assignment0.

Definition grade_70 : Req.t GradeBody :=
  Req.mk (Some teacher) essay (mkGradeBody (Some sam) (Some "70") (Some "fair")) [].

Definition grade_85 : Req.t GradeBody :=
  Req.mk (Some teacher) essay (mkGradeBody (Some sam) (Some "85") (Some " good ")) [].

Definition grade_absent : Req.t GradeBody :=
  Req.mk (Some teacher) essay (mkGradeBody (Some sue) (Some "50") None) [].

Definition grade_by_colleague : Req.t GradeBody :=
  Req.mk (Some colleague) essay (mkGradeBody (Some sam) (Some "10") None) [].

(** Bob grades with marks that are no number. *)
Definition grade_abc_by_colleague : Req.t GradeBody :=
  Req.mk (Some colleague) essay (mkGradeBody (Some sam) (Some "abc") None) [].

Definition submissions_by_colleague : Req.t unit :=
  Req.mk (Some colleague) essay tt [].

Definition submissions_by_teacher : Req.t unit :=
  Req.mk (Some teacher) essay tt [].

(** An update that sets the submissions of the essay to the empty list. *)
Definition clear_submissions : Req.t UpdateBody :=
  Req.mk (Some teacher) essay
         (mkUpdateBody None None None None None None (Some [])) [].

(** An update that hands the assignment to Bob. *)
Definition reassign : Req.t UpdateBody :=
  Req.mk (Some teacher) essay
         (mkUpdateBody None None None (Some bob) None None None) [].

Definition retitle : Req.t UpdateBody :=
  Req.mk (Some teacher) essay
         (mkUpdateBody (Some "Essay, second call") None None None None None None) [].

Definition submit2 : Req.t SubmitBody :=
  Req.mk (Some student2) essay (mkSubmitBody (Some "the answer of Sue")) [].

(** The store once Sue has submitted too and Sam has his grade. *)
Definition world1_later : World :=
  after Reference.library
    (after Reference.library world1 (op_submit in_time submit2))
    (op_grade grade_85).

(** The same, with the essay retitled in between. *)
Definition world1_retitled : World :=
  after Reference.library
    (after Reference.library
       (after Reference.library world1 (op_update retitle))
       (op_submit in_time submit2))
    (op_grade grade_85).

Definition quiz := "64a7f0a1c2d3e4f5a6b7ca02".

Definition create_quiz : Req.t CreateBody :=
  Req.mk (Some teacher) ""
         (mkCreateBody (Some "Quiz 1") (Some "Ten short questions") (Some algebra)
                       (Some "2026-02-01") None) [].

Definition quiz_env : CreateEnv := mkCreateEnv quiz 1765000000000.

(** The store with the essay and the quiz. *)
Definition world2 : World :=
  (createAssignment Reference.library world0 quiz_env create_quiz).2.

Definition quiz0 : Assignment.t :=
  Assignment.mk "Quiz 1" "Ten short questions" algebra ada 1769904000000 "100" []
                1765000000000.

Definition retitle_quiz : Req.t UpdateBody :=
  Req.mk (Some teacher) quiz
         (mkUpdateBody (Some "Quiz one") None None None None None None) [].

Definition quiz1 : Assignment.t :=
  Assignment.mk "Quiz one" "Ten short questions" algebra ada 1769904000000 "100" []
                1765000000000.

Definition course2 : Course.t := Course.mk ada [sam; sue] [] [essay; quiz] true.

Definition delete_essay : Req.t unit := Req.mk (Some teacher) essay tt [].

(** The store once the essay is deleted. *)
Definition world3 : World := (deleteAssignment world0 delete_essay).2.

Definition list_for_sam : Req.t unit := Req.mk (Some student1) algebra tt [].
Definition list_for_tom : Req.t unit := Req.mk (Some outsider) algebra tt [].

Definition slides : File := mkFile "week1.pdf" "application/pdf" "%PDF-1.7".
Definition video : File := mkFile "week1.mp4" "video/mp4" "ftypisom".

Definition lecture_body : LectureBody :=
  mkLectureBody (Some "Week 1") None (Some algebra) None None None.

Definition lecture_with_slides : Req.t LectureBody :=
  Req.mk (Some teacher) "" lecture_body [slides].

Definition lecture_without_file : Req.t LectureBody :=
  Req.mk (Some teacher) "" lecture_body [].

Definition lecture_with_video : Req.t LectureBody :=
  Req.mk (Some teacher) "" lecture_body [video].

Definition cloudinary_down : LectureEnv :=
  mkLectureEnv "64d7f0a1c2d3e4f5a6b7cb01" (λ _, None).

Definition cloudinary_up : LectureEnv :=
  mkLectureEnv "64d7f0a1c2d3e4f5a6b7cb01"
    (λ file, Some (mkUploadResult
                     ("https://res.cloudinary.com/edunexus/" ++ originalname file)
                     ("edunexus/lectures/" ++ originalname file) (Some "1800"))).
End Scenario.

(** ** Histories of submissions

    What the requests do to the submissions an assignment embeds. *)

(** An update that carries no [submissions] path. *)
Definition keeps_submissions (op : Op) : Prop :=
  match op with
  | op_update req => up_submissions (Req.body req) = None
  | _ => True
  end.

Definition step_keeping_submissions (lib : Library) (w w' : World) : Prop :=
  ∃ op, admissible w op ∧ keeps_submissions op ∧ w' = after lib w op.

(** No assignment embeds two submissions of one student. *)
Definition one_submission_each (w : World) : Prop :=
  ∀ id a, assignmentDocs w !! id = Some a →
          NoDup (Submission.student <$> Assignment.submissions a).

(** Marks are on graded submissions only. *)
Definition marks_only_when_graded (w : World) : Prop :=
  ∀ id a sub, assignmentDocs w !! id = Some a →
              sub ∈ Assignment.submissions a →
              is_Some (Submission.marks sub) → Submission.status sub = graded.

(** [sub'] is [sub] later on: the same student, content and attachments,
    and the same status unless it was graded in between. *)
Definition later_submission (sub sub' : Submission.t) : Prop :=
  Submission.student sub' = Submission.student sub ∧
  Submission.content sub' = Submission.content sub ∧
  Submission.attachments sub' = Submission.attachments sub ∧
  (Submission.status sub' = Submission.status sub ∨ Submission.status sub' = graded).

(** [l'] is [l] later on: every submission of [l] is still at its place. *)
Definition later_submissions (l l' : list Submission.t) : Prop :=
  ∀ i sub, l !! i = Some sub → ∃ sub', l' !! i = Some sub' ∧ later_submission sub sub'.

(** The body of an update passes its validators. *)
Definition update_body_valid (lib : Library) (b : UpdateBody) : Prop :=
  (∀ t, up_title b = Some t → isLength lib 3 (trim lib t) = true) ∧
  (∀ d, up_description b = Some d → isLength lib 10 (trim lib d) = true).

(** ** The other routes: lectures and courses

    The routes of [backend/routes/lectures.js] besides the upload, and the
    routes of [backend/routes/courses.js].  They read and write paths of the
    lecture, course and user documents that the routes above never touch;
    those paths are kept beside the store, under the id of their document.
    A document exists when it is in its collection of the store. *)

(** Modelled from the spec: the resources of [models/Lecture], not among the
    sources. *)
Module Resource.
Record t := mk { name : string; url : string; type : string }.
End Resource.

(** Modelled from the spec: the paths of [models/Course] that the course
    routes validate and query, with the timestamp the list of courses is
    sorted by.  A document may lack a path. *)
Module Listing.
Record t := mk {
  title : option string;
  description : option string;
  category : option string;
  level : option string;
  createdAt : option Z
}.

Definition blank : t := mk None None None None None.
End Listing.

(** Modelled from the spec: the paths of [models/User] that the course
    routes read and write. *)
Module Account.
Record t := mk {
  avatar : option string;
  enrolledCourses : list string;
  createdCourses : list string
}.

Definition empty : t := mk None [] [].

Definition with_enrolledCourses (l : list string) (u : t) : t :=
  mk (avatar u) l (createdCourses u).

Definition with_createdCourses (l : list string) (u : t) : t :=
  mk (avatar u) (enrolledCourses u) l.
End Account.

Record Campus := mkCampus {
  store : World;
  resources : gmap string (list Resource.t);
  listings : gmap string Listing.t;
  accounts : gmap string Account.t
}.

Definition set_store (w : World) (k : Campus) : Campus :=
  mkCampus w (resources k) (listings k) (accounts k).

Definition set_resources (m : gmap string (list Resource.t)) (k : Campus) : Campus :=
  mkCampus (store k) m (listings k) (accounts k).

Definition set_listings (m : gmap string Listing.t) (k : Campus) : Campus :=
  mkCampus (store k) (resources k) m (accounts k).

Definition set_accounts (m : gmap string Account.t) (k : Campus) : Campus :=
  mkCampus (store k) (resources k) (listings k) m.

(** [lecture.resources]; a lecture gets the empty array when it is created. *)
Definition resources_of (k : Campus) (id : string) : list Resource.t :=
  default [] (resources k !! id).

Definition account_of (k : Campus) (id : string) : Account.t :=
  default Account.empty (accounts k !! id).

(** [User.findByIdAndUpdate(id, update)]: nothing happens when there is no
    such user. *)
Definition update_account (f : Account.t → Account.t) (id : string) (k : Campus)
  : Campus :=
  match userDocs (store k) !! id with
  | None => k
  | Some _ => set_accounts (<[id := f (account_of k id)]> (accounts k)) k
  end.

Definition listing_of (k : Campus) (id : string) : Listing.t :=
  default Listing.blank (listings k !! id).

(** The course document as [res.json] sends it. *)
Definition CourseView : Type := string * Course.t * Listing.t.

Definition course_view (k : Campus) (id : string) : option CourseView :=
  (λ c, (id, c, listing_of k id)) <$> courseDocs (store k) !! id.

(** [populate(path, 'name email avatar')] *)
Definition populate_user (k : Campus) (id : string)
  : option (UserDoc.t * option string) :=
  (λ u, (u, Account.avatar (account_of k id))) <$> userDocs (store k) !! id.

(** [populate('lectures', 'title duration order')]: the documents that are
    found, in the order of the references, with the paths selected. *)
Definition populate_lectures (k : Campus) (ids : list string)
  : list (string * (string * option string * string)) :=
  omap (λ id, (λ l, (id, (Lecture.title l, Lecture.duration l, Lecture.order l)))
                <$> lectureDocs (store k) !! id) ids.

(** [populate('lectures', 'title duration order videoUrl isPreview')] *)
Definition populate_lectures_full (k : Campus) (ids : list string)
  : list (string * (string * option string * string * string * bool)) :=
  omap (λ id, (λ l, (id, (Lecture.title l, Lecture.duration l, Lecture.order l,
                          Lecture.videoUrl l, Lecture.isPreview l)))
                <$> lectureDocs (store k) !! id) ids.

(** [populate('assignments', 'title dueDate maxMarks')] *)
Definition populate_assignments (k : Campus) (ids : list string)
  : list (string * (string * Z * string)) :=
  omap (λ id, (λ a, (id, (Assignment.title a, Assignment.dueDate a,
                          Assignment.maxMarks a)))
                <$> assignmentDocs (store k) !! id) ids.

(** A course of the list of courses, and the course of GET /:id. *)
Record ListedCourse := mkListedCourse {
  lc_course : CourseView;
  lc_instructor : option (UserDoc.t * option string);
  lc_lectures : list (string * (string * option string * string))
}.

Record ShownCourse := mkShownCourse {
  sc_course : CourseView;
  sc_instructor : option (UserDoc.t * option string);
  sc_lectures : list (string * (string * option string * string * string * bool));
  sc_assignments : list (string * (string * Z * string))
}.

(** What the routes below send on success, besides the answers above. *)
Inductive Answer :=
| answered (r : Response)
| json_lectures (l : list (string * Lecture.t * list Resource.t))
| json_lecture (m : string) (id : string) (l : Lecture.t) (rs : list Resource.t)
| json_courses (courses : list ListedCourse) (totalPages currentPage total : Z)
| json_my_courses (enrolled created : list CourseView)
| json_course (c : ShownCourse)
| json_course_message (status : Z) (m : string) (c : CourseView)
                      (instructor : option (UserDoc.t * option string)).

Definition answer_ok (x : Answer) : bool :=
  match x with
  | answered r => is_success r
  | json_course_message s _ _ _ => bool_decide (200 ≤ s < 300)
  | _ => true
  end.

Definition answer_forbidden (x : Answer) : bool :=
  match x with
  | answered r => is_forbidden r
  | _ => false
  end.

(** What the routes below use of JavaScript, of express-validator and of
    MongoDB, besides the library above: [isURL], [parseInt] ([None] is
    [NaN]), the case-insensitive search for a regular expression ([None] is
    a pattern MongoDB refuses), and the order of the numbers two numerals are
    cast to. *)
Record Runtime := mkRuntime {
  isURL : string → bool;
  parseInt : string → option Z;
  regex_i : string → option (string → bool);
  number_leb : string → string → bool
}.

Definition by_order (rt : Runtime) (x y : string * Lecture.t * list Resource.t) : Prop :=
  number_leb rt (Lecture.order x.1.2) (Lecture.order y.1.2) = true.

#[global] Instance by_order_dec rt x y : Decision (by_order rt x y).
Proof. unfold by_order. apply _. Defined.

(** [Lecture.find({ course: id })] *)
Definition lectures_by_course (id : string) (k : Campus)
  : list (string * Lecture.t * list Resource.t) :=
  (λ p, (p.1, p.2, resources_of k p.1))
    <$> filter (λ p, Lecture.course p.2 = id) (map_to_list (lectureDocs (store k))).

(** The body of an update of a lecture: every path of the lecture schema it
    carries is set. *)
Record LectureUpdate := mkLectureUpdate {
  lu_title : option string;
  lu_description : option string;
  lu_course : option string;
  lu_videoUrl : option string;
  lu_videoId : option string;
  lu_duration : option string;
  lu_order : option string;
  lu_isPreview : option bool;
  lu_notes : option string;
  lu_resources : option (list Resource.t)
}.

Record ResourceBody := mkResourceBody {
  rb_name : option string;
  rb_url : option string;
  rb_type : option string
}.

(** Whether [cloudinary.uploader.destroy] comes back for a public id, or
    throws. *)
Record DestroyEnv := mkDestroyEnv { destroy : string → bool }.

Section LectureRoutes.
Context (lib : Library) (rt : Runtime).

(** POST /api/lectures, on the store. *)
Definition uploadLectureK (k : Campus) (env : LectureEnv) (req : Req.t LectureBody)
  : Answer * Campus :=
  let '(r, w) := uploadLecture lib (store k) env req in (answered r, set_store w k).

(** GET /api/lectures/:courseId *)
Definition listLectures (k : Campus) (req : Req.t unit) : Answer * Campus :=
  match auth req with
  | inl r => (answered r, k)
  | inr user =>
  match courseDocs (store k) !! Req.param req with
  | None => (answered (json 404 (message "Course not found")), k)
  | Some course =>
  let isEnrolled := includes (Actor.id user) (Course.students course) in
  let isInstructor := bool_decide (Course.instructor course = Actor.id user) in
  if negb isEnrolled && negb isInstructor
  then (answered (json 403 (message "Not authorized to view lectures")), k)
  else (json_lectures (merge_sort (by_order rt) (lectures_by_course (Req.param req) k)), k)
  end end.



(** DELETE /api/lectures/:id *)
Definition deleteLecture (k : Campus) (env : DestroyEnv) (req : Req.t unit)
  : Answer * Campus :=
  match auth req with
  | inl r => (answered r, k)
  | inr user =>
  match authorize [Instructor] user with
  | Some r => (answered r, k)
  | None =>
  match lectureDocs (store k) !! Req.param req with
  | None => (answered (json 404 (message "Lecture not found")), k)
  | Some lecture =>
  match courseDocs (store k) !! Lecture.course lecture with
  | None => (answered (json 500 (message "Server error deleting lecture")), k)
  | Some course =>
  if negb (bool_decide (Course.instructor course = Actor.id user))
  then (answered (json 403 (message "Not authorized to delete this lecture")), k)
  else
  let stored :=
    if destroy env (Lecture.videoId lecture)
    then filter (λ x, x ≠ Lecture.videoId lecture) (cloud (store k))
    else cloud (store k) in
  let course' :=
    Course.with_lectures (pull (Req.param req) (Course.lectures course)) course in
  (answered (json 200 (message "Lecture deleted successfully")),
   set_resources (delete (Req.param req) (resources k))
     (set_store
        (set_cloud stored
           (set_lectureDocs (delete (Req.param req) (lectureDocs (store k)))
              (set_courseDocs (<[Lecture.course lecture := course']> (courseDocs (store k)))
                 (store k)))) k))
  end end end end.

(** [isIn(['pdf', 'doc', 'ppt', 'link', 'other'])] *)
Definition resource_types : list string := ["pdf"; "doc"; "ppt"; "link"; "other"].

(** POST /api/lectures/:id/resources *)
Definition addResource (k : Campus) (req : Req.t ResourceBody) : Answer * Campus :=
  match auth req with
  | inl r => (answered r, k)
  | inr user =>
  match authorize [Instructor] user with
  | Some r => (answered r, k)
  | None =>
  let b := Req.body req in
  let name := trim lib (field (rb_name b)) in
  let errs :=
    (check (negb (bool_decide (name = ""))) "Resource name is required" ++
     check (isURL rt (field (rb_url b))) "Valid URL is required" ++
     check (bool_decide (field (rb_type b) ∈ resource_types)) "Invalid resource type")%list in
  if negb (bool_decide (errs = [])) then (answered (json 400 (errors errs)), k) else
  match lectureDocs (store k) !! Req.param req with
  | None => (answered (json 404 (message "Lecture not found")), k)
  | Some lecture =>
  match courseDocs (store k) !! Lecture.course lecture with
  | None => (answered (json 500 (message "Server error adding resource")), k)
  | Some course =>
  if negb (bool_decide (Course.instructor course = Actor.id user))
  then (answered (json 403 (message "Not authorized to add resources to this lecture")), k)
  else
  let rs :=
    (resources_of k (Req.param req)
     ++ [Resource.mk name (field (rb_url b)) (field (rb_type b))])%list in
  (json_lecture "Resource added successfully" (Req.param req) lecture rs,
   set_resources (<[Req.param req := rs]> (resources k)) k)
  end end end end.
End LectureRoutes.

(** The body of a course request: the paths of the course schema it
    carries. *)
Record CourseBody := mkCourseBody {
  cb_title : option string;
  cb_description : option string;
  cb_category : option string;
  cb_level : option string;
  cb_instructor : option string;
  cb_students : option (list string);
  cb_lectures : option (list string);
  cb_assignments : option (list string);
  cb_isPublished : option bool
}.

(** [new Course(..)] draws an ObjectId, [save()] stamps [createdAt], and the
    schema, which is not among the sources, gives [isPublished] its
    default. *)
Record CourseEnv := mkCourseEnv {
  course_id : string;
  course_now : Z;
  published_default : bool
}.

(** [req.query] of the list of courses. *)
Record CourseQuery := mkCourseQuery {
  q_category : option string;
  q_level : option string;
  q_search : option string;
  q_page : option string;
  q_limit : option string
}.

(** [isIn(['beginner', 'intermediate', 'advanced'])] *)
Definition course_levels : list string := ["beginner"; "intermediate"; "advanced"].

(** [/^[0-9a-fA-F]{24}$/] *)
Definition course_id_format (id : string) : bool :=
  bool_decide (String.length id = 24%nat)
  && forallb Reference.is_hex (list_ascii_of_string id).

(** A query parameter that is absent or empty is not a filter:
    [if (category) ..]. *)
Definition given (o : option string) : option string :=
  match o with
  | Some "" | None => None
  | Some s => Some s
  end.

(** [Math.max(1, parseInt(page) || 1)]; an absent [page] is 1. *)
Definition page_number (rt : Runtime) (q : CourseQuery) : Z :=
  Z.max 1 match q_page q with
          | None => 1
          | Some s => match parseInt rt s with
                      | None | Some 0 => 1
                      | Some n => n
                      end
          end.

(** [Math.min(50, Math.max(1, parseInt(limit) || 10))]; an absent [limit]
    is 10. *)
Definition page_limit (rt : Runtime) (q : CourseQuery) : Z :=
  Z.min 50 (Z.max 1 match q_limit q with
                    | None => 10
                    | Some s => match parseInt rt s with
                                | None | Some 0 => 10
                                | Some n => n
                                end
                    end).

(** [Math.ceil(total / limitNum)], for a positive [limitNum]. *)
Definition total_pages (total limitNum : Z) : Z :=
  (total + limitNum - 1) `div` limitNum.

(** [limit(limitNum).skip((pageNum - 1) * limitNum)]: the page of a list. *)
Definition page_of {A} (found : list A) (pageNum limitNum : Z) : list A :=
  take (Z.to_nat limitNum) (drop (Z.to_nat ((pageNum - 1) * limitNum)) found).

(** A document without [createdAt] sorts as the oldest. *)
Definition stamp_le (a b : option Z) : Prop :=
  match a, b with
  | None, _ => True
  | Some _, None => False
  | Some x, Some y => x ≤ y
  end.

#[global] Instance stamp_le_dec a b : Decision (stamp_le a b).
Proof. destruct a, b; simpl; apply _. Defined.

(** [sort({ createdAt: -1 })] on courses *)
Definition newest_course_first (x y : CourseView) : Prop :=
  stamp_le (Listing.createdAt y.2) (Listing.createdAt x.2).

#[global] Instance newest_course_first_dec x y : Decision (newest_course_first x y).
Proof. unfold newest_course_first. apply _. Defined.

Section CourseRoutes.
Context (lib : Library) (rt : Runtime).

(** The filter of the list of courses: published, of the category and of
    the level asked for, and with a title or a description the search
    pattern is found in. *)
Definition course_matches (q : CourseQuery) (pattern : option (string → bool))
    (v : CourseView) : bool :=
  Course.isPublished v.1.2
  && match given (q_category q) with
     | None => true
     | Some c => bool_decide (Listing.category v.2 = Some c)
     end
  && match given (q_level q) with
     | None => true
     | Some l => bool_decide (Listing.level v.2 = Some l)
     end
  && match pattern with
     | None => true
     | Some found =>
         from_option found false (Listing.title v.2)
         || from_option found false (Listing.description v.2)
     end.

Definition all_courses (k : Campus) : list CourseView :=
  (λ p, (p.1, p.2, listing_of k p.1)) <$> map_to_list (courseDocs (store k)).

Definition list_course (k : Campus) (v : CourseView) : ListedCourse :=
  mkListedCourse v (populate_user k (Course.instructor v.1.2))
                 (populate_lectures k (Course.lectures v.1.2)).

(** GET /api/courses *)
Definition listCourses (k : Campus) (q : CourseQuery) : Answer * Campus :=
  let pageNum := page_number rt q in
  let limitNum := page_limit rt q in
  match match given (q_search q) with
        | None => Some None
        | Some s => Some <$> regex_i rt s
        end with
  | None => (answered (json 500 (message "Server error fetching courses")), k)
  | Some pattern =>
  let found :=
    merge_sort newest_course_first
               (filter (λ v, course_matches q pattern v = true) (all_courses k)) in
  let courses := page_of found pageNum limitNum in
  let total := Z.of_nat (length found) in
  (json_courses (list_course k <$> courses) (total_pages total limitNum) pageNum total, k)
  end.

(** GET /api/courses/my-courses *)
Definition myCourses (k : Campus) (req : Req.t unit) : Answer * Campus :=
  match auth req with
  | inl r => (answered r, k)
  | inr user =>
  match userDocs (store k) !! Actor.id user with
  | None => (answered (json 500 (message "Server error fetching courses")), k)
  | Some _ =>
  let account := account_of k (Actor.id user) in
  (json_my_courses (omap (course_view k) (Account.enrolledCourses account))
                   (omap (course_view k) (Account.createdCourses account)), k)
  end end.

(** GET /api/courses/:id *)
Definition getCourse (k : Campus) (req : Req.t unit) : Answer * Campus :=
  if negb (course_id_format (Req.param req))
  then (answered (json 400 (message "Invalid course ID format")), k)
  else
  match course_view k (Req.param req) with
  | None => (answered (json 404 (message "Course not found")), k)
  | Some v =>
  (json_course
     (mkShownCourse v (populate_user k (Course.instructor v.1.2))
                    (populate_lectures_full k (Course.lectures v.1.2))
                    (populate_assignments k (Course.assignments v.1.2))), k)
  end.

(** POST /api/courses *)
Definition createCourse (k : Campus) (env : CourseEnv) (req : Req.t CourseBody)
  : Answer * Campus :=
  match auth req with
  | inl r => (answered r, k)
  | inr user =>
  match authorize [Instructor] user with
  | Some r => (answered r, k)
  | None =>
  let b := Req.body req in
  let title := trim lib (field (cb_title b)) in
  let description := trim lib (field (cb_description b)) in
  let errs :=
    (check (isLength lib 3 title) "Title must be at least 3 characters" ++
     check (isLength lib 10 description) "Description must be at least 10 characters" ++
     check (negb (bool_decide (field (cb_category b) = ""))) "Category is required" ++
     check (bool_decide (field (cb_level b) ∈ course_levels)) "Invalid level")%list in
  match handleValidationErrors errs with
  | Some r => (answered r, k)
  | None =>
  let course :=
    Course.mk (Actor.id user) (default [] (cb_students b)) (default [] (cb_lectures b))
              (default [] (cb_assignments b))
              (default (published_default env) (cb_isPublished b)) in
  let listing :=
    Listing.mk (Some title) (Some description) (cb_category b) (cb_level b)
               (Some (course_now env)) in
  let w := store k in
  let k' :=
    set_listings (<[course_id env := listing]> (listings k))
      (set_store
         (set_issued ({[course_id env]} ∪ issued w)
            (set_courseDocs (<[course_id env := course]> (courseDocs w)) w)) k) in
  (json_course_message 201 "Course created successfully" (course_id env, course, listing)
                       None,
   update_account
     (λ u, Account.with_createdCourses (Account.createdCourses u ++ [course_id env])%list u)
     (Actor.id user) k')
  end end end.

Definition apply_course_update (b : CourseBody) (c : Course.t) : Course.t :=
  Course.mk (default (Course.instructor c) (cb_instructor b))
            (default (Course.students c) (cb_students b))
            (default (Course.lectures c) (cb_lectures b))
            (default (Course.assignments c) (cb_assignments b))
            (default (Course.isPublished c) (cb_isPublished b)).

Definition apply_listing_update (b : CourseBody) (l : Listing.t) : Listing.t :=
  Listing.mk (from_option Some (Listing.title l) (cb_title b))
             (from_option Some (Listing.description l) (cb_description b))
             (from_option Some (Listing.category l) (cb_category b))
             (from_option Some (Listing.level l) (cb_level b))
             (Listing.createdAt l).

(** PUT /api/courses/:id *)
Definition updateCourse (k : Campus) (req : Req.t CourseBody) : Answer * Campus :=
  match auth req with
  | inl r => (answered r, k)
  | inr user =>
  match authorize [Instructor] user with
  | Some r => (answered r, k)
  | None =>
  match courseDocs (store k) !! Req.param req with
  | None => (answered (json 404 (message "Course not found")), k)
  | Some course =>
  if negb (bool_decide (Course.instructor course = Actor.id user))
  then (answered (json 403 (message "Not authorized to update this course")), k)
  else
  let updatedCourse := apply_course_update (Req.body req) course in
  let listing := apply_listing_update (Req.body req) (listing_of k (Req.param req)) in
  let k' :=
    set_listings (<[Req.param req := listing]> (listings k))
      (set_store
         (set_courseDocs (<[Req.param req := updatedCourse]> (courseDocs (store k)))
                         (store k)) k) in
  (json_course_message 200 "Course updated successfully"
                       (Req.param req, updatedCourse, listing)
                       (populate_user k' (Course.instructor updatedCourse)),
   k')
  end end end.

(** DELETE /api/courses/:id *)
Definition deleteCourse (k : Campus) (req : Req.t unit) : Answer * Campus :=
  match auth req with
  | inl r => (answered r, k)
  | inr user =>
  match authorize [Instructor; Admin] user with
  | Some r => (answered r, k)
  | None =>
  match courseDocs (store k) !! Req.param req with
  | None => (answered (json 404 (message "Course not found")), k)
  | Some course =>
  if negb (bool_decide (Actor.role user = Admin))
     && negb (bool_decide (Course.instructor course = Actor.id user))
  then (answered (json 403 (message "Not authorized to delete this course")), k)
  else
  let k' :=
    set_listings (delete (Req.param req) (listings k))
      (set_store
         (set_courseDocs (delete (Req.param req) (courseDocs (store k))) (store k)) k) in
  (answered (json 200 (message "Course deleted successfully")),
   update_account
     (λ u, Account.with_createdCourses (pull (Req.param req) (Account.createdCourses u)) u)
     (Course.instructor course) k')
  end end end.

(** POST /api/courses/:id/enroll *)
Definition enroll (k : Campus) (req : Req.t unit) : Answer * Campus :=
  match auth req with
  | inl r => (answered r, k)
  | inr user =>
  match authorize [Student] user with
  | Some r => (answered r, k)
  | None =>
  match courseDocs (store k) !! Req.param req with
  | None => (answered (json 404 (message "Course not found")), k)
  | Some course =>
  if negb (Course.isPublished course)
  then (answered (json 400 (message "Course is not published yet")), k)
  else if includes (Actor.id user) (Course.students course)
  then (answered (json 400 (message "Already enrolled in this course")), k)
  else
  let course' :=
    Course.mk (Course.instructor course) (Course.students course ++ [Actor.id user])%list
              (Course.lectures course) (Course.assignments course)
              (Course.isPublished course) in
  let k' :=
    set_store
      (set_courseDocs (<[Req.param req := course']> (courseDocs (store k))) (store k)) k in
  (answered (json 200 (message "Successfully enrolled in course")),
   update_account
     (λ u, Account.with_enrolledCourses (Account.enrolledCourses u ++ [Req.param req])%list u)
     (Actor.id user) k')
  end end end.
End CourseRoutes.

(** ** The route guard of the frontend

    [frontend/src/components/ProtectedRoute.js]: what the component renders
    for the state of the authentication context and the roles a route
    allows. *)

Inductive Rendered :=
| spinner
| navigate_login
| navigate_dashboard_with_toast
| children.

(** What [useAuth()] gives: the flags, and the role of the user if there
    is one. *)
Record AuthState := mkAuthState {
  isAuthenticated : bool;
  user_role : option string;
  loading : bool
}.

(** [user.role] throws when there is no user: a context that is
    authenticated without a user cannot pass a route that names its
    roles. *)
Inductive Render := rendered (r : Rendered) | type_error.

Definition ProtectedRoute (ctx : AuthState) (allowedRoles : list string) : Render :=
  if loading ctx then rendered spinner
  else if negb (isAuthenticated ctx) then rendered navigate_login
  else if bool_decide (0 < length allowedRoles)%nat
  then match user_role ctx with
       | None => type_error
       | Some role =>
           if negb (includes role allowedRoles)
           then rendered navigate_dashboard_with_toast
           else rendered children
       end
  else rendered children.

(** ** Preconditions of the lecture and course routes *)

(** A request of the instructor of the course a lecture belongs to. *)
Definition manages_lecture {B} (k : Campus) (req : Req.t B) (user : Actor.t)
    (lecture : Lecture.t) (course : Course.t) : Prop :=
  Req.user req = Some user ∧
  Actor.role user = Instructor ∧
  lectureDocs (store k) !! Req.param req = Some lecture ∧
  courseDocs (store k) !! Lecture.course lecture = Some course ∧
  Course.instructor course = Actor.id user.

Definition lecture_update_valid (lib : Library) (b : LectureUpdate) : Prop :=
  ∀ t, lu_title b = Some t → isLength lib 3 (trim lib t) = true.

Definition resource_body_valid (lib : Library) (rt : Runtime) (b : ResourceBody) : Prop :=
  trim lib (field (rb_name b)) ≠ "" ∧
  isURL rt (field (rb_url b)) = true ∧
  field (rb_type b) ∈ resource_types.

(** The order of numbers is total and transitive. *)
Definition number_order (rt : Runtime) : Prop :=
  (∀ x y, number_leb rt x y = true ∨ number_leb rt y x = true) ∧
  (∀ x y z, number_leb rt x y = true → number_leb rt y z = true →
            number_leb rt x z = true).

(** The body of a request for a new assignment passes its validators. *)
Definition create_body_valid (lib : Library) (b : CreateBody) : Prop :=
  isLength lib 3 (trim lib (field (cr_title b))) = true ∧
  isLength lib 10 (trim lib (field (cr_description b))) = true ∧
  isMongoId lib (field (cr_course b)) = true ∧
  isISO8601 lib (field (cr_dueDate b)) = true ∧
  (∀ m, cr_maxMarks b = Some m → isNumeric lib m = true).

(** ** A reference runtime

    One instance of what the lecture and course routes use from outside, for
    the examples: the integers of [parseInt], URLs with a protocol, search
    patterns that are plain words, and numerals in their order as numbers. *)

Module ReferenceRuntime.
Definition is_alnum (c : ascii) : bool :=
  let n := nat_of_ascii c in
  bool_decide (48 ≤ n ≤ 57 ∨ 65 ≤ n ≤ 90 ∨ 97 ≤ n ≤ 122)%nat.

Definition lower (c : ascii) : ascii :=
  let n := nat_of_ascii c in
  if bool_decide (65 ≤ n ≤ 90)%nat then ascii_of_nat (n + 32) else c.

Definition hex_value (c : ascii) : Z :=
  let n := Z.of_nat (nat_of_ascii c) in
  if bool_decide (48 ≤ n ≤ 57) then n - 48
  else if bool_decide (65 ≤ n ≤ 70) then n - 55
  else n - 87.

Fixpoint leading (p : ascii → bool) (l : list ascii) : list ascii :=
  match l with
  | c :: l' => if p c then c :: leading p l' else []
  | [] => []
  end.

(** The digits [parseInt] reads, and their radix: 16 after [0x], else 10. *)
Definition numeral (l : list ascii) : option Z :=
  match l with
  | "0"%char :: x :: l' =>
      if bool_decide (x = "x"%char ∨ x = "X"%char)
      then match leading Reference.is_hex l' with
           | [] => None
           | ds => Some (foldl (λ n c, 16 * n + hex_value c) 0 ds)
           end
      else Some (Reference.number (leading Reference.is_digit l))
  | _ =>
      match leading Reference.is_digit l with
      | [] => None
      | ds => Some (Reference.number ds)
      end
  end.

(** [parseInt(s)]: leading white space, a sign, then the digits as far as
    they go; [None] is [NaN]. *)
Definition parseInt (s : string) : option Z :=
  match Reference.drop_spaces (list_ascii_of_string s) with
  | "-"%char :: l => Z.opp <$> numeral l
  | "+"%char :: l => numeral l
  | l => numeral l
  end.

Fixpoint starts_with (p l : list ascii) : bool :=
  match p, l with
  | [], _ => true
  | c :: p', d :: l' => bool_decide (c = d) && starts_with p' l'
  | _ :: _, [] => false
  end.

Fixpoint occurs (p l : list ascii) : bool :=
  starts_with p l || match l with
                     | [] => false
                     | _ :: l' => occurs p l'
                     end.

(** A URL of the examples: [http://] or [https://], then a host with a dot
    and no white space. *)
Definition isURL (s : string) : bool :=
  let l := list_ascii_of_string s in
  let rest :=
    if starts_with (list_ascii_of_string "https://") l then Some (drop 8 l)
    else if starts_with (list_ascii_of_string "http://") l then Some (drop 7 l)
    else None in
  match rest with
  | Some host =>
      negb (existsb Reference.is_space host)
      && bool_decide ("."%char ∈ host)
      && negb (starts_with ["."%char] host)
  | None => false
  end.

(** A search pattern of the examples: a word of letters and digits, found
    wherever it occurs, whatever the case.  The reference takes no other
    pattern. *)
Definition regex_i (pattern : string) : option (string → bool) :=
  let p := list_ascii_of_string pattern in
  if forallb is_alnum p
  then Some (λ s, occurs (lower <$> p) (lower <$> list_ascii_of_string s))
  else None.

(** A numeral that is no integer counts as 0. *)
Definition number_leb (x y : string) : bool :=
  bool_decide (default 0 (parseInt x) ≤ default 0 (parseInt y)).

Definition runtime : Runtime := mkRuntime isURL parseInt regex_i number_leb.
End ReferenceRuntime.

(** ** A campus for the examples

    The algebra course of the scenario above with two lectures, an
    unpublished course of the same instructor, and the users. *)

Module Semester.
Import Scenario.

Definition geometry := "64c7f0a1c2d3e4f5a6b7c902".
Definition topology := "64c7f0a1c2d3e4f5a6b7c903".
Definition week1 := "64d7f0a1c2d3e4f5a6b7cb11".
Definition week2 := "64d7f0a1c2d3e4f5a6b7cb12".
Definition week3 := "64d7f0a1c2d3e4f5a6b7cb13".

Definition lecture1 : Lecture.t :=
  Lecture.mk "Week 1" None algebra "https://res.cloudinary.com/edunexus/v1.mp4"
             "edunexus/lectures/v1" (Some "1800") "2" false None.

Definition lecture2 : Lecture.t :=
  Lecture.mk "Week 2" None algebra "https://res.cloudinary.com/edunexus/v2.mp4"
             "edunexus/lectures/v2" (Some "1500") "10" false None.

Definition algebra_course : Course.t :=
  Course.mk ada [sam; sue] [week1; week2] [essay] true.

Definition geometry_course : Course.t := Course.mk ada [] [] [] false.

Definition store0 : World :=
  mkWorld {[algebra := algebra_course; geometry := geometry_course]}
          {[essay := assignment0]}
          {[week1 := lecture1; week2 := lecture2]}
          {[ada := UserDoc.mk "Ada" "ada@edunexus.com";
            bob := UserDoc.mk "Bob" "bob@edunexus.com";
            sam := UserDoc.mk "Sam" "sam@edunexus.com";
            tom := UserDoc.mk "Tom" "tom@edunexus.com"]}
          ["edunexus/lectures/v1"; "edunexus/lectures/v2"]
          {[essay; algebra; geometry; week1; week2]}.

Definition slides1 : Resource.t :=
  Resource.mk "Slides" "https://edunexus.com/week1.pdf" "pdf".

Definition campus0 : Campus :=
  mkCampus store0
           {[week1 := [slides1]]}
           {[algebra := Listing.mk (Some "Algebra") (Some "Linear algebra for beginners")
                                   (Some "mathematics") (Some "beginner")
                                   (Some 1760000000000);
             geometry := Listing.mk (Some "Geometry") (Some "Plane geometry, a draft")
                                    (Some "mathematics") (Some "beginner")
                                    (Some 1761000000000)]}
           {[ada := Account.mk None [] [algebra; geometry];
             sam := Account.mk None [algebra] []]}.

Definition lectures_for_sam : Req.t unit := Req.mk (Some student1) algebra tt [].

Definition delete_week1 : Req.t unit := Req.mk (Some teacher) week1 tt [].

Definition destroy_throws : DestroyEnv := mkDestroyEnv (λ _, false).
Definition destroy_returns : DestroyEnv := mkDestroyEnv (λ _, true).

Definition upload_week3 : Req.t LectureBody :=
  Req.mk (Some teacher) ""
         (mkLectureBody (Some "Week 3") None (Some algebra) (Some "3") None None) [video].


(** Cloudinary stores the video under a public id of its own. *)
Definition studio : LectureEnv :=
  mkLectureEnv week3
    (λ _, Some (mkUploadResult "https://res.cloudinary.com/edunexus/v3.mp4"
                               "edunexus/lectures/v3" (Some "1200"))).

Definition lecture3 : Lecture.t :=
  Lecture.mk "Week 3" None algebra "https://res.cloudinary.com/edunexus/v3.mp4"
             "edunexus/lectures/v3" (Some "1200") "3" false None.

Definition delete_week3 : Req.t unit := Req.mk (Some teacher) week3 tt [].

Definition add_exercises : Req.t ResourceBody :=
  Req.mk (Some teacher) week1
         (mkResourceBody (Some " Exercises ") (Some "https://edunexus.com/ex1.pdf")
                         (Some "pdf")) [].

Definition enrol_tom : Req.t unit := Req.mk (Some outsider) algebra tt [].


Definition rename_by_bob : Req.t CourseBody :=
  Req.mk (Some colleague) algebra
         (mkCourseBody (Some "Algebra II") None None None None None None None None) [].

Definition delete_algebra_by_bob : Req.t unit := Req.mk (Some colleague) algebra tt [].
Definition delete_algebra : Req.t unit := Req.mk (Some teacher) algebra tt [].

(** A new course whose body names Bob as its instructor. *)
Definition create_topology : Req.t CourseBody :=
  Req.mk (Some teacher) ""
         (mkCourseBody (Some "Topology") (Some "Open sets and continuity")
                       (Some "mathematics") (Some "advanced") (Some bob)
                       None None None None) [].

Definition topology_env : CourseEnv := mkCourseEnv topology 1762000000000 false.

Definition create_homework : Req.t CreateBody :=
  Req.mk (Some teacher) ""
         (mkCreateBody (Some "Homework 1") (Some "Three proofs to write") (Some topology)
                       (Some "2026-03-01") None) [].


(** The campus once the algebra course is deleted. *)
Definition without_algebra : Campus := (deleteCourse campus0 delete_algebra).2.

Definition delete_quiz : Req.t unit := Req.mk (Some teacher) quiz tt [].

Definition retitle_by_colleague : Req.t UpdateBody :=
  Req.mk (Some colleague) essay
         (mkUpdateBody (Some "Essay, second call") None None None None None None) [].

Definition delete_by_colleague : Req.t unit := Req.mk (Some colleague) essay tt [].

Definition first_page : CourseQuery :=
  mkCourseQuery None None (Some "algebra") (Some "0") (Some "1000").
End Semester.

(** * Properties *)

Section Properties.
Context (lib : Library).
Implicit Types (w : World) (a : Assignment.t) (user : Actor.t).

Lemma multer_array_error fileSize maxCount fs r :
  multer_array fileSize maxCount fs = Some r → ∃ m, r = next_error m.
Proof.
  revert maxCount.
  induction fs as [|file fs IH]; intros maxCount H; simpl in H; [done|].
  repeat case_match; simplify_eq; eauto.
Qed.

Lemma authorize_error allowed user r :
  authorize allowed user = Some r → r = forbidden_role.
Proof. unfold authorize. intros H. case_match; by simplify_eq. Qed.

Lemma upload_files_attachments up i fs atts stored :
  (upload_files up i fs atts stored).1
  = (atts ++ omap id (imap (λ j file, attachment_of file (up (i + j)%nat file)) fs))%list.
Proof.
  revert i atts stored. induction fs as [|file fs IH]; intros i atts stored; simpl.
  - by rewrite app_nil_r.
  - rewrite Nat.add_0_r. destruct (up i file) as [result|]; simpl.
    + rewrite IH, <- app_assoc. simpl. do 2 f_equal.
      f_equal. apply imap_ext. intros j x _. simpl. by rewrite Nat.add_succ_r.
    + rewrite IH. do 2 f_equal. apply imap_ext. intros j x _. simpl.
      by rewrite Nat.add_succ_r.
Qed.

Lemma upload_files_uploaded up fs stored :
  (upload_files up 0 fs [] stored).1 = uploaded up fs.
Proof. by rewrite upload_files_attachments. Qed.

(** What the submit handler does once the tests in front of the guard
    have passed. *)
Lemma submit_from_guard w env req user a :
  reaches_guard lib w req user a →
  submitAssignment lib w env req =
    if bool_decide (now_guard env > Assignment.dueDate a)
    then (json 400 (message "Assignment submission deadline has passed"), w)
    else
      (json 200 (message_submission "Assignment submitted successfully"
                   (new_submission lib env req user a)),
       set_cloud (upload_files (upload_stream env) 0 (Req.files req) [] (cloud w)).2
         (set_assignmentDocs
            (<[Req.param req :=
                 Assignment.with_submissions
                   (Assignment.submissions a ++ [new_submission lib env req user a])%list a]>
               (assignmentDocs w)) w)).
Proof.
  intros (Hu & Hrole & Hm & Hc & Ha & (c & Hcourse & Hin) & Hnone).
  unfold submitAssignment, auth, authorize. rewrite Hu, Hrole. simpl.
  rewrite Hm. rewrite (bool_decide_eq_false_2 _ Hc). simpl.
  rewrite Ha, Hcourse. unfold includes. rewrite (bool_decide_eq_true_2 _ Hin). simpl.
  rewrite Hnone. case_bool_decide; [done|].
  destruct (upload_files _ _ _ _ _) as [atts stored] eqn:Hup.
  unfold new_submission. rewrite <- (upload_files_uploaded _ _ (cloud w)), Hup. done.
Qed.

(** C1.  A submission call that finds the clock past [dueDate] at the
    deadline guard is rejected and appends nothing.  A call that reaches
    the guard in time appends one submission: the submissions the assignment
    holds afterwards are the ones it had, followed by the new one, of the
    caller.  Its status is read off a second clock reading, taken after the
    uploads, at the instant of persistence: [late] if that reading is past
    [dueDate], [submitted] otherwise. *)
Theorem submit_deadline_guard_then_status w env req a :
  assignmentDocs w !! Req.param req = Some a →
  (now_guard env > Assignment.dueDate a →
     is_success (submitAssignment lib w env req).1 = false ∧
     (submitAssignment lib w env req).2 = w) ∧
  (∀ user, reaches_guard lib w req user a →
     now_guard env > Assignment.dueDate a →
     submitAssignment lib w env req
     = (json 400 (message "Assignment submission deadline has passed"), w)) ∧
  (∀ user, reaches_guard lib w req user a →
     ¬ now_guard env > Assignment.dueDate a →
     ∃ sub w' a',
       submitAssignment lib w env req
       = (json 200 (message_submission "Assignment submitted successfully" sub), w') ∧
       assignmentDocs w' !! Req.param req = Some a' ∧
       Assignment.submissions a' = (Assignment.submissions a ++ [sub])%list ∧
       Submission.student sub = Actor.id user ∧
       Submission.status sub
       = if bool_decide (now_status env > Assignment.dueDate a) then late else submitted).
Proof.
  intros Ha. split; [|split].
  - intros Hlate. unfold submitAssignment, auth, authorize.
    rewrite Ha. rewrite (bool_decide_eq_true_2 _ Hlate).
    repeat case_match; simplify_eq; try done.
    match goal with H : multer_array _ _ _ = Some _ |- _ =>
      apply multer_array_error in H as [m ->] end. done.
  - intros user Hready Hlate. rewrite (submit_from_guard _ _ _ _ _ Hready).
    by rewrite (bool_decide_eq_true_2 _ Hlate).
  - intros user Hready Hok. rewrite (submit_from_guard _ _ _ _ _ Hready).
    rewrite (bool_decide_eq_false_2 _ Hok).
    eexists _, _, _. split; [reflexivity|].
    split; [simpl; by rewrite lookup_insert_eq|]. done.
Qed.

(** C7.  For a submission call with valid content by an enrolled student
    in time (one that reaches the deadline guard and passes it), whatever
    Cloudinary answers to each upload, the call succeeds: the submissions
    the assignment holds afterwards are the ones it had, followed by the new
    one, of the caller, and the attachments of the new one are the files
    whose upload succeeded, in the order of [req.files], the failed ones left
    out. *)
Theorem upload_failures_are_absorbed w env req user a :
  reaches_guard lib w req user a →
  ¬ now_guard env > Assignment.dueDate a →
  ∃ sub w' a',
    submitAssignment lib w env req
    = (json 200 (message_submission "Assignment submitted successfully" sub), w') ∧
    assignmentDocs w' !! Req.param req = Some a' ∧
    Assignment.submissions a' = (Assignment.submissions a ++ [sub])%list ∧
    Submission.student sub = Actor.id user ∧
    Submission.attachments sub = uploaded (upload_stream env) (Req.files req).
Proof.
  intros Hready Hok. rewrite (submit_from_guard _ _ _ _ _ Hready).
  rewrite (bool_decide_eq_false_2 _ Hok).
  eexists _, _, _. split; [reflexivity|].
  split; [simpl; by rewrite lookup_insert_eq|]. done.
Qed.

(** A successful submission went through every test of the handler. *)
Lemma submit_success_inv w env req p w1 :
  submitAssignment lib w env req = (json 200 p, w1) →
  ∃ user a,
    reaches_guard lib w req user a ∧
    ¬ now_guard env > Assignment.dueDate a ∧
    w1 = set_cloud (upload_files (upload_stream env) 0 (Req.files req) [] (cloud w)).2
           (set_assignmentDocs
              (<[Req.param req :=
                   Assignment.with_submissions
                     (Assignment.submissions a ++ [new_submission lib env req user a])%list a]>
                 (assignmentDocs w)) w).
Proof.
  intros H.
  destruct (Req.user req) as [user|] eqn:Hu;
    [|by unfold submitAssignment, auth in H; rewrite Hu in H].
  destruct (decide (Actor.role user = Student)) as [Hrole|Hrole]; cycle 1.
  { unfold submitAssignment, auth, authorize in H. rewrite Hu in H.
    rewrite bool_decide_eq_false_2 in H by (by rewrite list_elem_of_singleton). done. }
  destruct (multer_array (10 * 1024 * 1024) 5 (Req.files req)) as [r|] eqn:Hm.
  { unfold submitAssignment, auth, authorize in H. rewrite Hu, Hrole, Hm in H.
    simpl in H. apply multer_array_error in Hm as [m ->]. done. }
  destruct (decide (trim lib (field (content (Req.body req))) = "")) as [Hc|Hc].
  { unfold submitAssignment, auth, authorize in H. rewrite Hu, Hrole, Hm in H.
    simpl in H. rewrite (bool_decide_eq_true_2 _ Hc) in H. done. }
  destruct (assignmentDocs w !! Req.param req) as [a|] eqn:Ha; cycle 1.
  { unfold submitAssignment, auth, authorize in H. rewrite Hu, Hrole, Hm, Ha in H.
    simpl in H. rewrite (bool_decide_eq_false_2 _ Hc) in H. done. }
  destruct (courseDocs w !! Assignment.course a) as [c|] eqn:Hcourse; cycle 1.
  { unfold submitAssignment, auth, authorize in H.
    rewrite Hu, Hrole, Hm, Ha, Hcourse in H.
    simpl in H. rewrite (bool_decide_eq_false_2 _ Hc) in H. done. }
  destruct (decide (Actor.id user ∈ Course.students c)) as [Hin|Hin]; cycle 1.
  { unfold submitAssignment, auth, authorize, includes in H.
    rewrite Hu, Hrole, Hm, Ha, Hcourse in H.
    simpl in H. rewrite (bool_decide_eq_false_2 _ Hc) in H.
    rewrite (bool_decide_eq_false_2 _ Hin) in H. done. }
  destruct (find_submission (Actor.id user) (Assignment.submissions a)) eqn:Hfind.
  { unfold submitAssignment, auth, authorize, includes in H.
    rewrite Hu, Hrole, Hm, Ha, Hcourse, Hfind in H.
    simpl in H. rewrite (bool_decide_eq_false_2 _ Hc) in H.
    rewrite (bool_decide_eq_true_2 _ Hin) in H. done. }
  assert (reaches_guard lib w req user a) as Hready.
  { repeat split; eauto. }
  rewrite (submit_from_guard _ _ _ _ _ Hready) in H.
  exists user, a. case_bool_decide; simplify_eq. done.
Qed.

Lemma find_submission_snoc id l sub :
  Submission.student sub = id → is_Some (find_submission id (l ++ [sub])).
Proof.
  intros Hs. unfold find_submission.
  apply (list_find_elem_of _ _ sub); [|done]. set_solver.
Qed.

Lemma find_submission_app id l l' :
  is_Some (find_submission id l) → is_Some (find_submission id (l ++ l')).
Proof.
  unfold find_submission. intros [[i sub] H].
  exists (i, sub). by apply list_find_app_l.
Qed.

Lemma find_submission_regrade id l i sub sub' :
  is_Some (find_submission id l) →
  l !! i = Some sub →
  Submission.student sub' = Submission.student sub →
  is_Some (find_submission id (<[i := sub']> l)).
Proof.
  unfold find_submission. intros [[j y] (Hj & Hy & _)%list_find_Some] Hi Hs.
  destruct (decide (i = j)) as [->|Hne].
  - apply (list_find_elem_of _ _ sub'); [|congruence].
    eapply list_elem_of_lookup_2, list_lookup_insert_eq. by eapply lookup_lt_Some.
  - apply (list_find_elem_of _ _ y); [|done].
    eapply list_elem_of_lookup_2. by rewrite list_lookup_insert_ne.
Qed.

(** The store a submission call leaves: the one it found, or that one with
    a submission appended to the assignment and the uploads in the cloud. *)
Lemma submit_store w env req :
  (submitAssignment lib w env req).2 = w ∨
  ∃ a sub stored,
    assignmentDocs w !! Req.param req = Some a ∧
    (submitAssignment lib w env req).2
    = set_cloud stored
        (set_assignmentDocs
           (<[Req.param req :=
                Assignment.with_submissions (Assignment.submissions a ++ [sub])%list a]>
              (assignmentDocs w)) w).
Proof.
  unfold submitAssignment. repeat case_match; simplify_eq; simpl; eauto 10.
Qed.

(** The store a grading call leaves: the one it found, or that one with one
    submission of the assignment replaced by one of the same student. *)
Lemma grade_store w req :
  (gradeSubmission lib w req).2 = w ∨
  ∃ a i sub sub',
    assignmentDocs w !! Req.param req = Some a ∧
    Assignment.submissions a !! i = Some sub ∧
    Submission.student sub' = Submission.student sub ∧
    (gradeSubmission lib w req).2
    = set_assignmentDocs
        (<[Req.param req :=
             Assignment.with_submissions (<[i := sub']> (Assignment.submissions a)) a]>
           (assignmentDocs w)) w.
Proof.
  unfold gradeSubmission. repeat case_match; simplify_eq; simpl; eauto.
  right.
  match goal with H : _ ≫= _ = Some (?i, ?sub) |- _ =>
    eexists _, i, sub, _; split; [done|]; split;
      [apply bind_Some in H as (sid & _ & H); unfold find_submission in H;
       by apply list_find_Some in H as (? & _)|]
  end.
  split; [|reflexivity]. done.
Qed.

Lemma list_store w req : (listAssignments w req).2 = w.
Proof. unfold listAssignments. by repeat case_match. Qed.

Lemma submissions_store w req : (listSubmissions w req).2 = w.
Proof. unfold listSubmissions. by repeat case_match. Qed.

(** *** Grading *)

(** The branch in which [authorize] has answered: the role is not the one
    the route asks for. *)
Ltac wrong_role H :=
  repeat split; try done;
  intros Hr; exfalso; apply H; rewrite Hr; constructor.

Lemma grade_body_valid_errors b :
  grade_body_valid lib b →
  (check (isMongoId lib (field (studentId b))) "Valid student ID is required" ++
   check (isNumeric lib (field (marks b))) "Marks must be a number")%list = [].
Proof. intros [-> ->]. done. Qed.

(** What the grade handler does for the assignment's instructor. *)
Lemma grade_from_find w req user a :
  grades_own_assignment lib w req user a →
  gradeSubmission lib w req =
    match studentId (Req.body req) ≫= λ id,
          find_submission id (Assignment.submissions a) with
    | None => (json 404 (message "Submission not found"), w)
    | Some (i, sub) =>
        (json 200 (message_submission "Assignment graded successfully"
                     (graded_with lib (Req.body req) sub)),
         set_assignmentDocs
           (<[Req.param req :=
                Assignment.with_submissions
                  (<[i := graded_with lib (Req.body req) sub]> (Assignment.submissions a)) a]>
              (assignmentDocs w)) w)
    end.
Proof.
  intros (Hu & Hrole & Hvalid & Ha & Hown).
  unfold gradeSubmission, auth, authorize. rewrite Hu, Hrole. simpl.
  rewrite (grade_body_valid_errors _ Hvalid). simpl.
  rewrite Ha. rewrite (bool_decide_eq_true_2 _ Hown). simpl.
  destruct (studentId (Req.body req) ≫= _) as [[i sub]|]; done.
Qed.

(** A successful grading was one of the assignment's instructor. *)
Lemma grade_success_inv w req p w' :
  gradeSubmission lib w req = (json 200 p, w') →
  ∃ user a, grades_own_assignment lib w req user a.
Proof.
  intros H. unfold gradeSubmission, auth, authorize in H.
  destruct (Req.user req) as [user|] eqn:Hu; [|done].
  case_bool_decide as Hrole; [|done]. apply list_elem_of_singleton in Hrole.
  case_bool_decide as Herrs; [|done]. simpl in H.
  destruct (assignmentDocs w !! Req.param req) as [a|] eqn:Ha; [|done].
  case_bool_decide as Hown; [|done].
  exists user, a. repeat split; try done.
  - destruct (isMongoId lib _); done.
  - destruct (isMongoId lib _), (isNumeric lib _); done.
Qed.

Lemma find_submission_insert id l i sub sub' :
  find_submission id l = Some (i, sub) →
  Submission.student sub' = id →
  find_submission id (<[i := sub']> l) = Some (i, sub').
Proof.
  unfold find_submission. intros (Hi & _ & Hfirst)%list_find_Some Hs.
  apply list_find_Some. split; [|split; [done|]].
  - apply list_lookup_insert_eq. by eapply lookup_lt_Some.
  - intros j y Hj Hlt. rewrite list_lookup_insert_ne in Hj by lia. eauto.
Qed.

Lemma find_submission_student id l i sub :
  find_submission id l = Some (i, sub) → Submission.student sub = id.
Proof. unfold find_submission. by intros (_ & ? & _)%list_find_Some. Qed.

(** C3.  Grading is idempotent in the sense of the overwrite: when the
    assignment's instructor grades the submission of a student twice, both
    calls succeed, and afterwards the submission that [find] yields for the
    student carries the marks and the feedback of the second call and the
    status [graded]. *)
Theorem grading_twice_keeps_the_second w req1 req2 user a sid i sub :
  grades_own_assignment lib w req1 user a →
  Req.user req2 = Some user →
  Req.param req2 = Req.param req1 →
  grade_body_valid lib (Req.body req2) →
  studentId (Req.body req1) = Some sid →
  studentId (Req.body req2) = Some sid →
  find_submission sid (Assignment.submissions a) = Some (i, sub) →
  ∃ p1 w1 sub2 w2 a2,
    gradeSubmission lib w req1 = (json 200 p1, w1) ∧
    gradeSubmission lib w1 req2
    = (json 200 (message_submission "Assignment graded successfully" sub2), w2) ∧
    assignmentDocs w2 !! Req.param req1 = Some a2 ∧
    find_submission sid (Assignment.submissions a2) = Some (i, sub2) ∧
    Submission.marks sub2 = marks (Req.body req2) ∧
    Submission.feedback sub2 = Some (from_option (trim lib) "" (feedback (Req.body req2))) ∧
    Submission.status sub2 = graded.
Proof.
  intros Hready Hu2 Hparam Hvalid2 Hsid1 Hsid2 Hfind.
  pose proof Hready as (Hu & Hrole & _ & Ha & Hown).
  pose proof (find_submission_student _ _ _ _ Hfind) as Hstudent.
  set (sub1 := graded_with lib (Req.body req1) sub).
  set (a1 := Assignment.with_submissions (<[i := sub1]> (Assignment.submissions a)) a).
  set (w1 := set_assignmentDocs (<[Req.param req1 := a1]> (assignmentDocs w)) w).
  assert (gradeSubmission lib w req1
          = (json 200 (message_submission "Assignment graded successfully" sub1), w1))
    as H1.
  { rewrite (grade_from_find _ _ _ _ Hready), Hsid1. simpl. by rewrite Hfind. }
  assert (find_submission sid (Assignment.submissions a1) = Some (i, sub1)) as Hfind1.
  { by apply (find_submission_insert _ _ _ sub). }
  assert (grades_own_assignment lib w1 req2 user a1) as Hready2.
  { split; [done|]. split; [done|]. split; [done|]. split; [|done].
    subst w1. simpl. by rewrite Hparam, lookup_insert_eq. }
  set (sub2 := graded_with lib (Req.body req2) sub1).
  eexists _, w1, sub2, _, _. split; [exact H1|].
  split; [|split; [|split; [|done]]].
  - rewrite (grade_from_find _ _ _ _ Hready2), Hsid2. cbn [mbind option_bind].
    rewrite Hfind1. reflexivity.
  - simpl. rewrite Hparam. apply lookup_insert_eq.
  - simpl. by apply (find_submission_insert _ _ _ sub1).
Qed.
(** C4.  On an existing assignment, a call for the list of submissions,
    and a grading call whose body passes the validators, by an actor whose id
    is not the [instructor] stored on the assignment are answered with
    Forbidden, whoever the instructor of the course is.  The validators of
    the grading route run before the assignment is read: an actor with the
    role of an instructor whose body does not pass them gets the validation
    errors, owner or not.  A grading call of anybody but the stored
    instructor never succeeds.  A grading call of the assignment's instructor
    with a valid body for a student without a submission is answered with
    NotFound.  The store is left as it was in each case. *)
Theorem only_the_assignment_instructor_grades_and_lists
    w a user (greq : Req.t GradeBody) (lreq : Req.t unit) :
  assignmentDocs w !! Req.param greq = Some a →
  assignmentDocs w !! Req.param lreq = Some a →
  Req.user greq = Some user →
  Req.user lreq = Some user →
  (Actor.id user ≠ Assignment.instructor a →
     (is_success (gradeSubmission lib w greq).1 = false ∧
      (gradeSubmission lib w greq).2 = w) ∧
     (Actor.role user ≠ Instructor →
        is_forbidden (gradeSubmission lib w greq).1 = true) ∧
     (Actor.role user = Instructor →
      grade_body_valid lib (Req.body greq) →
        is_forbidden (gradeSubmission lib w greq).1 = true ∧
        gradeSubmission lib w greq
        = (json 403 (message "Not authorized to grade this assignment"), w))) ∧
  (Actor.role user = Instructor →
   ¬ grade_body_valid lib (Req.body greq) →
     ∃ es, es ≠ [] ∧ gradeSubmission lib w greq = (json 400 (errors es), w)) ∧
  (Actor.id user ≠ Assignment.instructor a →
     is_forbidden (listSubmissions w lreq).1 = true ∧
     (listSubmissions w lreq).2 = w ∧
     (Actor.role user = Instructor →
        listSubmissions w lreq
        = (json 403 (message "Not authorized to view submissions"), w))) ∧
  (Actor.role user = Instructor →
   Actor.id user = Assignment.instructor a →
   grade_body_valid lib (Req.body greq) →
   (∀ sid sub, studentId (Req.body greq) = Some sid →
               sub ∈ Assignment.submissions a → Submission.student sub ≠ sid) →
     is_not_found (gradeSubmission lib w greq).1 = true ∧
     gradeSubmission lib w greq = (json 404 (message "Submission not found"), w)).
Proof.
  intros Hga Hla Hgu Hlu. split; [|split; [|split]].
  - intros Hne. split; [|split].
    + unfold gradeSubmission, auth, authorize. rewrite Hgu.
      case_bool_decide as Hrole; [|done].
      case_bool_decide as Herrs; simpl; [|done].
      rewrite Hga. rewrite bool_decide_eq_false_2 by congruence. done.
    + intros Hrole. unfold gradeSubmission, auth, authorize. rewrite Hgu.
      rewrite bool_decide_eq_false_2; [done|]. by rewrite list_elem_of_singleton.
    + intros Hrole Hvalid. unfold gradeSubmission, auth, authorize.
      rewrite Hgu, Hrole. simpl.
      rewrite (grade_body_valid_errors _ Hvalid). simpl. rewrite Hga.
      rewrite bool_decide_eq_false_2 by congruence. done.
  - intros Hrole Hinvalid. unfold gradeSubmission, auth, authorize.
    rewrite Hgu, Hrole. simpl.
    case_bool_decide as Herrs; simpl; [|eauto].
    exfalso. apply Hinvalid. unfold grade_body_valid.
    destruct (isMongoId lib _); [|done]. by destruct (isNumeric lib _).
  - intros Hne. unfold listSubmissions, auth, authorize. rewrite Hlu.
    case_bool_decide as Hrole; [|by wrong_role Hrole].
    apply list_elem_of_singleton in Hrole.
    rewrite Hla. rewrite bool_decide_eq_false_2 by congruence. done.
  - intros Hrole Hown Hvalid Hnone.
    assert (grades_own_assignment lib w greq user a) as Hready by done.
    rewrite (grade_from_find _ _ _ _ Hready).
    destruct (studentId (Req.body greq)) as [sid|]; [|done]. simpl.
    destruct (find_submission sid (Assignment.submissions a)) as [[i sub]|] eqn:Hfind;
      [|done].
    exfalso. apply (Hnone sid sub eq_refl).
    + unfold find_submission in Hfind. apply list_find_Some in Hfind as (Hi & _).
      eapply list_elem_of_lookup_2, Hi.
    + by eapply find_submission_student.
Qed.

(** C10.  A successful grading call changes, in the whole store, one
    submission of one assignment: the first submission of the student
    named in the body.  Its student, content and attachments stay; its
    marks, feedback and status are set.  The other submissions of the list,
    the other fields of the assignment, the other assignments and the
    other collections are as before. *)
Theorem grading_changes_one_submission_only w req p w' a :
  assignmentDocs w !! Req.param req = Some a →
  gradeSubmission lib w req = (json 200 p, w') →
  ∃ sid i sub sub' a',
    studentId (Req.body req) = Some sid ∧
    find_submission sid (Assignment.submissions a) = Some (i, sub) ∧
    assignmentDocs w' !! Req.param req = Some a' ∧
    Assignment.submissions a' !! i = Some sub' ∧
    length (Assignment.submissions a') = length (Assignment.submissions a) ∧
    (∀ j, j ≠ i → Assignment.submissions a' !! j = Assignment.submissions a !! j) ∧
    Submission.student sub' = Submission.student sub ∧
    Submission.content sub' = Submission.content sub ∧
    Submission.attachments sub' = Submission.attachments sub ∧
    Submission.marks sub' = marks (Req.body req) ∧
    Submission.feedback sub' = Some (from_option (trim lib) "" (feedback (Req.body req))) ∧
    Submission.status sub' = graded ∧
    Assignment.title a' = Assignment.title a ∧
    Assignment.description a' = Assignment.description a ∧
    Assignment.course a' = Assignment.course a ∧
    Assignment.instructor a' = Assignment.instructor a ∧
    Assignment.dueDate a' = Assignment.dueDate a ∧
    Assignment.maxMarks a' = Assignment.maxMarks a ∧
    Assignment.createdAt a' = Assignment.createdAt a ∧
    (∀ id, id ≠ Req.param req → assignmentDocs w' !! id = assignmentDocs w !! id) ∧
    courseDocs w' = courseDocs w ∧
    lectureDocs w' = lectureDocs w ∧
    userDocs w' = userDocs w ∧
    cloud w' = cloud w.
Proof.
  intros Ha H. pose proof (grade_success_inv _ _ _ _ H) as (user & a0 & Hready).
  assert (a0 = a) as -> by (destruct Hready as (_ & _ & _ & Ha0 & _); congruence).
  rewrite (grade_from_find _ _ _ _ Hready) in H.
  destruct (studentId (Req.body req)) as [sid|]; [|done]. simpl in H.
  destruct (find_submission sid (Assignment.submissions a)) as [[i sub]|] eqn:Hfind;
    [|done].
  injection H as _ <-.
  assert (i < length (Assignment.submissions a))%nat as Hlt.
  { unfold find_submission in Hfind. apply list_find_Some in Hfind as (Hi & _).
    by eapply lookup_lt_Some. }
  eexists sid, i, sub, _, _. split; [done|]. split; [done|].
  split; [simpl; apply lookup_insert_eq|].
  split; [simpl; by apply list_lookup_insert_eq|].
  split; [simpl; apply length_insert|].
  split; [intros j Hj; simpl; by apply list_lookup_insert_ne|].
  repeat (split; [done|]).
  split; [|done]. intros id Hid. simpl. by apply lookup_insert_ne.
Qed.
(** *** Listing *)

#[local] Instance newest_first_trans : Transitive newest_first.
Proof. unfold newest_first. intros x y z ??. lia. Qed.

#[local] Instance newest_first_total : Total newest_first.
Proof. unfold newest_first. intros x y. lia. Qed.

Lemma find_by_course_elem id m i a :
  (i, a) ∈ find_by_course id m ↔ m !! i = Some a ∧ Assignment.course a = id.
Proof.
  unfold find_by_course. rewrite list_elem_of_filter, elem_of_map_to_list. simpl.
  tauto.
Qed.

Lemma find_by_course_NoDup id m : NoDup ((find_by_course id m).*1).
Proof.
  unfold find_by_course. apply (sublist_NoDup _ (map_to_list m).*1).
  - apply NoDup_fst_map_to_list.
  - apply fmap_sublist, sublist_filter.
Qed.

Lemma populate_instructor_ids users (l : list (string * Assignment.t)) :
  (populate_instructor users <$> l).*1.*1 = l.*1.
Proof. induction l as [|x l IH]; [done|]. csimpl. by f_equal. Qed.

(** C9.  On an existing course, a call for the list of assignments by an
    actor who is neither in [students] nor the instructor of the course is
    answered with Forbidden.  Any other actor gets the assignments whose
    [course] is this course, each once, none missing, none from elsewhere,
    the newest first by [createdAt]. *)
Theorem listAssignments_gate_and_order w req user c :
  Req.user req = Some user →
  courseDocs w !! Req.param req = Some c →
  (Actor.id user ∉ Course.students c → Course.instructor c ≠ Actor.id user →
     is_forbidden (listAssignments w req).1 = true ∧
     listAssignments w req
     = (json 403 (message "Not authorized to view assignments"), w)) ∧
  (Actor.id user ∈ Course.students c ∨ Course.instructor c = Actor.id user →
     ∃ l,
       listAssignments w req = (json 200 (assignment_list l), w) ∧
       StronglySorted listed_newest_first l ∧
       NoDup (l.*1.*1) ∧
       ∀ id a u,
         (id, a, u) ∈ l ↔
         assignmentDocs w !! id = Some a ∧ Assignment.course a = Req.param req ∧
         u = userDocs w !! Assignment.instructor a).
Proof.
  intros Hu Hc. unfold listAssignments, auth, includes. rewrite Hu, Hc. split.
  - intros Hs Hi. rewrite (bool_decide_eq_false_2 _ Hs), (bool_decide_eq_false_2 _ Hi).
    done.
  - intros Hmember.
    assert (negb (bool_decide (Actor.id user ∈ Course.students c))
            && negb (bool_decide (Course.instructor c = Actor.id user)) = false) as ->.
    { destruct Hmember as [H|H]; rewrite (bool_decide_eq_true_2 _ H); simpl; [done|].
      apply andb_false_r. }
    eexists. split; [reflexivity|]. split; [|split].
    + apply (StronglySorted_fmap _ newest_first); [by intros [??] [??]|].
      apply StronglySorted_merge_sort; apply _.
    + rewrite populate_instructor_ids, merge_sort_Permutation.
      apply find_by_course_NoDup.
    + intros id a u. rewrite list_elem_of_fmap. split.
      * intros ([i x] & Heq & Hin). unfold populate_instructor in Heq. simplify_eq/=.
        rewrite merge_sort_Permutation in Hin.
        apply find_by_course_elem in Hin as [??]. done.
      * intros (Ha & Hcourse & ->). exists (id, a). split; [done|].
        rewrite merge_sort_Permutation. by apply find_by_course_elem.
Qed.
(** *** What one request does to the assignment collection *)

Lemma apply_update_instructor b a a' :
  apply_update lib b a = Some a' →
  up_instructor b = None →
  Assignment.instructor a' = Assignment.instructor a.
Proof.
  unfold apply_update. intros H Hkeep. rewrite Hkeep in H.
  repeat case_match; by simplify_eq.
Qed.

(** An assignment found after a request was there before it, with the
    same [instructor] unless the request was an update carrying that path;
    or it was created by the request, under a new ObjectId. *)
Lemma after_assignment_lookup op w id a' :
  admissible w op →
  assignmentDocs (after lib w op) !! id = Some a' →
  ((id ∉ issued w) ∧ (id ∈ issued (after lib w op))) ∨
  ∃ a, assignmentDocs w !! id = Some a ∧
       (keeps_instructor op → Assignment.instructor a' = Assignment.instructor a).
Proof.
  intros Hadm H. destruct op; simpl in *.
  - unfold createAssignment in *.
    repeat case_match; simplify_eq; simpl in *; eauto;
      (apply lookup_insert_Some in H as [[<- <-]|[? ?]]; [|by eauto]);
      left; (split; [done|set_solver]).
  - unfold listAssignments in *. repeat case_match; simplify_eq; simpl in *; eauto.
  - unfold submitAssignment in *.
    repeat case_match; simplify_eq; simpl in *; eauto;
      apply lookup_insert_Some in H as [[<- <-]|[? ?]]; by eauto.
  - unfold listSubmissions in *. repeat case_match; simplify_eq; simpl in *; eauto.
  - unfold gradeSubmission in *.
    repeat case_match; simplify_eq; simpl in *; eauto;
      apply lookup_insert_Some in H as [[<- <-]|[? ?]]; by eauto.
  - unfold updateAssignment in *.
    repeat case_match; simplify_eq; simpl in *; eauto;
      (apply lookup_insert_Some in H as [[<- <-]|[? ?]]; [|by eauto]);
      right; (eexists; split; [done|]); intros Hkeep;
      by eapply apply_update_instructor.
  - unfold deleteAssignment in *.
    repeat case_match; simplify_eq; simpl in *; eauto;
      apply lookup_delete_Some in H as [? ?]; eauto.
  - unfold uploadLecture in *. repeat case_match; simplify_eq; simpl in *; eauto.
  - eauto.
Qed.

Lemma after_issued op w : issued w ⊆ issued (after lib w op).
Proof.
  destruct op; simpl.
  - unfold createAssignment. repeat case_match; simpl; set_solver.
  - unfold listAssignments. repeat case_match; simpl; set_solver.
  - unfold submitAssignment. repeat case_match; simpl; set_solver.
  - unfold listSubmissions. repeat case_match; simpl; set_solver.
  - unfold gradeSubmission. repeat case_match; simpl; set_solver.
  - unfold updateAssignment. repeat case_match; simpl; set_solver.
  - unfold deleteAssignment. repeat case_match; simpl; set_solver.
  - unfold uploadLecture. repeat case_match; simpl; set_solver.
  - set_solver.
Qed.

Lemma after_well_formed op w :
  admissible w op → well_formed w → well_formed (after lib w op).
Proof.
  unfold well_formed. intros Hadm Hwf id [a' Ha']%elem_of_dom.
  destruct (after_assignment_lookup _ _ _ _ Hadm Ha') as [[_ ?]|(a & Ha & _)]; [done|].
  apply (after_issued op w), Hwf, elem_of_dom. eauto.
Qed.

Lemma empty_well_formed : well_formed (mkWorld ∅ ∅ ∅ ∅ [] ∅).
Proof. unfold well_formed. simpl. by rewrite dom_empty_L. Qed.

Lemma steps_well_formed w w' :
  rtc (step lib) w w' → well_formed w → well_formed w'.
Proof.
  induction 1 as [|w w1 w2 (op & Hadm & ->) _ IH]; [done|].
  intros Hwf. by apply IH, after_well_formed.
Qed.
(** *** Deleting *)

Lemma delete_success_inv w req p w' :
  deleteAssignment w req = (json 200 p, w') →
  ∃ a c,
    assignmentDocs w !! Req.param req = Some a ∧
    courseDocs w !! Assignment.course a = Some c ∧
    w' = set_assignmentDocs (delete (Req.param req) (assignmentDocs w))
           (set_courseDocs
              (<[Assignment.course a :=
                   Course.with_assignments (pull (Req.param req) (Course.assignments c)) c]>
                 (courseDocs w)) w).
Proof.
  unfold deleteAssignment, auth. intros H.
  destruct (Req.user req) as [user|]; [|done].
  destruct (authorize _ _) as [r|] eqn:Hr; [by apply authorize_error in Hr; simplify_eq|].
  destruct (assignmentDocs w !! _) as [a|]; [|done].
  case_bool_decide; [|done]. simpl in H.
  destruct (courseDocs w !! _) as [c|] eqn:Hc; [|done]. simplify_eq. eauto.
Qed.

Lemma pull_gone id l : id ∉ pull id l.
Proof. unfold pull. rewrite list_elem_of_filter. tauto. Qed.

(** An id that was generated and is no longer in the collection does not
    come back. *)
Lemma steps_gone id w w' :
  rtc (step lib) w w' →
  id ∈ issued w → assignmentDocs w !! id = None →
  id ∈ issued w' ∧ assignmentDocs w' !! id = None.
Proof.
  induction 1 as [|w w1 w2 (op & Hadm & ->) _ IH]; [done|].
  intros Hissued Hnone. apply IH.
  - by apply (after_issued op w).
  - destruct (assignmentDocs (after lib w op) !! id) as [a'|] eqn:Ha'; [|done].
    destruct (after_assignment_lookup _ _ _ _ Hadm Ha') as [[? _]|(a & Ha & _)];
      [done|congruence].
Qed.

Lemma listAssignments_ids w req l id :
  (listAssignments w req).1 = json 200 (assignment_list l) →
  id ∈ l.*1.*1 → is_Some (assignmentDocs w !! id).
Proof.
  unfold listAssignments, auth. intros H Hin.
  repeat case_match; simpl in H; simplify_eq.
  rewrite populate_instructor_ids, merge_sort_Permutation in Hin.
  apply list_elem_of_fmap in Hin as ([i a] & -> & Hin).
  apply find_by_course_elem in Hin as [? _]. eauto.
Qed.

(** C6.  When the deletion of an assignment succeeds, the id of the
    assignment is no longer in the [assignments] of its course, and after
    any further requests no list of assignments, of that course or of
    another, contains it. *)
Theorem deleted_assignment_is_never_listed w req p w1 a :
  well_formed w →
  assignmentDocs w !! Req.param req = Some a →
  deleteAssignment w req = (json 200 p, w1) →
  (∃ c1, courseDocs w1 !! Assignment.course a = Some c1 ∧
         Req.param req ∉ Course.assignments c1) ∧
  ∀ w2 lreq l,
    rtc (step lib) w1 w2 →
    (listAssignments w2 lreq).1 = json 200 (assignment_list l) →
    Req.param req ∉ l.*1.*1.
Proof.
  intros Hwf Ha H. apply delete_success_inv in H as (a0 & c & Ha0 & Hc & ->).
  assert (a0 = a) as -> by congruence. split.
  - eexists. split; [simpl; apply lookup_insert_eq|]. simpl. apply pull_gone.
  - intros w2 lreq l Hsteps Hlist Hin.
    apply (listAssignments_ids _ _ _ _ Hlist) in Hin as [a2 Ha2].
    destruct (steps_gone (Req.param req) _ _ Hsteps) as [_ Hnone]; [| |congruence].
    + simpl. apply Hwf, elem_of_dom. eauto.
    + simpl. apply lookup_delete_eq.
Qed.

(** *** The instructor stored on an assignment *)

Lemma steps_keep_instructor id w w' a a' :
  rtc (step_keeping_instructor lib) w w' →
  id ∈ issued w →
  assignmentDocs w !! id = Some a →
  assignmentDocs w' !! id = Some a' →
  Assignment.instructor a' = Assignment.instructor a.
Proof.
  intros Hsteps Hissued Ha Ha'.
  cut (id ∈ issued w' ∧
       ∀ x, assignmentDocs w' !! id = Some x →
            Assignment.instructor x = Assignment.instructor a); [intros [_ H]; eauto|].
  clear Ha'. revert w' Hsteps. apply rtc_ind_r.
  - split; [done|]. intros x Hx. congruence.
  - intros w1 w2 _ (op & Hadm & Hkeep & ->) [Hi1 IH].
    split; [by apply (after_issued op w1)|]. intros x Hx.
    destruct (after_assignment_lookup _ _ _ _ Hadm Hx) as [[? _]|(x1 & Hx1 & Heq)];
      [done|]. rewrite (Heq Hkeep). eauto.
Qed.

Lemma create_success_inv w env req p w1 :
  createAssignment lib w env req = (json 201 p, w1) →
  ∃ user a c,
    Req.user req = Some user ∧
    courseDocs w !! field (cr_course (Req.body req)) = Some c ∧
    Course.instructor c = Actor.id user ∧
    Assignment.instructor a = Actor.id user ∧
    Assignment.course a = field (cr_course (Req.body req)) ∧
    assignmentDocs w1 = <[new_id env := a]> (assignmentDocs w) ∧
    courseDocs w1
    = <[field (cr_course (Req.body req)) :=
          Course.with_assignments (Course.assignments c ++ [new_id env])%list c]>
        (courseDocs w) ∧
    issued w1 = {[new_id env]} ∪ issued w.
Proof.
  unfold createAssignment, auth, handleValidationErrors. intros H.
  destruct (Req.user req) as [user|]; [|done].
  destruct (authorize _ _) as [r|] eqn:Hr; [by apply authorize_error in Hr; simplify_eq|].
  case_bool_decide; [|done].
  destruct (courseDocs w !! _) as [c|] eqn:Hc; [|done].
  case_bool_decide; [|done]. simpl in H.
  destruct (castDate lib _); [|done]. simplify_eq.
  eexists user, _, c. repeat split; done.
Qed.

(** C5, as the code has it.  The [instructor] of an assignment is the
    instructor of its course at the time of creation, and it stays so
    through any further requests, provided no update among them carries an
    [instructor] path of its own. *)
Theorem instructor_is_kept_unless_an_update_sets_it w env req p w1 w2 a2 :
  createAssignment lib w env req = (json 201 p, w1) →
  rtc (step_keeping_instructor lib) w1 w2 →
  assignmentDocs w2 !! new_id env = Some a2 →
  ∃ c, courseDocs w !! field (cr_course (Req.body req)) = Some c ∧
       Assignment.instructor a2 = Course.instructor c.
Proof.
  intros (user & a & c & _ & Hc & Hci & Hai & _ & Hdocs & _ & Hissued)%create_success_inv
         Hsteps Ha2.
  exists c. split; [done|]. rewrite Hci, <- Hai.
  eapply steps_keep_instructor; [done| | |done].
  - rewrite Hissued. by apply elem_of_union_l, elem_of_singleton.
  - rewrite Hdocs. apply lookup_insert_eq.
Qed.
(** *** Uploading a lecture *)

(** Every branch of a handler in turn; a branch in which [authorize] has
    answered carries [forbidden_role]. *)
Ltac by_cases :=
  repeat case_match; simplify_eq; try done;
  match goal with H : authorize _ _ = Some _ |- _ =>
    by apply authorize_error in H as -> end.

Lemma multer_single_filter fileSize fs file :
  file ∈ fs → fileFilter file = false →
  ∃ m, multer_single fileSize fs = inl (next_error m).
Proof.
  intros Hin Hno. unfold multer_single.
  destruct fs as [|file0 rest]; [by apply elem_of_nil in Hin|].
  destruct (fileFilter file0) eqn:Hf0; simpl; [|eauto].
  case_match; simpl; [eauto|].
  destruct rest; [|eauto].
  apply list_elem_of_singleton in Hin as ->. congruence.
Qed.

Lemma multer_single_error fileSize fs r :
  multer_single fileSize fs = inl r → ∃ m, r = next_error m.
Proof. unfold multer_single. intros H. repeat case_match; simplify_eq; eauto. Qed.

Lemma uploadLecture_from_upload w env req user c file :
  instructs_course lib w req user c →
  multer_single (100 * 1024 * 1024) (Req.files req) = inr file →
  uploadLecture lib w env req =
    match file with
    | None => (json 400 (message "Video file is required"), w)
    | Some file =>
        match video_upload env file with
        | None => (json 500 (message "Server error uploading lecture"), w)
        | Some result => uploadLecture lib w env req
        end
    end.
Proof.
  intros (Hu & Hrole & Ht & Hid & Hc & Hown) Hm.
  destruct file as [file|].
  - destruct (video_upload env file) eqn:Hup; [done|].
    unfold uploadLecture, auth, authorize, handleValidationErrors.
    rewrite Hu, Hrole, Hm, Ht, Hid. simpl. rewrite Hc.
    rewrite (bool_decide_eq_true_2 _ Hown). simpl. by rewrite Hup.
  - unfold uploadLecture, auth, authorize, handleValidationErrors.
    by rewrite Hu, Hrole, Hm, Ht, Hid.
Qed.

(** C8.  An upload call with a file part whose content type is not a
    video is rejected by the file filter: the store and Cloudinary are as
    before, and the answer does not depend on what Cloudinary would have
    said.  A call without a file is rejected.  A call whose upload to
    Cloudinary fails is rejected as a whole: no lecture is stored and the
    course gets no reference. *)
Theorem uploadLecture_rejections w env req :
  (∀ file, file ∈ Req.files req → fileFilter file = false →
     is_success (uploadLecture lib w env req).1 = false ∧
     (uploadLecture lib w env req).2 = w ∧
     ∀ env', uploadLecture lib w env' req = uploadLecture lib w env req) ∧
  (Req.files req = [] →
     is_success (uploadLecture lib w env req).1 = false ∧
     (uploadLecture lib w env req).2 = w ∧
     ∀ user c, instructs_course lib w req user c →
       uploadLecture lib w env req = (json 400 (message "Video file is required"), w)) ∧
  (∀ file, Req.files req = [file] → video_upload env file = None →
     is_success (uploadLecture lib w env req).1 = false ∧
     (uploadLecture lib w env req).2 = w ∧
     ∀ user c, instructs_course lib w req user c →
       multer_single (100 * 1024 * 1024) [file] = inr (Some file) →
       uploadLecture lib w env req
       = (json 500 (message "Server error uploading lecture"), w)).
Proof.
  split; [|split].
  - intros file Hin Hno.
    destruct (multer_single_filter (100 * 1024 * 1024) _ _ Hin Hno) as [m Hm].
    unfold uploadLecture, auth. rewrite Hm. repeat split; by_cases.
  - intros Hfiles. split; [|split].
    + unfold uploadLecture, auth, handleValidationErrors. rewrite Hfiles. simpl.
      by_cases.
    + unfold uploadLecture, auth, handleValidationErrors. rewrite Hfiles. simpl.
      by_cases.
    + intros user c Hready.
      rewrite (uploadLecture_from_upload _ _ _ _ _ None Hready); [done|].
      by rewrite Hfiles.
  - intros file Hfiles Hup.
    assert (∀ r, multer_single (100 * 1024 * 1024) [file] = inr (Some r) → r = file)
      as Hsame.
    { intros r Hm. unfold multer_single in Hm. repeat case_match; by simplify_eq. }
    split; [|split].
    + unfold uploadLecture, auth, handleValidationErrors. rewrite Hfiles.
      destruct (multer_single _ [file]) as [r|[file'|]] eqn:Hm.
      * apply multer_single_error in Hm as [m ->]. by_cases.
      * rewrite (Hsame _ eq_refl), Hup. by_cases.
      * by_cases.
    + unfold uploadLecture, auth, handleValidationErrors. rewrite Hfiles.
      destruct (multer_single _ [file]) as [r|[file'|]] eqn:Hm.
      * by_cases.
      * rewrite (Hsame _ eq_refl), Hup. by_cases.
      * by_cases.
    + intros user c Hready Hm.
      rewrite (uploadLecture_from_upload _ _ _ _ _ (Some file) Hready);
        [by rewrite Hup|by rewrite Hfiles].
Qed.
End Properties.

(** * The properties at work on the scenario *)

Lemma scenario_reaches_guard :
  reaches_guard Reference.library Scenario.world0 Scenario.submit1
                Scenario.student1 Scenario.assignment0.
Proof.
  repeat split; try (vm_compute; congruence).
  exists Scenario.course0. split; [vm_compute; reflexivity|]. constructor.
Defined.

Lemma submit_deadline_guard_then_status_witness :
  assignmentDocs Scenario.world0 !! Req.param Scenario.submit1 = Some Scenario.assignment0 ∧
  ∃ sub w' a',
    submitAssignment Reference.library Scenario.world0 Scenario.across_deadline
                     Scenario.submit1
    = (json 200 (message_submission "Assignment submitted successfully" sub), w') ∧
    assignmentDocs w' !! Scenario.essay = Some a' ∧
    Assignment.submissions a' = [sub] ∧
    Submission.student sub = Scenario.sam ∧
    Submission.status sub = late.
Proof.
  assert (assignmentDocs Scenario.world0 !! Req.param Scenario.submit1
          = Some Scenario.assignment0) as Ha by (vm_compute; reflexivity).
  split; [exact Ha|].
  destruct (submit_deadline_guard_then_status Reference.library Scenario.world0
              Scenario.across_deadline Scenario.submit1 Scenario.assignment0 Ha)
    as (_ & _ & H).
  apply (H Scenario.student1 scenario_reaches_guard). vm_compute. congruence.
Defined.

Lemma upload_failures_are_absorbed_witness :
  reaches_guard Reference.library Scenario.world0 Scenario.submit1
                Scenario.student1 Scenario.assignment0 ∧
  ∃ sub w' a',
    submitAssignment Reference.library Scenario.world0 Scenario.in_time Scenario.submit1
    = (json 200 (message_submission "Assignment submitted successfully" sub), w') ∧
    assignmentDocs w' !! Scenario.essay = Some a' ∧
    Assignment.submissions a' = [sub] ∧
    Submission.student sub = Scenario.sam ∧
    Submission.attachments sub
    = [Attachment.mk "notes.pdf" "https://res.cloudinary.com/edunexus/notes.pdf"
                     "application/pdf";
       Attachment.mk "figure.png" "https://res.cloudinary.com/edunexus/figure.png"
                     "image/png"].
Proof.
  split; [exact scenario_reaches_guard|].
  apply (upload_failures_are_absorbed Reference.library Scenario.world0 Scenario.in_time
           Scenario.submit1 Scenario.student1 Scenario.assignment0 scenario_reaches_guard).
  vm_compute. congruence.
Defined.

Lemma scenario_first_submission :
  submitAssignment Reference.library Scenario.world0 Scenario.in_time Scenario.submit1
  = (json 200 (message_submission "Assignment submitted successfully" Scenario.submission1),
     Scenario.world1).
Proof. vm_compute. reflexivity. Defined.

Lemma scenario_teacher_grades :
  grades_own_assignment Reference.library Scenario.world1 Scenario.grade_70
                        Scenario.teacher Scenario.assignment1.
Proof. repeat split; vm_compute; reflexivity. Defined.

Lemma grading_twice_keeps_the_second_witness :
  ∃ p1 w1 sub2 w2 a2,
    gradeSubmission Reference.library Scenario.world1 Scenario.grade_70 = (json 200 p1, w1) ∧
    gradeSubmission Reference.library w1 Scenario.grade_85
    = (json 200 (message_submission "Assignment graded successfully" sub2), w2) ∧
    assignmentDocs w2 !! Scenario.essay = Some a2 ∧
    find_submission Scenario.sam (Assignment.submissions a2) = Some (0%nat, sub2) ∧
    Submission.marks sub2 = Some "85" ∧
    Submission.feedback sub2 = Some "good" ∧
    Submission.status sub2 = graded.
Proof.
  apply (grading_twice_keeps_the_second Reference.library Scenario.world1
           Scenario.grade_70 Scenario.grade_85 Scenario.teacher Scenario.assignment1
           Scenario.sam 0%nat Scenario.submission1 scenario_teacher_grades).
  - reflexivity.
  - reflexivity.
  - split; vm_compute; reflexivity.
  - reflexivity.
  - reflexivity.
  - vm_compute. reflexivity.
Defined.

Lemma scenario_essay_submitted :
  assignmentDocs Scenario.world1 !! Scenario.essay = Some Scenario.assignment1.
Proof. vm_compute. reflexivity. Defined.

(** The claim C4 as it was stated fails: Bob, who is not the instructor of
    the essay, grades it with marks that are no number, and is answered with
    the validation error, not with Forbidden. *)
Lemma invalid_marks_are_refused_before_ownership :
  assignmentDocs Scenario.world1 !! Req.param Scenario.grade_abc_by_colleague
  = Some Scenario.assignment1 ∧
  Req.user Scenario.grade_abc_by_colleague = Some Scenario.colleague ∧
  Actor.id Scenario.colleague ≠ Assignment.instructor Scenario.assignment1 ∧
  gradeSubmission Reference.library Scenario.world1 Scenario.grade_abc_by_colleague
  = (json 400 (errors ["Marks must be a number"]), Scenario.world1) ∧
  is_forbidden
    (gradeSubmission Reference.library Scenario.world1 Scenario.grade_abc_by_colleague).1
  = false.
Proof.
  split; [vm_compute; reflexivity|]. split; [reflexivity|].
  split; [vm_compute; congruence|]. split; vm_compute; reflexivity.
Qed.

Lemma only_the_assignment_instructor_grades_and_lists_witness :
  (gradeSubmission Reference.library Scenario.world1 Scenario.grade_by_colleague
   = (json 403 (message "Not authorized to grade this assignment"), Scenario.world1) ∧
   listSubmissions Scenario.world1 Scenario.submissions_by_colleague
   = (json 403 (message "Not authorized to view submissions"), Scenario.world1)) ∧
  gradeSubmission Reference.library Scenario.world1 Scenario.grade_absent
  = (json 404 (message "Submission not found"), Scenario.world1).
Proof.
  split.
  - destruct (only_the_assignment_instructor_grades_and_lists Reference.library
                Scenario.world1 Scenario.assignment1 Scenario.colleague
                Scenario.grade_by_colleague Scenario.submissions_by_colleague
                scenario_essay_submitted scenario_essay_submitted eq_refl eq_refl)
      as (Hg & _ & Hl & _).
    assert (Actor.id Scenario.colleague ≠ Assignment.instructor Scenario.assignment1)
      as Hne by (vm_compute; congruence).
    split.
    + apply (Hg Hne); [reflexivity|]. split; vm_compute; reflexivity.
    + apply (Hl Hne). reflexivity.
  - destruct (only_the_assignment_instructor_grades_and_lists Reference.library
                Scenario.world1 Scenario.assignment1 Scenario.teacher
                Scenario.grade_absent Scenario.submissions_by_teacher
                scenario_essay_submitted scenario_essay_submitted eq_refl eq_refl)
      as (_ & _ & _ & Hn).
    apply Hn; [reflexivity|reflexivity|split; vm_compute; reflexivity|].
    intros sid sub [= <-] Hin. apply list_elem_of_singleton in Hin as ->.
    vm_compute. congruence.
Defined.

Lemma grading_changes_one_submission_only_witness :
  ∃ sid i sub sub' a',
    studentId (Req.body Scenario.grade_85) = Some sid ∧
    find_submission sid (Assignment.submissions Scenario.assignment1) = Some (i, sub) ∧
    assignmentDocs (gradeSubmission Reference.library Scenario.world1 Scenario.grade_85).2
      !! Scenario.essay = Some a' ∧
    Assignment.submissions a' !! i = Some sub' ∧
    Submission.content sub' = Submission.content sub ∧
    Submission.marks sub' = Some "85" ∧
    Assignment.instructor a' = Scenario.ada.
Proof.
  destruct (grading_changes_one_submission_only Reference.library Scenario.world1
              Scenario.grade_85
              (message_submission "Assignment graded successfully"
                 (graded_with Reference.library (Req.body Scenario.grade_85)
                              Scenario.submission1))
              (gradeSubmission Reference.library Scenario.world1 Scenario.grade_85).2
              Scenario.assignment1 scenario_essay_submitted)
    as (sid & i & sub & sub' & a' & H1 & H2 & H3 & H4 & _ & _ & _ & H5 & _ & H6 & _ & _
        & _ & _ & _ & H7 & _).
  - vm_compute. reflexivity.
  - exists sid, i, sub, sub', a'. repeat split; try done; by rewrite H7.
Defined.

(** The claim C5 as it was stated fails: the instructor of the essay hands
    it to Bob by an update, and the stored [instructor] is Bob's id from then
    on. *)
Lemma update_overwrites_the_instructor :
  assignmentDocs Scenario.world0 !! Scenario.essay = Some Scenario.assignment0 ∧
  Assignment.instructor Scenario.assignment0 = Scenario.ada ∧
  ∃ a',
    assignmentDocs (updateAssignment Reference.library Scenario.world0 Scenario.reassign).2
      !! Scenario.essay = Some a' ∧
    Assignment.instructor a' = Scenario.bob ∧
    Assignment.instructor a' ≠ Assignment.instructor Scenario.assignment0.
Proof.
  split; [vm_compute; reflexivity|]. split; [reflexivity|].
  eexists. split; [vm_compute; reflexivity|]. split; [reflexivity|].
  vm_compute. congruence.
Qed.

Lemma scenario_quiz_created :
  createAssignment Reference.library Scenario.world0 Scenario.quiz_env Scenario.create_quiz
  = (json 201 (message_assignment "Assignment created successfully" Scenario.quiz
                                  Scenario.quiz0),
     Scenario.world2).
Proof. vm_compute. reflexivity. Defined.

Lemma instructor_is_kept_unless_an_update_sets_it_witness :
  ∃ c, courseDocs Scenario.world0 !! Scenario.algebra = Some c ∧
       Assignment.instructor Scenario.quiz1 = Course.instructor c.
Proof.
  apply (instructor_is_kept_unless_an_update_sets_it Reference.library Scenario.world0
           Scenario.quiz_env Scenario.create_quiz _ Scenario.world2
           (after Reference.library Scenario.world2 (op_update Scenario.retitle_quiz))
           Scenario.quiz1 scenario_quiz_created).
  - apply rtc_once. exists (op_update Scenario.retitle_quiz).
    split; [exact I|]. split; reflexivity.
  - vm_compute. reflexivity.
Defined.

Lemma scenario_well_formed : well_formed Scenario.world0.
Proof. unfold well_formed. apply (bool_decide_unpack _). vm_compute. exact I. Defined.

Lemma scenario_essay_deleted :
  deleteAssignment Scenario.world0 Scenario.delete_essay
  = (json 200 (message "Assignment deleted successfully"), Scenario.world3).
Proof. vm_compute. reflexivity. Defined.

Lemma deleted_assignment_is_never_listed_witness :
  (∃ c1, courseDocs Scenario.world3 !! Scenario.algebra = Some c1 ∧
         Scenario.essay ∉ Course.assignments c1) ∧
  Scenario.essay ∉
    [(Scenario.quiz, Scenario.quiz0, Some (UserDoc.mk "Ada" "ada@edunexus.com"))].*1.*1.
Proof.
  destruct (deleted_assignment_is_never_listed Reference.library Scenario.world0
              Scenario.delete_essay (message "Assignment deleted successfully")
              Scenario.world3 Scenario.assignment0 scenario_well_formed) as [Hc Hl].
  - vm_compute. reflexivity.
  - exact scenario_essay_deleted.
  - split; [exact Hc|].
    apply (Hl (after Reference.library Scenario.world3
                      (op_create Scenario.quiz_env Scenario.create_quiz))
              Scenario.list_for_sam).
    + apply rtc_once. exists (op_create Scenario.quiz_env Scenario.create_quiz).
      split; [|reflexivity]. apply (bool_decide_unpack _). vm_compute. exact I.
    + vm_compute. reflexivity.
Defined.

Lemma listAssignments_gate_and_order_witness :
  listAssignments Scenario.world2 Scenario.list_for_tom
  = (json 403 (message "Not authorized to view assignments"), Scenario.world2) ∧
  ∃ l,
    listAssignments Scenario.world2 Scenario.list_for_sam
    = (json 200 (assignment_list l), Scenario.world2) ∧
    StronglySorted listed_newest_first l ∧
    NoDup (l.*1.*1) ∧
    ∀ id a u,
      (id, a, u) ∈ l ↔
      assignmentDocs Scenario.world2 !! id = Some a ∧
      Assignment.course a = Scenario.algebra ∧
      u = userDocs Scenario.world2 !! Assignment.instructor a.
Proof.
  assert (courseDocs Scenario.world2 !! Scenario.algebra = Some Scenario.course2) as Hc
    by (vm_compute; reflexivity).
  split.
  - destruct (listAssignments_gate_and_order Scenario.world2 Scenario.list_for_tom
                Scenario.outsider Scenario.course2 eq_refl Hc) as [H _].
    apply H.
    + apply (bool_decide_unpack _). vm_compute. exact I.
    + vm_compute. congruence.
  - destruct (listAssignments_gate_and_order Scenario.world2 Scenario.list_for_sam
                Scenario.student1 Scenario.course2 eq_refl Hc) as [_ H].
    apply H. left. constructor.
Defined.

Lemma scenario_instructs_course req :
  Req.user req = Some Scenario.teacher →
  Req.body req = Scenario.lecture_body →
  instructs_course Reference.library Scenario.world0 req Scenario.teacher Scenario.course0.
Proof.
  intros Hu Hb. unfold instructs_course. rewrite Hu, Hb.
  repeat split; vm_compute; reflexivity.
Defined.

Lemma uploadLecture_rejections_witness :
  (is_success (uploadLecture Reference.library Scenario.world0 Scenario.cloudinary_up
                             Scenario.lecture_with_slides).1 = false ∧
   (uploadLecture Reference.library Scenario.world0 Scenario.cloudinary_up
                  Scenario.lecture_with_slides).2 = Scenario.world0) ∧
  uploadLecture Reference.library Scenario.world0 Scenario.cloudinary_up
                Scenario.lecture_without_file
  = (json 400 (message "Video file is required"), Scenario.world0) ∧
  uploadLecture Reference.library Scenario.world0 Scenario.cloudinary_down
                Scenario.lecture_with_video
  = (json 500 (message "Server error uploading lecture"), Scenario.world0).
Proof.
  split; [|split].
  - destruct (uploadLecture_rejections Reference.library Scenario.world0
                Scenario.cloudinary_up Scenario.lecture_with_slides) as (H & _ & _).
    destruct (H Scenario.slides) as (Hr & Hw & _); [constructor|reflexivity|].
    split; [exact Hr|exact Hw].
  - destruct (uploadLecture_rejections Reference.library Scenario.world0
                Scenario.cloudinary_up Scenario.lecture_without_file) as (_ & H & _).
    destruct (H eq_refl) as (_ & _ & Hr).
    apply (Hr Scenario.teacher Scenario.course0).
    by apply scenario_instructs_course.
  - destruct (uploadLecture_rejections Reference.library Scenario.world0
                Scenario.cloudinary_down Scenario.lecture_with_video) as (_ & _ & H).
    destruct (H Scenario.video eq_refl eq_refl) as (_ & _ & Hr).
    apply (Hr Scenario.teacher Scenario.course0).
    + by apply scenario_instructs_course.
    + vm_compute. reflexivity.
Defined.

(** ** The scenario, request by request *)

(** A submission that comes after the deadline is turned away. *)
Example sam_is_too_late :
  submitAssignment Reference.library Scenario.world0 Scenario.too_late Scenario.submit1
  = (json 400 (message "Assignment submission deadline has passed"), Scenario.world0).
Proof. vm_compute. reflexivity. Qed.

(** A submission that passes the guard one second before the deadline and
    is stored two seconds after it is kept, with the status [late]. *)
Example sam_is_late :
  Submission.status
    <$> (assignmentDocs
           (submitAssignment Reference.library Scenario.world0 Scenario.across_deadline
                             Scenario.submit1).2 !! Scenario.essay
         ≫= λ a, last (Assignment.submissions a))
  = Some late.
Proof. vm_compute. reflexivity. Qed.

(** The upload of [broken.bin] fails; the two other files are attached. *)
Example sam_attachments :
  Attachment.name <$> Submission.attachments Scenario.submission1
  = ["notes.pdf"; "figure.png"].
Proof. vm_compute. reflexivity. Qed.

(** It is the [instructor] stored on the assignment that decides who may
    grade: once the essay is handed to Bob, Ada, still the instructor of the
    course, is refused and Bob is not. *)
Example stored_instructor_decides :
  let w := (updateAssignment Reference.library Scenario.world1 Scenario.reassign).2 in
  (Course.instructor <$> courseDocs w !! Scenario.algebra) = Some Scenario.ada ∧
  (gradeSubmission Reference.library w Scenario.grade_85).1
  = json 403 (message "Not authorized to grade this assignment") ∧
  is_success
    (gradeSubmission Reference.library w
       (Req.mk (Some Scenario.colleague) Scenario.essay
               (Req.body Scenario.grade_85) [])).1 = true.
Proof. vm_compute. repeat split; reflexivity. Qed.

(** A lecture with a video that Cloudinary accepts is stored, and the course
    refers to it. *)
Example lecture_is_stored :
  let w := (uploadLecture Reference.library Scenario.world0 Scenario.cloudinary_up
                          Scenario.lecture_with_video).2 in
  is_Some (lectureDocs w !! lecture_id Scenario.cloudinary_up) ∧
  (Course.lectures <$> courseDocs w !! Scenario.algebra)
  = Some [lecture_id Scenario.cloudinary_up] ∧
  cloud w = ["edunexus/lectures/week1.mp4"].
Proof. vm_compute. repeat split; try reflexivity. eexists. reflexivity. Qed.

(** * More about the routes *)

Section Coverage.
Context (lib : Library).
Implicit Types (w : World) (a : Assignment.t) (user : Actor.t).

(** *** An answer that is no success leaves no trace *)








(** *** What one request does to the submissions of an assignment *)

Lemma apply_update_submissions b a a' :
  apply_update lib b a = Some a' →
  up_submissions b = None →
  Assignment.submissions a' = Assignment.submissions a.
Proof.
  unfold apply_update. intros H Hkeep. rewrite Hkeep in H.
  repeat case_match; by simplify_eq.
Qed.

Lemma later_submission_refl sub : later_submission sub sub.
Proof. repeat split; auto. Qed.

Lemma later_submission_trans sub1 sub2 sub3 :
  later_submission sub1 sub2 → later_submission sub2 sub3 → later_submission sub1 sub3.
Proof.
  intros (? & ? & ? & H12) (? & ? & ? & H23). repeat split; try congruence.
  destruct H23 as [H23|H23]; [|by right].
  destruct H12 as [H12|H12]; [left|right]; congruence.
Qed.

(** The submissions of an assignment found after a request: none, on an
    assignment the request created; or those it had before, as they were,
    with one appended for a student who had none, or with one of them
    graded. *)
Lemma after_submissions op w id a' :
  admissible w op → keeps_submissions op →
  assignmentDocs (after lib w op) !! id = Some a' →
  ((id ∉ issued w) ∧ Assignment.submissions a' = []) ∨
  ∃ a, assignmentDocs w !! id = Some a ∧
       (Assignment.submissions a' = Assignment.submissions a ∨
        (∃ sub,
           Assignment.submissions a' = (Assignment.submissions a ++ [sub])%list ∧
           find_submission (Submission.student sub) (Assignment.submissions a) = None ∧
           Submission.marks sub = None ∧
           Submission.status sub ≠ graded) ∨
        (∃ i sub sub',
           Assignment.submissions a !! i = Some sub ∧
           Assignment.submissions a' = <[i := sub']> (Assignment.submissions a) ∧
           later_submission sub sub' ∧
           Submission.status sub' = graded)).
Proof.
  intros Hadm Hkeep H. destruct op; simpl in *.
  - unfold createAssignment in *.
    repeat case_match; simplify_eq; simpl in *; eauto;
      (apply lookup_insert_Some in H as [[<- <-]|[? ?]]; [|by eauto]);
      by left.
  - rewrite list_store in H. eauto.
  - unfold submitAssignment in *.
    repeat case_match; simplify_eq; simpl in *; eauto;
      (apply lookup_insert_Some in H as [[<- <-]|[? ?]]; [|by eauto]);
      right; (eexists; split; [done|]); right; left;
      (eexists; split; [reflexivity|]); simpl;
      (split; [done|]); (split; [done|]); by case_bool_decide.
  - rewrite submissions_store in H. eauto.
  - unfold gradeSubmission in *.
    repeat case_match; simplify_eq; simpl in *; eauto;
      (apply lookup_insert_Some in H as [[<- <-]|[? ?]]; [|by eauto]);
      right; (eexists; split; [done|]); right; right;
      match goal with H : _ ≫= _ = Some (?i, ?sub) |- _ =>
        eexists i, sub, _;
        split; [apply bind_Some in H as (sid & _ & H); unfold find_submission in H;
                by apply list_find_Some in H as (? & _)|]
      end;
      (split; [reflexivity|]); split; [|done]; repeat split; auto.
  - unfold updateAssignment in *.
    repeat case_match; simplify_eq; simpl in *; eauto;
      (apply lookup_insert_Some in H as [[<- <-]|[? ?]]; [|by eauto]);
      right; (eexists; split; [done|]); left;
      by eapply apply_update_submissions.
  - unfold deleteAssignment in *.
    repeat case_match; simplify_eq; simpl in *; eauto;
      apply lookup_delete_Some in H as [? ?]; eauto.
  - unfold uploadLecture in *. repeat case_match; simplify_eq; simpl in *; eauto.
  - eauto.
Qed.

Lemma find_submission_None_students id l :
  find_submission id l = None → id ∉ Submission.student <$> l.
Proof.
  unfold find_submission. intros H%list_find_None Hin.
  apply list_elem_of_fmap in Hin as (sub & -> & Hin).
  rewrite Forall_forall in H. by apply (H sub).
Qed.

Lemma regraded_students (l : list Submission.t) (i : nat) sub sub' :
  l !! i = Some sub →
  Submission.student sub' = Submission.student sub →
  Submission.student <$> <[i := sub']> l = Submission.student <$> l.
Proof.
  intros Hi Hs. rewrite list_fmap_insert, Hs.
  apply list_insert_id. by rewrite list_lookup_fmap, Hi.
Qed.

(** X2.  At most one submission per student: a store in which no assignment
    embeds two submissions of one student stays so through any requests,
    provided no update carries a [submissions] path of its own. *)
Theorem one_submission_each_is_kept w w' :
  rtc (step_keeping_submissions lib) w w' →
  one_submission_each w → one_submission_each w'.
Proof.
  induction 1 as [|w w1 w2 (op & Hadm & Hkeep & ->) _ IH]; [done|].
  intros Hone. apply IH. intros id a' Ha'.
  destruct (after_submissions _ _ _ _ Hadm Hkeep Ha')
    as [[_ ->]|(a & Ha & [->|[(sub & -> & Hnone & _)|(i & sub & sub' & Hi & -> & Hl & _)]])].
  - constructor.
  - by eapply Hone.
  - rewrite fmap_app. apply NoDup_app. split; [by eapply Hone|]. split.
    + intros x Hx [->|Hnil]%elem_of_cons; [|by apply elem_of_nil in Hnil].
      by apply find_submission_None_students in Hnone.
    + apply NoDup_singleton.
  - destruct Hl as (Hs & _). rewrite (regraded_students _ _ sub) by done.
    by eapply Hone.
Qed.

Lemma elem_of_regraded (l : list Submission.t) i sub' x :
  x ∈ <[i := sub']> l → x = sub' ∨ x ∈ l.
Proof.
  intros (j & Hj)%list_elem_of_lookup_1.
  destruct (decide (i = j)) as [->|Hne].
  - left. rewrite list_lookup_insert_eq in Hj; [congruence|].
    apply lookup_lt_Some in Hj. by rewrite length_insert in Hj.
  - right. rewrite list_lookup_insert_ne in Hj by done.
    by eapply list_elem_of_lookup_2.
Qed.

(** X3.  Marks are on graded submissions only: a store in which every
    submission that has marks has the status [graded] stays so through any
    requests, provided no update carries a [submissions] path of its own. *)
Theorem marks_only_when_graded_is_kept w w' :
  rtc (step_keeping_submissions lib) w w' →
  marks_only_when_graded w → marks_only_when_graded w'.
Proof.
  induction 1 as [|w w1 w2 (op & Hadm & Hkeep & ->) _ IH]; [done|].
  intros Hinv. apply IH. intros id a' x Ha' Hx Hmarks.
  destruct (after_submissions _ _ _ _ Hadm Hkeep Ha')
    as [[_ Hnil]|(a & Ha & [Heq|[(sub & Heq & _ & Hm & _)
                                |(i & sub & sub' & Hi & Heq & _ & Hg)]])];
    rewrite Heq in Hx || rewrite Hnil in Hx.
  - by apply elem_of_nil in Hx.
  - by eapply Hinv.
  - apply elem_of_app in Hx as [Hx|Hx]; [by eapply Hinv|].
    apply list_elem_of_singleton in Hx as ->.
    rewrite Hm in Hmarks. by destruct Hmarks.
  - apply elem_of_regraded in Hx as [->|Hx]; [done|by eapply Hinv].
Qed.

Lemma later_submissions_refl l : later_submissions l l.
Proof. intros i sub Hi. eauto using later_submission_refl. Qed.

Lemma later_submissions_trans l1 l2 l3 :
  later_submissions l1 l2 → later_submissions l2 l3 → later_submissions l1 l3.
Proof.
  intros H12 H23 i sub Hi.
  destruct (H12 i sub Hi) as (sub2 & Hi2 & Hl2).
  destruct (H23 i sub2 Hi2) as (sub3 & Hi3 & Hl3).
  eauto using later_submission_trans.
Qed.

(** X4.  Submissions are only appended and graded: through any requests
    among which no update carries a [submissions] path, every submission an
    assignment embeds keeps its place in the list, its student, its content
    and its attachments, and its status changes to [graded] or not at all. *)
Theorem submissions_are_only_appended_and_graded w w' id a a' :
  rtc (step_keeping_submissions lib) w w' →
  well_formed w →
  assignmentDocs w !! id = Some a →
  assignmentDocs w' !! id = Some a' →
  later_submissions (Assignment.submissions a) (Assignment.submissions a').
Proof.
  intros Hsteps Hwf Ha Ha'.
  cut (id ∈ issued w' ∧
       ∀ x, assignmentDocs w' !! id = Some x →
            later_submissions (Assignment.submissions a) (Assignment.submissions x));
    [intros [_ H]; eauto|].
  clear Ha'. revert w' Hsteps. apply rtc_ind_r.
  - split; [apply Hwf, elem_of_dom; eauto|].
    intros x Hx. assert (x = a) as -> by congruence. apply later_submissions_refl.
  - intros w1 w2 _ (op & Hadm & Hkeep & ->) [Hi1 IH].
    split; [by apply (after_issued lib op w1)|]. intros x' Hx'.
    destruct (after_submissions _ _ _ _ Hadm Hkeep Hx')
      as [[? _]|(x & Hx & [->|[(sub & -> & _)|(i & sub & sub' & Hi & -> & Hl & _)]])];
      [done|by apply IH| |];
      apply (later_submissions_trans _ _ _ (IH x Hx)).
    + intros j y Hj. exists y. split; [|apply later_submission_refl].
      rewrite lookup_app_l; [done|]. by eapply lookup_lt_Some.
    + intros j y Hj. destruct (decide (i = j)) as [->|Hne].
      * exists sub'. split; [apply list_lookup_insert_eq; by eapply lookup_lt_Some|].
        congruence.
      * exists y. split; [by rewrite list_lookup_insert_ne|apply later_submission_refl].
Qed.

(** *** Submitting twice *)

Lemma find_submission_students id l :
  is_Some (find_submission id l) ↔ id ∈ Submission.student <$> l.
Proof.
  split.
  - unfold find_submission. intros [[i sub] (Hi & Hs & _)%list_find_Some].
    apply list_elem_of_fmap. exists sub. split; [done|].
    by eapply list_elem_of_lookup_2.
  - intros (sub & -> & Hin)%list_elem_of_fmap. unfold find_submission.
    by apply (list_find_elem_of _ _ sub).
Qed.

(** A submission of a student stays through any requests among which no
    update carries a [submissions] path, as long as the assignment is in
    the collection. *)
Lemma steps_keep_the_student w w' id a student :
  rtc (step_keeping_submissions lib) w w' →
  well_formed w →
  assignmentDocs w !! id = Some a →
  is_Some (find_submission student (Assignment.submissions a)) →
  ∀ a', assignmentDocs w' !! id = Some a' →
        is_Some (find_submission student (Assignment.submissions a')).
Proof.
  intros Hsteps Hwf Ha Hfound.
  cut (id ∈ issued w' ∧
       ∀ x, assignmentDocs w' !! id = Some x →
            student ∈ Submission.student <$> Assignment.submissions x).
  { intros [_ H] a' Ha'. by apply find_submission_students, H. }
  revert w' Hsteps. apply rtc_ind_r.
  - split; [apply Hwf, elem_of_dom; eauto|].
    intros x Hx. assert (x = a) as -> by congruence.
    by apply find_submission_students.
  - intros w1 w2 _ (op & Hadm & Hkeep & ->) [Hi1 IH].
    split; [by apply (after_issued lib op w1)|]. intros x' Hx'.
    destruct (after_submissions _ _ _ _ Hadm Hkeep Hx')
      as [[? _]|(x & Hx & [->|[(sub & -> & _)|(i & sub & sub' & Hi & -> & Hl & _)]])];
      [done|by apply IH| |].
    + rewrite fmap_app, elem_of_app. left. by apply IH.
    + rewrite (regraded_students _ _ sub); [by apply IH|done|]. by destruct Hl.
Qed.

(** C2.  Once a submission call of a student on an assignment has
    succeeded, the assignment holds a submission of the student for as long
    as it exists, through any further requests among which no update carries
    a [submissions] path: creating, listing, submitting, grading, updating
    other paths, deleting, uploading lectures, and whatever the other routes
    do to courses, lectures and users.  A second submission call of that
    student on that assignment then fails and leaves the store, and with it
    the submissions of the assignment, as it was.  When the call comes as far
    as the scan of the embedded list (files within multer's limits, content
    not empty, the assignment still there and its course listing the
    student), the [find] answers it with the duplicate error, the Conflict of
    the error taxonomy. *)
Theorem second_submission_is_a_conflict w env req p w1 w2 env2 req2 :
  well_formed w →
  submitAssignment lib w env req = (json 200 p, w1) →
  rtc (step_keeping_submissions lib) w1 w2 →
  Req.user req2 = Req.user req →
  Req.param req2 = Req.param req →
  (∃ user, Req.user req = Some user ∧
     ∀ a2, assignmentDocs w2 !! Req.param req = Some a2 →
           is_Some (find_submission (Actor.id user) (Assignment.submissions a2))) ∧
  is_success (submitAssignment lib w2 env2 req2).1 = false ∧
  (submitAssignment lib w2 env2 req2).2 = w2 ∧
  (∀ user a2 c2,
     Req.user req = Some user →
     multer_array (10 * 1024 * 1024) 5 (Req.files req2) = None →
     trim lib (field (content (Req.body req2))) ≠ "" →
     assignmentDocs w2 !! Req.param req = Some a2 →
     courseDocs w2 !! Assignment.course a2 = Some c2 →
     Actor.id user ∈ Course.students c2 →
     submitAssignment lib w2 env2 req2
     = (json 400 (message "Assignment already submitted"), w2)).
Proof.
  intros Hwf H Hsteps Huser Hparam.
  assert (well_formed w1) as Hwf1.
  { replace w1 with (after lib w (op_submit env req)) by (simpl; by rewrite H).
    by apply after_well_formed. }
  apply submit_success_inv in H as (user & a & Hready & _ & ->).
  destruct Hready as (Hu & Hrole & _ & _ & Ha & _ & _).
  assert (∀ a2, assignmentDocs w2 !! Req.param req = Some a2 →
                is_Some (find_submission (Actor.id user) (Assignment.submissions a2)))
    as Hkept.
  { eapply steps_keep_the_student; [done|done| |].
    - simpl. apply lookup_insert_eq.
    - simpl. by apply find_submission_snoc. }
  split; [eauto|].
  assert (∀ r, r = (submitAssignment lib w2 env2 req2) →
          (is_success r.1 = false ∧ r.2 = w2) ∧
          (∀ a2 c2,
             multer_array (10 * 1024 * 1024) 5 (Req.files req2) = None →
             trim lib (field (content (Req.body req2))) ≠ "" →
             assignmentDocs w2 !! Req.param req = Some a2 →
             courseDocs w2 !! Assignment.course a2 = Some c2 →
             Actor.id user ∈ Course.students c2 →
             r = (json 400 (message "Assignment already submitted"), w2))) as Hall.
  { intros r ->. unfold submitAssignment, auth, authorize, includes.
    rewrite Huser, Hu, Hrole, Hparam. simpl.
    destruct (multer_array _ _ _) as [r|] eqn:Hm.
    { apply multer_array_error in Hm as [m ->]. done. }
    case_bool_decide as Herr; simpl.
    - destruct (assignmentDocs w2 !! Req.param req) as [a2|] eqn:Ha2; [|done].
      destruct (Hkept a2 eq_refl) as [found Hfound].
      destruct (courseDocs w2 !! Assignment.course a2) as [c2|] eqn:Hc2;
        [|split; [done|]; intros a2' c2' _ _ ? ?; by simplify_eq].
      destruct (decide (Actor.id user ∈ Course.students c2)) as [Hin|Hin].
      + rewrite (bool_decide_eq_true_2 _ Hin). simpl.
        rewrite Hfound. split; [done|]. by intros; simplify_eq.
      + rewrite (bool_decide_eq_false_2 _ Hin). simpl.
        split; [done|]. intros a2' c2' _ _ ? ? Hg. by simplify_eq.
    - split; [done|]. intros a2 c2 _ Hne. exfalso. apply Herr.
      by rewrite (bool_decide_eq_false_2 _ Hne). }
  destruct (Hall _ eq_refl) as [[? ?] Hscan].
  split; [done|]. split; [done|].
  intros user' a2 c2 Hu'. assert (user' = user) as -> by congruence. apply Hscan.
Qed.

(** *** Creating, listing, deleting *)

Lemma create_success_store w env req p w1 :
  createAssignment lib w env req = (json 201 p, w1) →
  ∃ user c a,
    Req.user req = Some user ∧
    Actor.role user = Instructor ∧
    courseDocs w !! field (cr_course (Req.body req)) = Some c ∧
    Course.instructor c = Actor.id user ∧
    Assignment.instructor a = Actor.id user ∧
    Assignment.course a = field (cr_course (Req.body req)) ∧
    Assignment.submissions a = [] ∧
    Assignment.createdAt a = created_now env ∧
    p = message_assignment "Assignment created successfully" (new_id env) a ∧
    w1 = set_issued ({[new_id env]} ∪ issued w)
           (set_courseDocs
              (<[field (cr_course (Req.body req)) :=
                   Course.with_assignments (Course.assignments c ++ [new_id env])%list c]>
                 (courseDocs w))
              (set_assignmentDocs (<[new_id env := a]> (assignmentDocs w)) w)).
Proof.
  unfold createAssignment, auth, handleValidationErrors. intros H.
  destruct (Req.user req) as [user|]; [|done].
  destruct (authorize _ _) as [r|] eqn:Hr; [by apply authorize_error in Hr; simplify_eq|].
  assert (Actor.role user = Instructor) as Hrole.
  { destruct (decide (Actor.role user = Instructor)) as [|Hno]; [done|].
    unfold authorize in Hr.
    rewrite bool_decide_eq_false_2 in Hr by (by rewrite list_elem_of_singleton).
    done. }
  case_bool_decide; [|done].
  destruct (courseDocs w !! _) as [c|] eqn:Hc; [|done].
  case_bool_decide; [|done]. simpl in H.
  destruct (castDate lib _); [|done]. simplify_eq.
  eexists user, c, _. repeat split; done.
Qed.

Lemma pull_snoc id l : id ∉ l → pull id (l ++ [id]) = l.
Proof.
  unfold pull. intros Hid. rewrite filter_app, filter_cons_False, filter_nil, app_nil_r
    by (intros H; by apply H).
  induction l as [|x l IH]; [done|].
  apply not_elem_of_cons in Hid as [Hne Hid].
  rewrite filter_cons_True by done. by rewrite IH.
Qed.

(** X5.  An assignment that was created is listed: after a successful
    creation the id is the last of the [assignments] of the course, and the
    list of assignments of the course, asked for by the creator, contains
    the new assignment, with the creator as its instructor. *)
Theorem created_assignment_is_listed w env req p w1 lreq :
  createAssignment lib w env req = (json 201 p, w1) →
  Req.user lreq = Req.user req →
  Req.param lreq = field (cr_course (Req.body req)) →
  ∃ user a c1 l,
    Req.user req = Some user ∧
    p = message_assignment "Assignment created successfully" (new_id env) a ∧
    Assignment.instructor a = Actor.id user ∧
    courseDocs w1 !! Req.param lreq = Some c1 ∧
    last (Course.assignments c1) = Some (new_id env) ∧
    listAssignments w1 lreq = (json 200 (assignment_list l), w1) ∧
    (new_id env, a, userDocs w1 !! Assignment.instructor a) ∈ l.
Proof.
  intros (user & c & a & Hu & _ & Hc & Hci & Hai & Hac & _ & _ & -> & ->)%create_success_store
         Hlu Hlp.
  eexists user, a, _, _. split; [done|]. split; [done|]. split; [done|].
  split; [simpl; rewrite Hlp; apply lookup_insert_eq|].
  split; [simpl; apply last_snoc|].
  unfold listAssignments, auth, includes. rewrite Hlu, Hu, Hlp. simpl.
  rewrite lookup_insert_eq. simpl.
  rewrite (bool_decide_eq_true_2 (Course.instructor c = Actor.id user)) by done.
  rewrite andb_false_r. split; [reflexivity|].
  apply list_elem_of_fmap. exists (new_id env, a). split; [done|].
  rewrite merge_sort_Permutation. apply find_by_course_elem.
  split; [apply lookup_insert_eq|done].
Qed.

(** X6.  Creating an assignment and deleting it again gives back the
    collections: when the new id is neither in the assignment collection nor
    in the [assignments] of the course, the deletion by the creator succeeds
    and the courses, assignments, lectures, users and the cloud are as before
    the creation. *)
Theorem create_then_delete_restores w env req p w1 dreq :
  createAssignment lib w env req = (json 201 p, w1) →
  assignmentDocs w !! new_id env = None →
  (∀ c, courseDocs w !! field (cr_course (Req.body req)) = Some c →
        new_id env ∉ Course.assignments c) →
  Req.user dreq = Req.user req →
  Req.param dreq = new_id env →
  ∃ w2,
    deleteAssignment w1 dreq = (json 200 (message "Assignment deleted successfully"), w2) ∧
    assignmentDocs w2 = assignmentDocs w ∧
    courseDocs w2 = courseDocs w ∧
    lectureDocs w2 = lectureDocs w ∧
    userDocs w2 = userDocs w ∧
    cloud w2 = cloud w.
Proof.
  intros (user & c & a & Hu & Hrole & Hc & Hci & Hai & Hac & _ & _ & -> & ->)%create_success_store
         Hnew Hfresh Hdu Hdp.
  unfold deleteAssignment, auth, authorize. rewrite Hdu, Hu, Hrole, Hdp. simpl.
  rewrite lookup_insert_eq.
  rewrite (bool_decide_eq_true_2 (Assignment.instructor a = Actor.id user)) by done.
  simpl. rewrite Hac, lookup_insert_eq.
  eexists. split; [reflexivity|]. simpl.
  split; [by rewrite delete_insert_eq, delete_id|]. split; [|done].
  rewrite insert_insert_eq. apply insert_id. rewrite Hc. f_equal.
  destruct c as [i st le asg pub]. unfold Course.with_assignments. simpl.
  f_equal. symmetry. apply pull_snoc. by apply (Hfresh _ Hc).
Qed.

(** *** Updating and deleting are the owner's *)

Lemma update_body_valid_errors b :
  update_body_valid lib b →
  (match up_title b with
   | None => []
   | Some t => check (isLength lib 3 (trim lib t)) "Title must be at least 3 characters"
   end ++
   match up_description b with
   | None => []
   | Some d =>
       check (isLength lib 10 (trim lib d)) "Description must be at least 10 characters"
   end)%list = [].
Proof.
  intros [Ht Hd].
  destruct (up_title b) as [t|]; [rewrite (Ht t eq_refl)|];
    (destruct (up_description b) as [d|]; [rewrite (Hd d eq_refl)|]); done.
Qed.

(** X7.  Only the instructor stored on an assignment updates or deletes it:
    a call of anybody else (the update with a valid body) is answered with
    Forbidden and leaves the store as it was. *)
Theorem only_the_assignment_instructor_updates_and_deletes
    w a user (ureq : Req.t UpdateBody) (dreq : Req.t unit) :
  assignmentDocs w !! Req.param ureq = Some a →
  assignmentDocs w !! Req.param dreq = Some a →
  Req.user ureq = Some user →
  Req.user dreq = Some user →
  update_body_valid lib (Req.body ureq) →
  Actor.id user ≠ Assignment.instructor a →
  (is_forbidden (updateAssignment lib w ureq).1 = true ∧
   (updateAssignment lib w ureq).2 = w) ∧
  (is_forbidden (deleteAssignment w dreq).1 = true ∧
   (deleteAssignment w dreq).2 = w).
Proof.
  intros Hua Hda Huu Hdu Hvalid Hne. split.
  - unfold updateAssignment, auth, authorize. rewrite Huu.
    case_bool_decide as Hrole; [|done].
    rewrite (update_body_valid_errors _ Hvalid). simpl. rewrite Hua.
    rewrite bool_decide_eq_false_2 by congruence. done.
  - unfold deleteAssignment, auth, authorize. rewrite Hdu.
    case_bool_decide as Hrole; [|done].
    rewrite Hda. rewrite bool_decide_eq_false_2 by congruence. done.
Qed.

(** X8.  An assignment whose course document is gone can neither be
    submitted to nor deleted: the handler fails on the course that
    [populate] did not find, the call is answered with 500, and the store is
    as it was. *)
Theorem orphaned_assignment_is_stuck
    w a student teacher env (sreq : Req.t SubmitBody) (dreq : Req.t unit) :
  assignmentDocs w !! Req.param sreq = Some a →
  assignmentDocs w !! Req.param dreq = Some a →
  courseDocs w !! Assignment.course a = None →
  Req.user sreq = Some student →
  Actor.role student = Student →
  multer_array (10 * 1024 * 1024) 5 (Req.files sreq) = None →
  trim lib (field (content (Req.body sreq))) ≠ "" →
  Req.user dreq = Some teacher →
  Actor.role teacher = Instructor →
  Assignment.instructor a = Actor.id teacher →
  submitAssignment lib w env sreq
  = (json 500 (message "Server error submitting assignment"), w) ∧
  deleteAssignment w dreq = (json 500 (message "Server error deleting assignment"), w).
Proof.
  intros Hsa Hda Hgone Hsu Hsr Hm Hc Hdu Hdr Hown. split.
  - unfold submitAssignment, auth, authorize. rewrite Hsu, Hsr. simpl.
    rewrite Hm. rewrite (bool_decide_eq_false_2 _ Hc). simpl.
    by rewrite Hsa, Hgone.
  - unfold deleteAssignment, auth, authorize. rewrite Hdu, Hdr. simpl.
    rewrite Hda. rewrite (bool_decide_eq_true_2 _ Hown). simpl.
    by rewrite Hgone.
Qed.

(** X9.  A submission shows in the instructor's list: after a submission
    call that passes the deadline guard, the list of submissions the
    assignment's instructor gets is one longer than the list the assignment
    had, and its last entry is the new submission, with the student resolved
    among the users. *)
Theorem submission_shows_in_the_list
    w env req user a (lreq : Req.t unit) teacher :
  reaches_guard lib w req user a →
  ¬ now_guard env > Assignment.dueDate a →
  Req.user lreq = Some teacher →
  Actor.role teacher = Instructor →
  Assignment.instructor a = Actor.id teacher →
  Req.param lreq = Req.param req →
  ∃ l,
    listSubmissions (submitAssignment lib w env req).2 lreq
    = (json 200 (submission_list l), (submitAssignment lib w env req).2) ∧
    length l = S (length (Assignment.submissions a)) ∧
    last l = Some (new_submission lib env req user a, userDocs w !! Actor.id user).
Proof.
  intros Hready Hok Hlu Hlr Hown Hlp.
  rewrite (submit_from_guard _ _ _ _ _ _ Hready).
  rewrite (bool_decide_eq_false_2 _ Hok). simpl.
  unfold listSubmissions, auth, authorize. rewrite Hlu, Hlr, Hlp. simpl.
  rewrite lookup_insert_eq. simpl.
  rewrite (bool_decide_eq_true_2 _ Hown). simpl.
  eexists. split; [reflexivity|]. split.
  - by rewrite length_fmap, length_app, Nat.add_1_r.
  - rewrite fmap_app. apply last_snoc.
Qed.

End Coverage.

(** * The lecture routes *)

Section LectureCoverage.
Context (lib : Library) (rt : Runtime).
Implicit Types (k : Campus) (user : Actor.t).





(** *** Listing lectures *)

Lemma lectures_by_course_elem id k i l rs :
  (i, l, rs) ∈ lectures_by_course id k ↔
  lectureDocs (store k) !! i = Some l ∧ Lecture.course l = id ∧ rs = resources_of k i.
Proof.
  unfold lectures_by_course. rewrite list_elem_of_fmap. split.
  - intros ([i' l'] & Heq & Hin). simpl in Heq. simplify_eq.
    apply list_elem_of_filter in Hin as [Hc Hin].
    by apply elem_of_map_to_list in Hin.
  - intros (Hl & Hc & ->). exists (i, l). split; [done|].
    apply list_elem_of_filter. split; [done|]. by apply elem_of_map_to_list.
Qed.

Lemma lectures_by_course_ids id k :
  (lectures_by_course id k).*1.*1
  = (filter (λ p, Lecture.course p.2 = id) (map_to_list (lectureDocs (store k)))).*1.
Proof.
  unfold lectures_by_course.
  induction (filter _ _) as [|x l IH]; [done|]. csimpl. by f_equal.
Qed.

(** X12.  On an existing course, a call for the list of lectures by an
    actor who is neither in [students] nor the instructor of the course is
    answered with Forbidden.  Any other actor gets the lectures whose
    [course] is this course, each once and with its resources, in ascending
    [order]. *)
Theorem listLectures_gate_and_order k req user c :
  number_order rt →
  Req.user req = Some user →
  courseDocs (store k) !! Req.param req = Some c →
  (Actor.id user ∉ Course.students c → Course.instructor c ≠ Actor.id user →
     listLectures rt k req
     = (answered (json 403 (message "Not authorized to view lectures")), k)) ∧
  (Actor.id user ∈ Course.students c ∨ Course.instructor c = Actor.id user →
     ∃ l,
       listLectures rt k req = (json_lectures l, k) ∧
       StronglySorted (by_order rt) l ∧
       NoDup (l.*1.*1) ∧
       ∀ id lecture rs,
         (id, lecture, rs) ∈ l ↔
         lectureDocs (store k) !! id = Some lecture ∧
         Lecture.course lecture = Req.param req ∧
         rs = resources_of k id).
Proof.
  intros [Htotal Htrans] Hu Hc. unfold listLectures, auth, includes. rewrite Hu, Hc. split.
  - intros Hs Hi. rewrite (bool_decide_eq_false_2 _ Hs), (bool_decide_eq_false_2 _ Hi).
    done.
  - intros Hmember.
    assert (negb (bool_decide (Actor.id user ∈ Course.students c))
            && negb (bool_decide (Course.instructor c = Actor.id user)) = false) as ->.
    { destruct Hmember as [H|H]; rewrite (bool_decide_eq_true_2 _ H); simpl; [done|].
      apply andb_false_r. }
    assert (Total (by_order rt)) by (intros x y; apply Htotal).
    assert (Transitive (by_order rt)) by (intros x y z; apply Htrans).
    eexists. split; [reflexivity|]. split; [|split].
    + apply StronglySorted_merge_sort; apply _.
    + rewrite merge_sort_Permutation, lectures_by_course_ids.
      apply (sublist_NoDup _ (map_to_list (lectureDocs (store k))).*1).
      * apply NoDup_fst_map_to_list.
      * apply fmap_sublist, sublist_filter.
    + intros id lecture rs. rewrite merge_sort_Permutation.
      apply lectures_by_course_elem.
Qed.

(** *** Deleting a lecture *)

Lemma delete_lecture_run {k} {req : Req.t unit} {user lecture course} env :
  manages_lecture k req user lecture course →
  deleteLecture k env req =
    (answered (json 200 (message "Lecture deleted successfully")),
     set_resources (delete (Req.param req) (resources k))
       (set_store
          (set_cloud
             (if destroy env (Lecture.videoId lecture)
              then filter (λ x, x ≠ Lecture.videoId lecture) (cloud (store k))
              else cloud (store k))
             (set_lectureDocs (delete (Req.param req) (lectureDocs (store k)))
                (set_courseDocs
                   (<[Lecture.course lecture :=
                        Course.with_lectures
                          (pull (Req.param req) (Course.lectures course)) course]>
                      (courseDocs (store k)))
                   (store k)))) k)).
Proof.
  intros (Hu & Hrole & Hl & Hc & Hown).
  unfold deleteLecture, auth, authorize. rewrite Hu, Hrole. simpl.
  rewrite Hl, Hc. by rewrite (bool_decide_eq_true_2 _ Hown).
Qed.

(** X13.  A failure of Cloudinary does not stop the deletion of a lecture:
    whether [destroy] comes back or throws, the call of the course's
    instructor succeeds, the lecture is gone from the collection and from the
    [lectures] of its course.  Only the cloud tells the difference: the
    video is gone from it when [destroy] came back, and the cloud is as it
    was when it threw. *)
Theorem deleteLecture_survives_cloudinary k env (req : Req.t unit) user lecture course :
  manages_lecture k req user lecture course →
  ∃ k1,
    deleteLecture k env req
    = (answered (json 200 (message "Lecture deleted successfully")), k1) ∧
    lectureDocs (store k1) !! Req.param req = None ∧
    (∃ c1, courseDocs (store k1) !! Lecture.course lecture = Some c1 ∧
           Req.param req ∉ Course.lectures c1) ∧
    (destroy env (Lecture.videoId lecture) = true →
       Lecture.videoId lecture ∉ cloud (store k1)) ∧
    (destroy env (Lecture.videoId lecture) = false →
       cloud (store k1) = cloud (store k)).
Proof.
  intros Hready. rewrite (delete_lecture_run env Hready).
  eexists. split; [reflexivity|]. simpl.
  split; [apply lookup_delete_eq|].
  split; [eexists; split; [apply lookup_insert_eq|apply pull_gone]|].
  split; intros ->; [|done].
  rewrite list_elem_of_filter. tauto.
Qed.

(** *** Uploading and deleting *)

Lemma upload_success_store w env req p w1 :
  uploadLecture lib w env req = (json 201 p, w1) →
  ∃ user c file result lecture,
    Req.user req = Some user ∧
    Actor.role user = Instructor ∧
    courseDocs w !! field (le_course (Req.body req)) = Some c ∧
    Course.instructor c = Actor.id user ∧
    video_upload env file = Some result ∧
    Lecture.course lecture = field (le_course (Req.body req)) ∧
    Lecture.videoId lecture = public_id result ∧
    p = message_lecture "Lecture uploaded successfully" (lecture_id env) lecture ∧
    w1 = set_issued ({[lecture_id env]} ∪ issued w)
           (set_cloud (cloud w ++ [public_id result])%list
              (set_courseDocs
                 (<[field (le_course (Req.body req)) :=
                      Course.with_lectures (Course.lectures c ++ [lecture_id env])%list c]>
                    (courseDocs w))
                 (set_lectureDocs (<[lecture_id env := lecture]> (lectureDocs w)) w))).
Proof.
  unfold uploadLecture, auth, handleValidationErrors. intros H.
  destruct (Req.user req) as [user|]; [|done].
  destruct (authorize _ _) as [r|] eqn:Hr; [by apply authorize_error in Hr; simplify_eq|].
  assert (Actor.role user = Instructor) as Hrole.
  { destruct (decide (Actor.role user = Instructor)) as [|Hno]; [done|].
    unfold authorize in Hr.
    rewrite bool_decide_eq_false_2 in Hr by (by rewrite list_elem_of_singleton).
    done. }
  destruct (multer_single _ _) as [r|file] eqn:Hm.
  { apply multer_single_error in Hm as [m ->]. done. }
  case_bool_decide; [|done].
  destruct file as [file|]; [|done].
  destruct (courseDocs w !! _) as [c|] eqn:Hc; [|done].
  case_bool_decide; [|done]. simpl in H.
  destruct (video_upload env file) as [result|] eqn:Hup; [|done].
  destruct (lecture_order lib (Req.body req)) as [order|]; [|done]. simplify_eq.
  eexists user, c, file, result, _. repeat split; done.
Qed.

(** X14.  Uploading a lecture and deleting it again gives back the
    collections, the cloud and the resources: when the new id is not yet in
    use, the cloud does not hold the public id of the upload yet, and
    Cloudinary carries out the deletion, the deletion by the uploader
    succeeds and lectures, courses, assignments, users, cloud and resources
    are as before the upload. *)
Theorem upload_then_delete_restores k env req p k1 denv (dreq : Req.t unit) :
  uploadLectureK lib k env req = (answered (json 201 p), k1) →
  lectureDocs (store k) !! lecture_id env = None →
  resources k !! lecture_id env = None →
  (∀ c, courseDocs (store k) !! field (le_course (Req.body req)) = Some c →
        lecture_id env ∉ Course.lectures c) →
  (∀ file result, video_upload env file = Some result →
                  public_id result ∉ cloud (store k)) →
  (∀ id, destroy denv id = true) →
  Req.user dreq = Req.user req →
  Req.param dreq = lecture_id env →
  ∃ k2,
    deleteLecture k1 denv dreq
    = (answered (json 200 (message "Lecture deleted successfully")), k2) ∧
    lectureDocs (store k2) = lectureDocs (store k) ∧
    courseDocs (store k2) = courseDocs (store k) ∧
    assignmentDocs (store k2) = assignmentDocs (store k) ∧
    userDocs (store k2) = userDocs (store k) ∧
    cloud (store k2) = cloud (store k) ∧
    resources k2 = resources k.
Proof.
  unfold uploadLectureK. intros Hup Hnew Hres Hfresh Hcloud Hdestroy Hdu Hdp.
  destruct (uploadLecture lib (store k) env req) as [r w1] eqn:Hrun.
  injection Hup as -> <-.
  apply upload_success_store
    in Hrun as (user & c & file & result & lecture
                & Hu & Hrole & Hc & Hci & Hfile & Hlc & Hvid & _ & ->).
  assert (public_id result ∉ cloud (store k)) as Hpid by eauto.
  assert (manages_lecture
            (set_store
               (set_issued ({[lecture_id env]} ∪ issued (store k))
                  (set_cloud (cloud (store k) ++ [public_id result])%list
                     (set_courseDocs
                        (<[field (le_course (Req.body req)) :=
                             Course.with_lectures
                               (Course.lectures c ++ [lecture_id env])%list c]>
                           (courseDocs (store k)))
                        (set_lectureDocs
                           (<[lecture_id env := lecture]> (lectureDocs (store k)))
                           (store k))))) k)
            dreq user lecture
            (Course.with_lectures (Course.lectures c ++ [lecture_id env])%list c))
    as Hready.
  { split; [by rewrite Hdu|]. split; [done|]. simpl.
    split; [by rewrite Hdp, lookup_insert_eq|].
    split; [by rewrite Hlc, lookup_insert_eq|done]. }
  rewrite (delete_lecture_run denv Hready). eexists. split; [reflexivity|]. simpl.
  rewrite Hdp, Hdestroy, Hlc, Hvid.
  split; [by rewrite delete_insert_eq, delete_id|].
  split; [|split; [done|split; [done|split]]].
  - rewrite insert_insert_eq. apply insert_id. rewrite Hc. f_equal.
    destruct c as [i st le asg pub]. unfold Course.with_lectures. simpl.
    f_equal. symmetry. apply pull_snoc. by apply (Hfresh _ Hc).
  - by apply (pull_snoc (public_id result)).
  - by apply delete_id.
Qed.

(** *** Resources *)

(** X15.  A resource is appended: for the instructor of the lecture's
    course and a body that passes the validators (a name, a URL, one of the
    five types), the resource goes to the end of the resources of the
    lecture, the resources it had stay as they are, and the store and the
    resources of other lectures are untouched.  A body with another type is
    refused. *)
Theorem addResource_appends k (req : Req.t ResourceBody) user lecture course :
  manages_lecture k req user lecture course →
  (resource_body_valid lib rt (Req.body req) →
   ∃ k1 r,
     addResource lib rt k req
     = (json_lecture "Resource added successfully" (Req.param req) lecture
                     (resources_of k (Req.param req) ++ [r]), k1) ∧
     r = Resource.mk (trim lib (field (rb_name (Req.body req))))
                     (field (rb_url (Req.body req))) (field (rb_type (Req.body req))) ∧
     resources_of k1 (Req.param req) = (resources_of k (Req.param req) ++ [r])%list ∧
     (∀ id, id ≠ Req.param req → resources_of k1 id = resources_of k id) ∧
     store k1 = store k) ∧
  (field (rb_type (Req.body req)) ∉ resource_types →
   ∃ es, addResource lib rt k req = (answered (json 400 (errors es)), k) ∧
         "Invalid resource type" ∈ es).
Proof.
  intros (Hu & Hrole & Hl & Hc & Hown). split.
  - intros (Hname & Hurl & Htype).
    unfold addResource, auth, authorize. rewrite Hu, Hrole. simpl.
    rewrite (bool_decide_eq_false_2 _ Hname), Hurl, (bool_decide_eq_true_2 _ Htype).
    simpl. rewrite Hl, Hc, (bool_decide_eq_true_2 _ Hown). simpl.
    eexists _, _. split; [reflexivity|]. split; [reflexivity|].
    split; [|split; [|done]].
    + unfold resources_of at 1. simpl. by rewrite lookup_insert_eq.
    + intros id Hid. unfold resources_of. simpl. by rewrite lookup_insert_ne.
  - intros Htype. unfold addResource, auth, authorize. rewrite Hu, Hrole. simpl.
    rewrite (bool_decide_eq_false_2 _ Htype). simpl.
    case_bool_decide as Herr; simpl.
    + exfalso. by repeat (apply app_eq_nil in Herr as [_ Herr]).
    + eexists. split; [reflexivity|]. rewrite !elem_of_app. right. right. by left.
Qed.
End LectureCoverage.

(** * The course routes *)

(** ** The pages of a list *)

Section Paging.
Context {A : Type}.
Implicit Types (found : list A).

Lemma total_pages_bounds (total limitNum : Z) :
  1 ≤ limitNum →
  (total_pages total limitNum - 1) * limitNum < total ≤ total_pages total limitNum * limitNum.
Proof.
  intros HL. unfold total_pages.
  pose proof (Z.div_mod (total + limitNum - 1) limitNum ltac:(lia)) as Hdm.
  pose proof (Z.mod_pos_bound (total + limitNum - 1) limitNum ltac:(lia)) as Hm.
  nia.
Qed.

Lemma total_pages_nonneg (total limitNum : Z) :
  0 ≤ total → 1 ≤ limitNum → 0 ≤ total_pages total limitNum.
Proof. intros. unfold total_pages. apply Z.div_pos; lia. Qed.

Lemma page_of_nat found (i : nat) (limitNum : Z) :
  1 ≤ limitNum →
  page_of found (Z.of_nat (S i)) limitNum
  = take (Z.to_nat limitNum) (drop (i * Z.to_nat limitNum) found).
Proof.
  intros HL. unfold page_of. do 2 f_equal.
  replace (Z.of_nat (S i) - 1) with (Z.of_nat i) by lia.
  rewrite Z2Nat.inj_mul by lia. by rewrite Nat2Z.id.
Qed.

Lemma pages_take found (n m : nat) :
  mjoin ((λ i, take n (drop (i * n) found)) <$> seq 0 m) = take (m * n) found.
Proof.
  induction m as [|m IH]; [done|].
  rewrite seq_S, fmap_app, join_app, IH. simpl.
  rewrite app_nil_r, take_take_drop. f_equal. lia.
Qed.

Lemma page_of_length found (pageNum limitNum : Z) :
  (length (page_of found pageNum limitNum) ≤ Z.to_nat limitNum)%nat.
Proof. unfold page_of. rewrite length_take. lia. Qed.

Lemma page_of_sublist found (pageNum limitNum : Z) :
  page_of found pageNum limitNum `sublist_of` found.
Proof.
  unfold page_of. etrans; [apply sublist_take|apply sublist_drop].
Qed.

Lemma page_of_sorted (R : relation A) found (pageNum limitNum : Z) :
  StronglySorted R found → StronglySorted R (page_of found pageNum limitNum).
Proof.
  intros Hs. unfold page_of.
  rewrite <-(take_drop (Z.to_nat ((pageNum - 1) * limitNum)) found) in Hs.
  apply StronglySorted_app_1_r in Hs.
  rewrite <-(take_drop (Z.to_nat limitNum) (drop _ found)) in Hs.
  by apply StronglySorted_app_1_l in Hs.
Qed.

(** X16.  The pages of a list are a partition of it: with a limit of at
    least 1, the pages 1 to [totalPages], one after the other, are the list;
    each of them has an entry; and every page after them is empty. *)
Theorem pages_are_a_partition found (limitNum : Z) :
  1 ≤ limitNum →
  mjoin ((λ p, page_of found (Z.of_nat p) limitNum)
           <$> seq 1 (Z.to_nat (total_pages (Z.of_nat (length found)) limitNum)))
  = found ∧
  (∀ p, 1 ≤ p ≤ total_pages (Z.of_nat (length found)) limitNum →
        page_of found p limitNum ≠ []) ∧
  (∀ p, total_pages (Z.of_nat (length found)) limitNum < p →
        page_of found p limitNum = []).
Proof.
  intros HL.
  pose proof (total_pages_bounds (Z.of_nat (length found)) limitNum HL) as [Hlo Hhi].
  pose proof (total_pages_nonneg (Z.of_nat (length found)) limitNum ltac:(lia) HL) as Hnn.
  set (tp := total_pages (Z.of_nat (length found)) limitNum) in *.
  split; [|split].
  - rewrite <-fmap_S_seq, <-list_fmap_compose.
    rewrite (list_fmap_ext _ (λ i, take (Z.to_nat limitNum)
                                     (drop (i * Z.to_nat limitNum) found)) (seq 0 _) )
      by (intros i x _; by apply page_of_nat).
    rewrite pages_take. apply take_ge.
    assert (Z.of_nat (length found) ≤ Z.of_nat (Z.to_nat tp * Z.to_nat limitNum)); [|lia].
    rewrite Nat2Z.inj_mul, !Z2Nat.id by lia. done.
  - intros p [Hp1 Hp2] Hnil.
    apply (f_equal length) in Hnil. unfold page_of in Hnil.
    rewrite length_take, length_drop in Hnil. simpl in Hnil.
    assert ((p - 1) * limitNum < Z.of_nat (length found)) by nia.
    assert (0 ≤ (p - 1) * limitNum) by nia.
    generalize dependent ((p - 1) * limitNum). intros. lia.
  - intros p Hp. unfold page_of. apply length_zero_iff_nil.
    rewrite length_take, length_drop.
    assert (Z.of_nat (length found) ≤ (p - 1) * limitNum) by nia.
    generalize dependent ((p - 1) * limitNum). intros. lia.
Qed.
End Paging.

Section CourseCoverage.
Context (lib : Library) (rt : Runtime).
Implicit Types (k : Campus) (user : Actor.t).

Ltac refused H := try done; exfalso; revert H; vm_compute; congruence.

Lemma update_account_store f id k : store (update_account f id k) = store k.
Proof. unfold update_account. by case_match. Qed.

Lemma update_account_absent f id k :
  userDocs (store k) !! id = None → update_account f id k = k.
Proof. unfold update_account. by intros ->. Qed.

Lemma update_account_same f id k :
  is_Some (userDocs (store k) !! id) →
  account_of (update_account f id k) id = f (account_of k id).
Proof.
  intros [u Hu]. unfold update_account. rewrite Hu.
  unfold account_of at 1. simpl. by rewrite lookup_insert_eq.
Qed.

Lemma update_account_other f id k id' :
  id' ≠ id → account_of (update_account f id k) id' = account_of k id'.
Proof.
  intros Hne. unfold update_account. case_match; [|done].
  unfold account_of. simpl. by rewrite lookup_insert_ne.
Qed.

Lemma update_account_listings f id k :
  listings (update_account f id k) = listings k ∧
  resources (update_account f id k) = resources k.
Proof. unfold update_account. by case_match. Qed.

(** What a successful enrolment went through, and what it leaves. *)
Lemma enroll_success k req :
  answer_ok (enroll k req).1 = true →
  ∃ user c,
    Req.user req = Some user ∧
    Actor.role user = Student ∧
    courseDocs (store k) !! Req.param req = Some c ∧
    Course.isPublished c = true ∧
    (Actor.id user ∉ Course.students c) ∧
    enroll k req =
      (answered (json 200 (message "Successfully enrolled in course")),
       update_account
         (λ u, Account.with_enrolledCourses
                 (Account.enrolledCourses u ++ [Req.param req])%list u)
         (Actor.id user)
         (set_store
            (set_courseDocs
               (<[Req.param req :=
                    Course.mk (Course.instructor c)
                              (Course.students c ++ [Actor.id user])%list
                              (Course.lectures c) (Course.assignments c)
                              (Course.isPublished c)]>
                  (courseDocs (store k))) (store k)) k)).
Proof.
  unfold enroll, auth, includes. intros H.
  destruct (Req.user req) as [user|]; [|done].
  destruct (authorize _ _) as [r|] eqn:Hr;
    [by apply authorize_error in Hr; simplify_eq|].
  assert (Actor.role user = Student) as Hrole.
  { destruct (decide (Actor.role user = Student)) as [|Hno]; [done|].
    unfold authorize in Hr.
    rewrite bool_decide_eq_false_2 in Hr by (by rewrite list_elem_of_singleton).
    done. }
  destruct (courseDocs (store k) !! Req.param req) as [c|] eqn:Hc; [|refused H].
  destruct (Course.isPublished c) eqn:Hpub; simpl in *; [|refused H].
  case_bool_decide as Hin; [refused H|].
  exists user, c. repeat split; try done. by rewrite Hpub.
Qed.

(** X17.  Enrolment is once: a successful enrolment appends the student to
    the [students] of the course, where the student was not before, so that
    a list without repetitions stays one; the course is appended to the
    [enrolledCourses] of the student; and the same request sent again is
    refused as already enrolled, and changes nothing. *)
Theorem enrolment_is_once k req :
  answer_ok (enroll k req).1 = true →
  ∃ user c c1,
    Req.user req = Some user ∧
    courseDocs (store k) !! Req.param req = Some c ∧
    courseDocs (store (enroll k req).2) !! Req.param req = Some c1 ∧
    Course.students c1 = (Course.students c ++ [Actor.id user])%list ∧
    (Actor.id user ∉ Course.students c) ∧
    (NoDup (Course.students c) → NoDup (Course.students c1)) ∧
    (is_Some (userDocs (store k) !! Actor.id user) →
       Account.enrolledCourses (account_of (enroll k req).2 (Actor.id user))
       = (Account.enrolledCourses (account_of k (Actor.id user)) ++ [Req.param req])%list) ∧
    enroll (enroll k req).2 req
    = (answered (json 400 (message "Already enrolled in this course")), (enroll k req).2).
Proof.
  intros (user & c & Hu & Hrole & Hc & Hpub & Hnew & Hrun)%enroll_success.
  rewrite Hrun. simpl. eexists user, c, _.
  split; [done|]. split; [done|].
  split; [rewrite update_account_store; simpl; apply lookup_insert_eq|].
  split; [done|]. split; [done|]. split; [|split].
  - intros Hnd. simpl. apply NoDup_app. split; [done|]. split; [|apply NoDup_singleton].
    intros x Hx Hx'. apply list_elem_of_singleton in Hx' as ->. done.
  - intros Huser. by rewrite update_account_same.
  - unfold enroll at 1. unfold auth, authorize, includes. rewrite Hu, Hrole. simpl.
    rewrite update_account_store. simpl. rewrite lookup_insert_eq. simpl.
    rewrite Hpub. simpl.
    rewrite bool_decide_eq_true_2; [done|]. apply elem_of_app. right. by left.
Qed.

(** X18.  Enrolment opens the course: after a successful enrolment the
    student is not refused the list of assignments of the course, nor the
    list of its lectures. *)
Theorem enrolment_opens_the_course k req (lreq : Req.t unit) :
  answer_ok (enroll k req).1 = true →
  Req.user lreq = Req.user req →
  Req.param lreq = Req.param req →
  (∃ l, listAssignments (store (enroll k req).2) lreq
        = (json 200 (assignment_list l), store (enroll k req).2)) ∧
  (∃ l, listLectures rt (enroll k req).2 lreq = (json_lectures l, (enroll k req).2)).
Proof.
  intros (user & c & Hu & Hrole & Hc & Hpub & Hnew & Hrun)%enroll_success Hlu Hlp.
  rewrite Hrun. simpl.
  assert (bool_decide (Actor.id user ∈ (Course.students c ++ [Actor.id user])%list) = true)
    as Hin.
  { apply bool_decide_eq_true_2, elem_of_app. right. by left. }
  split.
  - unfold listAssignments, auth, includes. rewrite Hlu, Hu, Hlp.
    rewrite update_account_store. simpl. rewrite lookup_insert_eq. simpl.
    rewrite Hin. simpl. eauto.
  - unfold listLectures, auth, includes. rewrite Hlu, Hu, Hlp.
    rewrite update_account_store. simpl. rewrite lookup_insert_eq. simpl.
    rewrite Hin. simpl. eauto.
Qed.

(** *** Deleting a course *)

Lemma deleteCourse_success k req :
  answer_ok (deleteCourse k req).1 = true →
  ∃ user c,
    Req.user req = Some user ∧
    courseDocs (store k) !! Req.param req = Some c ∧
    (Actor.role user = Admin ∨ Course.instructor c = Actor.id user) ∧
    (deleteCourse k req).2 =
      update_account
        (λ u, Account.with_createdCourses
                (pull (Req.param req) (Account.createdCourses u)) u)
        (Course.instructor c)
        (set_listings (delete (Req.param req) (listings k))
           (set_store
              (set_courseDocs (delete (Req.param req) (courseDocs (store k))) (store k))
              k)).
Proof.
  unfold deleteCourse, auth. intros H.
  destruct (Req.user req) as [user|]; [|done].
  destruct (authorize _ _) as [r|] eqn:Hr;
    [by apply authorize_error in Hr; simplify_eq|].
  destruct (courseDocs (store k) !! Req.param req) as [c|] eqn:Hc; [|refused H].
  exists user, c. split; [done|]. split; [done|].
  do 2 case_bool_decide; simpl in *; try (split; [tauto|done]). refused H.
Qed.

(** X19.  Deleting a course does not reach its contents: the assignments
    and the lectures of the course stay in their collections, and the users
    other than its instructor keep the course in their lists.  An assignment
    of the course is stuck from then on: its instructor's call to delete it
    is answered with 500 and changes nothing. *)
Theorem deleteCourse_does_not_cascade k req :
  answer_ok (deleteCourse k req).1 = true →
  ∃ c,
    courseDocs (store k) !! Req.param req = Some c ∧
    courseDocs (store (deleteCourse k req).2) !! Req.param req = None ∧
    assignmentDocs (store (deleteCourse k req).2) = assignmentDocs (store k) ∧
    lectureDocs (store (deleteCourse k req).2) = lectureDocs (store k) ∧
    (∀ id, id ≠ Course.instructor c →
           account_of (deleteCourse k req).2 id = account_of k id) ∧
    (∀ a teacher (dreq : Req.t unit),
       assignmentDocs (store k) !! Req.param dreq = Some a →
       Assignment.course a = Req.param req →
       Req.user dreq = Some teacher →
       Actor.role teacher = Instructor →
       Assignment.instructor a = Actor.id teacher →
       deleteAssignment (store (deleteCourse k req).2) dreq
       = (json 500 (message "Server error deleting assignment"),
          store (deleteCourse k req).2)).
Proof.
  intros (user & c & Hu & Hc & _ & ->)%deleteCourse_success.
  exists c. rewrite update_account_store. simpl.
  split; [done|]. split; [apply lookup_delete_eq|]. split; [done|]. split; [done|].
  split; [intros id Hid; by rewrite update_account_other|].
  intros a teacher dreq Ha Hcourse Hdu Hrole Hown.
  unfold deleteAssignment, auth, authorize. rewrite Hdu, Hrole. simpl.
  rewrite Ha, (bool_decide_eq_true_2 _ Hown). simpl.
  by rewrite Hcourse, lookup_delete_eq.
Qed.

(** *** Creating a course *)

Lemma createCourse_success k env req :
  answer_ok (createCourse lib k env req).1 = true →
  ∃ user c,
    Req.user req = Some user ∧
    Actor.role user = Instructor ∧
    Course.instructor c = Actor.id user ∧
    Course.students c = default [] (cb_students (Req.body req)) ∧
    (createCourse lib k env req).2 =
      update_account
        (λ u, Account.with_createdCourses
                (Account.createdCourses u ++ [course_id env])%list u)
        (Actor.id user)
        (set_listings
           (<[course_id env :=
                Listing.mk (Some (trim lib (field (cb_title (Req.body req)))))
                           (Some (trim lib (field (cb_description (Req.body req)))))
                           (cb_category (Req.body req)) (cb_level (Req.body req))
                           (Some (course_now env))]> (listings k))
           (set_store
              (set_issued ({[course_id env]} ∪ issued (store k))
                 (set_courseDocs (<[course_id env := c]> (courseDocs (store k)))
                                 (store k))) k)).
Proof.
  unfold createCourse, auth, handleValidationErrors. intros H.
  destruct (Req.user req) as [user|]; [|done].
  destruct (authorize _ _) as [r|] eqn:Hr;
    [by apply authorize_error in Hr; simplify_eq|].
  assert (Actor.role user = Instructor) as Hrole.
  { destruct (decide (Actor.role user = Instructor)) as [|Hno]; [done|].
    unfold authorize in Hr.
    rewrite bool_decide_eq_false_2 in Hr by (by rewrite list_elem_of_singleton).
    done. }
  case_bool_decide; [|refused H].
  eexists user, _. repeat split; done.
Qed.

Lemma create_body_valid_errors (b : CreateBody) :
  create_body_valid lib b →
  (check (isLength lib 3 (trim lib (field (cr_title b))))
         "Title must be at least 3 characters" ++
   check (isLength lib 10 (trim lib (field (cr_description b))))
         "Description must be at least 10 characters" ++
   check (isMongoId lib (field (cr_course b))) "Valid course ID is required" ++
   check (isISO8601 lib (field (cr_dueDate b))) "Valid due date is required" ++
   match cr_maxMarks b with
   | None => []
   | Some m => check (isNumeric lib m) "Max marks must be a number"
   end)%list = [].
Proof.
  intros (-> & -> & -> & -> & Hm). simpl.
  destruct (cr_maxMarks b) as [m|]; [|done]. by rewrite (Hm m eq_refl).
Qed.

(** X20.  A course belongs to who created it: whatever the body of the
    request carries, also an [instructor] of its own, the course is stored
    with the caller as its instructor and appended to the caller's
    [createdCourses]; and the caller's request for an assignment of the new
    course, with a valid body and a date that casts, succeeds. *)
Theorem created_course_belongs_to_its_creator k env req :
  answer_ok (createCourse lib k env req).1 = true →
  ∃ user c,
    Req.user req = Some user ∧
    courseDocs (store (createCourse lib k env req).2) !! course_id env = Some c ∧
    Course.instructor c = Actor.id user ∧
    (is_Some (userDocs (store k) !! Actor.id user) →
       Account.createdCourses (account_of (createCourse lib k env req).2 (Actor.id user))
       = (Account.createdCourses (account_of k (Actor.id user)) ++ [course_id env])%list) ∧
    (∀ aenv (areq : Req.t CreateBody),
       Req.user areq = Some user →
       cr_course (Req.body areq) = Some (course_id env) →
       create_body_valid lib (Req.body areq) →
       is_Some (castDate lib (field (cr_dueDate (Req.body areq)))) →
       ∃ a w,
         createAssignment lib (store (createCourse lib k env req).2) aenv areq
         = (json 201 (message_assignment "Assignment created successfully"
                                         (new_id aenv) a), w) ∧
         Assignment.course a = course_id env ∧
         Assignment.instructor a = Actor.id user).
Proof.
  intros (user & c & Hu & Hrole & Hci & _ & ->)%createCourse_success.
  exists user, c. rewrite update_account_store. simpl.
  split; [done|]. split; [apply lookup_insert_eq|]. split; [done|].
  split; [intros Huser; by rewrite update_account_same|].
  intros aenv areq Hau Hcourse Hvalid [d Hd].
  unfold createAssignment, auth, authorize, handleValidationErrors.
  rewrite Hau, Hrole. simpl.
  rewrite (create_body_valid_errors _ Hvalid). simpl.
  rewrite Hcourse. simpl. rewrite lookup_insert_eq.
  rewrite (bool_decide_eq_true_2 _ Hci). simpl.
  rewrite Hd.
  eexists _, _. split; [reflexivity|]. done.
Qed.

(** *** Publishing *)


(** *** Whose a course is *)

(** X22.  Only the instructor of a course updates it, and only the
    instructor or an administrator deletes it: anybody else is answered with
    Forbidden, and nothing changes; an administrator who is not the
    instructor deletes the course. *)
Theorem only_the_course_instructor_or_an_admin
    k c user (ureq : Req.t CourseBody) (dreq : Req.t unit) :
  courseDocs (store k) !! Req.param ureq = Some c →
  courseDocs (store k) !! Req.param dreq = Some c →
  Req.user ureq = Some user →
  Req.user dreq = Some user →
  Course.instructor c ≠ Actor.id user →
  (answer_forbidden (updateCourse k ureq).1 = true ∧ (updateCourse k ureq).2 = k) ∧
  (Actor.role user ≠ Admin →
     answer_forbidden (deleteCourse k dreq).1 = true ∧ (deleteCourse k dreq).2 = k) ∧
  (Actor.role user = Admin →
     (deleteCourse k dreq).1 = answered (json 200 (message "Course deleted successfully")) ∧
     courseDocs (store (deleteCourse k dreq).2) !! Req.param dreq = None).
Proof.
  intros Huc Hdc Huu Hdu Hne. split; [|split].
  - unfold updateCourse, auth, authorize. rewrite Huu.
    case_bool_decide as Hrole; [|done].
    rewrite Huc, (bool_decide_eq_false_2 _ Hne). done.
  - intros Hno. unfold deleteCourse, auth, authorize. rewrite Hdu.
    case_bool_decide as Hrole; [|done].
    rewrite Hdc, (bool_decide_eq_false_2 _ Hne), (bool_decide_eq_false_2 _ Hno). done.
  - intros Hadmin. unfold deleteCourse, auth, authorize. rewrite Hdu, Hadmin. simpl.
    rewrite Hdc. simpl. split; [done|].
    rewrite update_account_store. simpl. apply lookup_delete_eq.
Qed.

(** X23.  A request to a route of the course router that is not answered
    with a success leaves everything as it was, and the three routes that
    read never write. *)
Theorem course_routes_fail_without_trace k :
  (∀ env req, answer_ok (createCourse lib k env req).1 = false →
              (createCourse lib k env req).2 = k) ∧
  (∀ req, answer_ok (updateCourse k req).1 = false → (updateCourse k req).2 = k) ∧
  (∀ req, answer_ok (deleteCourse k req).1 = false → (deleteCourse k req).2 = k) ∧
  (∀ req, answer_ok (enroll k req).1 = false → (enroll k req).2 = k) ∧
  (∀ q, (listCourses rt k q).2 = k) ∧
  (∀ req, (getCourse k req).2 = k) ∧
  (∀ req, (myCourses k req).2 = k).
Proof.
  split; [|split; [|split; [|split; [|split; [|split]]]]].
  - intros env req H. unfold createCourse in *.
    repeat case_match; simplify_eq; simpl in *; refused H.
  - intros req H. unfold updateCourse in *.
    repeat case_match; simplify_eq; simpl in *; refused H.
  - intros req H. unfold deleteCourse in *.
    repeat case_match; simplify_eq; simpl in *; refused H.
  - intros req H. unfold enroll in *.
    repeat case_match; simplify_eq; simpl in *; refused H.
  - intros q. unfold listCourses. by repeat case_match.
  - intros req. unfold getCourse. by repeat case_match.
  - intros req. unfold myCourses. by repeat case_match.
Qed.

(** *** The list of courses *)

Lemma stamp_le_total a b : stamp_le a b ∨ stamp_le b a.
Proof. destruct a, b; simpl; lia. Qed.

Lemma stamp_le_trans a b c : stamp_le a b → stamp_le b c → stamp_le a c.
Proof. destruct a, b, c; simpl; lia. Qed.

#[local] Instance newest_course_first_total : Total newest_course_first.
Proof. intros x y. unfold newest_course_first. apply stamp_le_total. Qed.

#[local] Instance newest_course_first_trans : Transitive newest_course_first.
Proof. intros x y z Hxy Hyz. unfold newest_course_first in *. by eapply stamp_le_trans. Qed.

Lemma all_courses_ids k : (all_courses k).*1.*1 = (map_to_list (courseDocs (store k))).*1.
Proof.
  unfold all_courses. induction (map_to_list _) as [|x l IH]; [done|]. csimpl. by f_equal.
Qed.

Lemma all_courses_elem k v :
  v ∈ all_courses k → courseDocs (store k) !! v.1.1 = Some v.1.2.
Proof.
  unfold all_courses. intros ([i c] & -> & Hin)%list_elem_of_fmap. simpl.
  by apply elem_of_map_to_list in Hin.
Qed.

Lemma page_limit_bounds q : 1 ≤ page_limit rt q ≤ 50.
Proof. unfold page_limit. lia. Qed.

Lemma page_number_bounds q : 1 ≤ page_number rt q.
Proof. unfold page_number. lia. Qed.

(** X24.  With a search pattern that MongoDB takes, or none, the list of
    courses answers with a page: at most [limit] courses and at most 50,
    whatever the query asks for; each of them published and in the
    collection, none twice, the newest first; [currentPage] is at least 1,
    and [totalPages] pages of that length are just enough for [total]
    courses.  Nothing is written. *)
Theorem listCourses_gives_a_page k q :
  (∀ s, given (q_search q) = Some s → is_Some (regex_i rt s)) →
  ∃ cs total,
    listCourses rt k q
    = (json_courses cs (total_pages total (page_limit rt q)) (page_number rt q) total, k) ∧
    1 ≤ page_number rt q ∧
    1 ≤ page_limit rt q ≤ 50 ∧
    Z.of_nat (length cs) ≤ page_limit rt q ∧
    Z.of_nat (length cs) ≤ total ∧
    (total_pages total (page_limit rt q) - 1) * page_limit rt q < total
      ≤ total_pages total (page_limit rt q) * page_limit rt q ∧
    NoDup ((lc_course <$> cs).*1.*1) ∧
    StronglySorted newest_course_first (lc_course <$> cs) ∧
    ∀ c, c ∈ cs →
         Course.isPublished (lc_course c).1.2 = true ∧
         courseDocs (store k) !! (lc_course c).1.1 = Some (lc_course c).1.2.
Proof.
  intros Hsearch. unfold listCourses.
  assert (∃ pattern, match given (q_search q) with
                     | None => Some None
                     | Some s => Some <$> regex_i rt s
                     end = Some pattern) as [pattern ->].
  { destruct (given (q_search q)) as [s|]; [|by eexists].
    destruct (Hsearch s eq_refl) as [f ->]. by eexists. }
  pose proof (page_limit_bounds q) as HL.
  set (matching := filter _ (all_courses k)).
  set (found := merge_sort newest_course_first matching).
  set (page := page_of found (page_number rt q) (page_limit rt q)).
  assert (lc_course <$> (list_course k <$> page) = page) as Hview.
  { rewrite <-list_fmap_compose. apply list_fmap_id. }
  assert (page `sublist_of` found) as Hsub by apply page_of_sublist.
  eexists _, _. split; [reflexivity|].
  split; [apply page_number_bounds|]. split; [done|].
  rewrite Hview, length_fmap.
  split; [|split; [|split; [|split; [|split]]]].
  - pose proof (page_of_length found (page_number rt q) (page_limit rt q)). fold page in H. lia.
  - apply sublist_length in Hsub. lia.
  - apply total_pages_bounds. lia.
  - apply (sublist_NoDup _ (found.*1.*1)); [|by do 2 apply fmap_sublist].
    unfold found. rewrite merge_sort_Permutation.
    apply (sublist_NoDup _ ((all_courses k).*1.*1)).
    + rewrite all_courses_ids. apply NoDup_fst_map_to_list.
    + do 2 apply fmap_sublist. apply sublist_filter.
  - apply page_of_sorted, StronglySorted_merge_sort; apply _.
  - intros c (v & -> & Hin)%list_elem_of_fmap. simpl.
    assert (v ∈ matching) as [Hm Hall]%list_elem_of_filter.
    { rewrite <-(merge_sort_Permutation newest_course_first matching).
      by eapply elem_of_sublist. }
    split; [|by apply all_courses_elem].
    unfold course_matches in Hm. by repeat (apply andb_prop in Hm as [Hm _]).
Qed.

(** *** The courses of a user *)

(** X25.  After a successful enrolment of a student with a user document,
    the list of the student's courses ends with the course, and the course
    shown there has the student among its [students]. *)
Theorem enrolled_course_ends_my_courses k req user :
  answer_ok (enroll k req).1 = true →
  Req.user req = Some user →
  is_Some (userDocs (store k) !! Actor.id user) →
  ∃ enrolled created v,
    myCourses (enroll k req).2 req = (json_my_courses enrolled created, (enroll k req).2) ∧
    last enrolled = Some v ∧
    v.1.1 = Req.param req ∧
    Actor.id user ∈ Course.students v.1.2.
Proof.
  intros (user' & c & Hu & Hrole & Hc & Hpub & Hnew & Hrun)%enroll_success Hu' Huser.
  simplify_eq. rewrite Hrun. simpl.
  unfold myCourses, auth. rewrite Hu. simpl.
  rewrite update_account_store. simpl.
  destruct Huser as [u Huser]. rewrite Huser.
  rewrite update_account_same by (simpl; eauto). simpl.
  rewrite omap_app. simpl.
  unfold course_view at 2. rewrite update_account_store. simpl.
  rewrite lookup_insert_eq. simpl.
  eexists _, _, _. split; [reflexivity|]. rewrite last_snoc. split; [done|].
  split; [done|]. simpl. apply elem_of_app. right. by left.
Qed.

(** *** Handing a course over *)

End CourseCoverage.

(** ** The route guard of the frontend *)

Section Frontend.
Implicit Types (ctx : AuthState) (allowedRoles : list string).

(** X27.  The route guard shows the page exactly when the context is not
    loading, is authenticated, and either the route allows every role or the
    role of the user is among the roles allowed; in particular never while
    loading, and never to a visitor who is not authenticated.  And it reads
    the role of a user who is absent only for an authenticated context on a
    route that names its roles. *)
Theorem ProtectedRoute_shows_the_page ctx allowedRoles :
  (ProtectedRoute ctx allowedRoles = rendered children ↔
   loading ctx = false ∧ isAuthenticated ctx = true ∧
   (allowedRoles = [] ∨ ∃ role, user_role ctx = Some role ∧ role ∈ allowedRoles)) ∧
  (ProtectedRoute ctx allowedRoles = type_error ↔
   loading ctx = false ∧ isAuthenticated ctx = true ∧
   allowedRoles ≠ [] ∧ user_role ctx = None).
Proof.
  unfold ProtectedRoute, includes.
  destruct (loading ctx); simpl;
    [split; split; [done|by intros (? & _)|done|by intros (? & _)]|].
  destruct (isAuthenticated ctx); simpl;
    [|split; split; [done|by intros (_ & ? & _)|done|by intros (_ & ? & _)]].
  destruct allowedRoles as [|r rs]; simpl.
  { split; split; [|done|done|by intros (_ & _ & ? & _)].
    intros _. do 2 (split; [done|]). by left. }
  destruct (user_role ctx) as [role|]; simpl.
  - case_bool_decide as Hin; simpl; split; split;
      [|done|done|by intros (_ & _ & _ & ?)|done| |done|by intros (_ & _ & _ & ?)].
    + intros _. do 2 (split; [done|]). right. eauto.
    + intros (_ & _ & [?|(role' & ? & ?)]); simplify_eq; done.
  - split; split; [done| |done|done].
    intros (_ & _ & [?|(role' & ? & ?)]); simplify_eq.
Qed.
End Frontend.

(** ** The extras on the campus of the examples *)

Lemma reference_number_order : number_order ReferenceRuntime.runtime.
Proof.
  split.
  - intros x y. simpl. unfold ReferenceRuntime.number_leb.
    destruct (decide (default 0 (ReferenceRuntime.parseInt x)
                      ≤ default 0 (ReferenceRuntime.parseInt y))).
    + left. by apply bool_decide_eq_true_2.
    + right. apply bool_decide_eq_true_2. lia.
  - intros x y z. simpl. unfold ReferenceRuntime.number_leb.
    rewrite !bool_decide_eq_true. lia.
Qed.

Lemma scenario_submissions_kept :
  rtc (step_keeping_submissions Reference.library) Scenario.world1 Scenario.world1_later.
Proof.
  eapply rtc_l.
  { exists (op_submit Scenario.in_time Scenario.submit2). by repeat split. }
  apply rtc_once. exists (op_grade Scenario.grade_85). by repeat split.
Defined.

(** The claim C2 as it was stated fails: Sam has submitted the essay; the
    instructor sends an update whose body sets [submissions] to the empty
    list; Sam's second submission is then accepted. *)
Lemma update_empties_the_submissions :
  submitAssignment Reference.library Scenario.world0 Scenario.in_time Scenario.submit1
  = (json 200 (message_submission "Assignment submitted successfully" Scenario.submission1),
     Scenario.world1) ∧
  is_success
    (updateAssignment Reference.library Scenario.world1 Scenario.clear_submissions).1
  = true ∧
  Req.user Scenario.submit1_again = Req.user Scenario.submit1 ∧
  Req.param Scenario.submit1_again = Req.param Scenario.submit1 ∧
  is_success
    (submitAssignment Reference.library
       (updateAssignment Reference.library Scenario.world1 Scenario.clear_submissions).2
       Scenario.in_time Scenario.submit1_again).1
  = true.
Proof. repeat split; vm_compute; reflexivity. Qed.

Lemma scenario_retitled :
  rtc (step_keeping_submissions Reference.library) Scenario.world1 Scenario.world1_retitled.
Proof.
  eapply rtc_l; [exists (op_update Scenario.retitle); by repeat split|].
  eapply rtc_l; [exists (op_submit Scenario.in_time Scenario.submit2); by repeat split|].
  apply rtc_once. exists (op_grade Scenario.grade_85). by repeat split.
Defined.

Lemma second_submission_is_a_conflict_witness :
  submitAssignment Reference.library Scenario.world0 Scenario.in_time Scenario.submit1
  = (json 200 (message_submission "Assignment submitted successfully" Scenario.submission1),
     Scenario.world1) ∧
  submitAssignment Reference.library Scenario.world1_retitled Scenario.in_time
                   Scenario.submit1_again
  = (json 400 (message "Assignment already submitted"), Scenario.world1_retitled).
Proof.
  split; [exact scenario_first_submission|].
  destruct (second_submission_is_a_conflict Reference.library Scenario.world0
              Scenario.in_time Scenario.submit1 _ Scenario.world1 Scenario.world1_retitled
              Scenario.in_time Scenario.submit1_again scenario_well_formed
              scenario_first_submission scenario_retitled eq_refl eq_refl)
    as (_ & _ & _ & H).
  eapply (H Scenario.student1).
  - reflexivity.
  - vm_compute. reflexivity.
  - vm_compute. congruence.
  - reflexivity.
  - reflexivity.
  - apply (bool_decide_unpack _). vm_compute. exact I.
Defined.

Lemma scenario_world1_lookup id a :
  assignmentDocs Scenario.world1 !! id = Some a → a = Scenario.assignment1.
Proof.
  change (assignmentDocs Scenario.world1)
    with (<[Scenario.essay := Scenario.assignment1]>
            (<[Scenario.essay := Scenario.assignment0]> (∅ : gmap string Assignment.t))).
  rewrite insert_insert_eq. intros [[_ <-]|[_ H]]%lookup_insert_Some; [done|].
  by rewrite lookup_empty in H.
Defined.

Lemma one_submission_each_is_kept_witness :
  one_submission_each Scenario.world1_later.
Proof.
  apply (one_submission_each_is_kept Reference.library Scenario.world1).
  - exact scenario_submissions_kept.
  - intros id a ->%scenario_world1_lookup. simpl. apply NoDup_singleton.
Defined.

Lemma marks_only_when_graded_is_kept_witness :
  marks_only_when_graded Scenario.world1_later.
Proof.
  apply (marks_only_when_graded_is_kept Reference.library Scenario.world1).
  - exact scenario_submissions_kept.
  - intros id a sub ->%scenario_world1_lookup Hin [m Hm].
    apply list_elem_of_singleton in Hin. subst sub. vm_compute in Hm. discriminate Hm.
Defined.

Lemma scenario_world1_well_formed : well_formed Scenario.world1.
Proof. unfold well_formed. apply (bool_decide_unpack _). vm_compute. exact I. Defined.

Lemma submissions_are_only_appended_and_graded_witness :
  ∃ a', assignmentDocs Scenario.world1_later !! Scenario.essay = Some a' ∧
        later_submissions [Scenario.submission1] (Assignment.submissions a').
Proof.
  destruct (assignmentDocs Scenario.world1_later !! Scenario.essay) as [a'|] eqn:Ha';
    [|vm_compute in Ha'; discriminate Ha'].
  exists a'. split; [reflexivity|].
  apply (submissions_are_only_appended_and_graded Reference.library
           Scenario.world1 Scenario.world1_later Scenario.essay Scenario.assignment1 a').
  - exact scenario_submissions_kept.
  - exact scenario_world1_well_formed.
  - vm_compute. reflexivity.
  - exact Ha'.
Defined.

Lemma created_assignment_is_listed_witness :
  ∃ user a c1 l,
    Req.user Scenario.create_quiz = Some user ∧
    message_assignment "Assignment created successfully" Scenario.quiz Scenario.quiz0
    = message_assignment "Assignment created successfully" Scenario.quiz a ∧
    Assignment.instructor a = Actor.id user ∧
    courseDocs Scenario.world2 !! Scenario.algebra = Some c1 ∧
    last (Course.assignments c1) = Some Scenario.quiz ∧
    listAssignments Scenario.world2 Scenario.list_for_sam
    = (json 200 (assignment_list l), Scenario.world2) ∧
    (Scenario.quiz, a, userDocs Scenario.world2 !! Assignment.instructor a) ∈ l.
Proof.
  apply (created_assignment_is_listed Reference.library Scenario.world0 Scenario.quiz_env
           Scenario.create_quiz
           (message_assignment "Assignment created successfully" Scenario.quiz Scenario.quiz0)
           Scenario.world2
           (Req.mk (Req.user Scenario.create_quiz) Scenario.algebra tt [])).
  - vm_compute. reflexivity.
  - reflexivity.
  - reflexivity.
Defined.

Lemma create_then_delete_restores_witness :
  ∃ w2,
    deleteAssignment Scenario.world2 Semester.delete_quiz
    = (json 200 (message "Assignment deleted successfully"), w2) ∧
    assignmentDocs w2 = assignmentDocs Scenario.world0 ∧
    courseDocs w2 = courseDocs Scenario.world0 ∧
    lectureDocs w2 = lectureDocs Scenario.world0 ∧
    userDocs w2 = userDocs Scenario.world0 ∧
    cloud w2 = cloud Scenario.world0.
Proof.
  apply (create_then_delete_restores Reference.library Scenario.world0 Scenario.quiz_env
           Scenario.create_quiz
           (message_assignment "Assignment created successfully" Scenario.quiz Scenario.quiz0)
           Scenario.world2 Semester.delete_quiz).
  - vm_compute. reflexivity.
  - vm_compute. reflexivity.
  - intros c Hc. vm_compute in Hc. injection Hc as <-.
    apply (bool_decide_unpack _). vm_compute. exact I.
  - reflexivity.
  - reflexivity.
Defined.

Lemma only_the_assignment_instructor_updates_and_deletes_witness :
  (is_forbidden (updateAssignment Reference.library Scenario.world0
                                  Semester.retitle_by_colleague).1 = true ∧
   (updateAssignment Reference.library Scenario.world0 Semester.retitle_by_colleague).2
   = Scenario.world0) ∧
  (is_forbidden (deleteAssignment Scenario.world0 Semester.delete_by_colleague).1 = true ∧
   (deleteAssignment Scenario.world0 Semester.delete_by_colleague).2 = Scenario.world0).
Proof.
  apply (only_the_assignment_instructor_updates_and_deletes Reference.library
           Scenario.world0 Scenario.assignment0 Scenario.colleague
           Semester.retitle_by_colleague Semester.delete_by_colleague).
  - vm_compute. reflexivity.
  - vm_compute. reflexivity.
  - reflexivity.
  - reflexivity.
  - split.
    + intros t Ht. injection Ht as <-. vm_compute. reflexivity.
    + intros d Hd. discriminate Hd.
  - vm_compute. congruence.
Defined.

Lemma orphaned_assignment_is_stuck_witness :
  submitAssignment Reference.library (store Semester.without_algebra) Scenario.in_time
                   Scenario.submit1
  = (json 500 (message "Server error submitting assignment"),
     store Semester.without_algebra) ∧
  deleteAssignment (store Semester.without_algebra) Scenario.delete_essay
  = (json 500 (message "Server error deleting assignment"), store Semester.without_algebra).
Proof.
  apply (orphaned_assignment_is_stuck Reference.library (store Semester.without_algebra)
           Scenario.assignment0 Scenario.student1 Scenario.teacher Scenario.in_time
           Scenario.submit1 Scenario.delete_essay).
  - vm_compute. reflexivity.
  - vm_compute. reflexivity.
  - vm_compute. reflexivity.
  - reflexivity.
  - reflexivity.
  - vm_compute. reflexivity.
  - vm_compute. congruence.
  - reflexivity.
  - reflexivity.
  - reflexivity.
Defined.

Lemma submission_shows_in_the_list_witness :
  ∃ l,
    listSubmissions Scenario.world1 Scenario.submissions_by_teacher
    = (json 200 (submission_list l), Scenario.world1) ∧
    length l = 1%nat ∧
    last l = Some (Scenario.submission1, Some (UserDoc.mk "Sam" "sam@edunexus.com")).
Proof.
  apply (submission_shows_in_the_list Reference.library Scenario.world0 Scenario.in_time
           Scenario.submit1 Scenario.student1 Scenario.assignment0
           Scenario.submissions_by_teacher Scenario.teacher).
  - exact scenario_reaches_guard.
  - vm_compute. congruence.
  - reflexivity.
  - reflexivity.
  - reflexivity.
  - reflexivity.
Defined.

Lemma semester_manages_week1 {B} (req : Req.t B) :
  Req.user req = Some Scenario.teacher →
  Req.param req = Semester.week1 →
  manages_lecture Semester.campus0 req Scenario.teacher Semester.lecture1
                  Semester.algebra_course.
Proof.
  intros Hu Hp. unfold manages_lecture. rewrite Hu, Hp.
  repeat split; vm_compute; reflexivity.
Defined.


Lemma listLectures_gate_and_order_witness :
  ∃ l,
    listLectures ReferenceRuntime.runtime Semester.campus0 Semester.lectures_for_sam
    = (json_lectures l, Semester.campus0) ∧
    StronglySorted (by_order ReferenceRuntime.runtime) l ∧
    NoDup (l.*1.*1) ∧
    ∀ id lecture rs,
      (id, lecture, rs) ∈ l ↔
      lectureDocs (store Semester.campus0) !! id = Some lecture ∧
      Lecture.course lecture = Scenario.algebra ∧
      rs = resources_of Semester.campus0 id.
Proof.
  assert (courseDocs (store Semester.campus0) !! Scenario.algebra
          = Some Semester.algebra_course) as Hc by (vm_compute; reflexivity).
  destruct (listLectures_gate_and_order ReferenceRuntime.runtime Semester.campus0
              Semester.lectures_for_sam Scenario.student1 Semester.algebra_course
              reference_number_order eq_refl Hc) as [_ H].
  apply H. left. apply (bool_decide_unpack _). vm_compute. exact I.
Defined.

Lemma deleteLecture_survives_cloudinary_witness :
  ∃ k1,
    deleteLecture Semester.campus0 Semester.destroy_throws Semester.delete_week1
    = (answered (json 200 (message "Lecture deleted successfully")), k1) ∧
    lectureDocs (store k1) !! Semester.week1 = None ∧
    (∃ c1, courseDocs (store k1) !! Scenario.algebra = Some c1 ∧
           Semester.week1 ∉ Course.lectures c1) ∧
    (destroy Semester.destroy_throws "edunexus/lectures/v1" = true →
       "edunexus/lectures/v1" ∉ cloud (store k1)) ∧
    (destroy Semester.destroy_throws "edunexus/lectures/v1" = false →
       cloud (store k1) = cloud (store Semester.campus0)).
Proof.
  apply (deleteLecture_survives_cloudinary Semester.campus0 Semester.destroy_throws
           Semester.delete_week1 Scenario.teacher Semester.lecture1
           Semester.algebra_course).
  apply semester_manages_week1; reflexivity.
Defined.

Lemma upload_then_delete_restores_witness :
  ∃ k2,
    deleteLecture
      (uploadLectureK Reference.library Semester.campus0 Semester.studio
                      Semester.upload_week3).2
      Semester.destroy_returns Semester.delete_week3
    = (answered (json 200 (message "Lecture deleted successfully")), k2) ∧
    lectureDocs (store k2) = lectureDocs (store Semester.campus0) ∧
    courseDocs (store k2) = courseDocs (store Semester.campus0) ∧
    assignmentDocs (store k2) = assignmentDocs (store Semester.campus0) ∧
    userDocs (store k2) = userDocs (store Semester.campus0) ∧
    cloud (store k2) = cloud (store Semester.campus0) ∧
    resources k2 = resources Semester.campus0.
Proof.
  apply (upload_then_delete_restores Reference.library Semester.campus0 Semester.studio
           Semester.upload_week3
           (message_lecture "Lecture uploaded successfully" Semester.week3 Semester.lecture3)
           (uploadLectureK Reference.library Semester.campus0 Semester.studio
                           Semester.upload_week3).2
           Semester.destroy_returns Semester.delete_week3).
  - vm_compute. reflexivity.
  - vm_compute. reflexivity.
  - vm_compute. reflexivity.
  - intros c Hc. vm_compute in Hc. injection Hc as <-.
    apply (bool_decide_unpack _). vm_compute. exact I.
  - intros file result Hup. injection Hup as <-.
    apply (bool_decide_unpack _). vm_compute. exact I.
  - reflexivity.
  - reflexivity.
  - reflexivity.
Defined.

Lemma addResource_appends_witness :
  ∃ k1 r,
    addResource Reference.library ReferenceRuntime.runtime Semester.campus0
                Semester.add_exercises
    = (json_lecture "Resource added successfully" Semester.week1 Semester.lecture1
                    (resources_of Semester.campus0 Semester.week1 ++ [r]), k1) ∧
    r = Resource.mk "Exercises" "https://edunexus.com/ex1.pdf" "pdf" ∧
    resources_of k1 Semester.week1
    = (resources_of Semester.campus0 Semester.week1 ++ [r])%list ∧
    (∀ id, id ≠ Semester.week1 → resources_of k1 id = resources_of Semester.campus0 id) ∧
    store k1 = store Semester.campus0.
Proof.
  apply (addResource_appends Reference.library ReferenceRuntime.runtime Semester.campus0
           Semester.add_exercises Scenario.teacher Semester.lecture1
           Semester.algebra_course).
  - apply semester_manages_week1; reflexivity.
  - split; [|split].
    + vm_compute. congruence.
    + vm_compute. reflexivity.
    + apply (bool_decide_unpack _). vm_compute. exact I.
Defined.

Lemma semester_tom_enrols :
  answer_ok (enroll Semester.campus0 Semester.enrol_tom).1 = true.
Proof. vm_compute. reflexivity. Defined.

Lemma enrolment_is_once_witness :
  ∃ user c c1,
    Req.user Semester.enrol_tom = Some user ∧
    courseDocs (store Semester.campus0) !! Scenario.algebra = Some c ∧
    courseDocs (store (enroll Semester.campus0 Semester.enrol_tom).2) !! Scenario.algebra
    = Some c1 ∧
    Course.students c1 = (Course.students c ++ [Actor.id user])%list ∧
    (Actor.id user ∉ Course.students c) ∧
    (NoDup (Course.students c) → NoDup (Course.students c1)) ∧
    (is_Some (userDocs (store Semester.campus0) !! Actor.id user) →
       Account.enrolledCourses
         (account_of (enroll Semester.campus0 Semester.enrol_tom).2 (Actor.id user))
       = (Account.enrolledCourses (account_of Semester.campus0 (Actor.id user))
          ++ [Scenario.algebra])%list) ∧
    enroll (enroll Semester.campus0 Semester.enrol_tom).2 Semester.enrol_tom
    = (answered (json 400 (message "Already enrolled in this course")),
       (enroll Semester.campus0 Semester.enrol_tom).2).
Proof.
  apply (enrolment_is_once Semester.campus0 Semester.enrol_tom).
  exact semester_tom_enrols.
Defined.

Lemma enrolment_opens_the_course_witness :
  (∃ l, listAssignments (store (enroll Semester.campus0 Semester.enrol_tom).2)
                        Scenario.list_for_tom
        = (json 200 (assignment_list l),
           store (enroll Semester.campus0 Semester.enrol_tom).2)) ∧
  (∃ l, listLectures ReferenceRuntime.runtime
                     (enroll Semester.campus0 Semester.enrol_tom).2 Scenario.list_for_tom
        = (json_lectures l, (enroll Semester.campus0 Semester.enrol_tom).2)).
Proof.
  apply (enrolment_opens_the_course ReferenceRuntime.runtime Semester.campus0
           Semester.enrol_tom Scenario.list_for_tom).
  - exact semester_tom_enrols.
  - reflexivity.
  - reflexivity.
Defined.

Lemma deleteCourse_does_not_cascade_witness :
  ∃ c,
    courseDocs (store Semester.campus0) !! Scenario.algebra = Some c ∧
    courseDocs (store Semester.without_algebra) !! Scenario.algebra = None ∧
    assignmentDocs (store Semester.without_algebra)
    = assignmentDocs (store Semester.campus0) ∧
    lectureDocs (store Semester.without_algebra) = lectureDocs (store Semester.campus0) ∧
    (∀ id, id ≠ Course.instructor c →
           account_of Semester.without_algebra id = account_of Semester.campus0 id) ∧
    (∀ a teacher (dreq : Req.t unit),
       assignmentDocs (store Semester.campus0) !! Req.param dreq = Some a →
       Assignment.course a = Scenario.algebra →
       Req.user dreq = Some teacher →
       Actor.role teacher = Instructor →
       Assignment.instructor a = Actor.id teacher →
       deleteAssignment (store Semester.without_algebra) dreq
       = (json 500 (message "Server error deleting assignment"),
          store Semester.without_algebra)).
Proof.
  apply (deleteCourse_does_not_cascade Semester.campus0 Semester.delete_algebra).
  vm_compute. reflexivity.
Defined.

Lemma created_course_belongs_to_its_creator_witness :
  ∃ user c,
    Req.user Semester.create_topology = Some user ∧
    courseDocs (store (createCourse Reference.library Semester.campus0
                                    Semester.topology_env Semester.create_topology).2)
      !! Semester.topology = Some c ∧
    Course.instructor c = Actor.id user ∧
    (is_Some (userDocs (store Semester.campus0) !! Actor.id user) →
       Account.createdCourses
         (account_of (createCourse Reference.library Semester.campus0
                                   Semester.topology_env Semester.create_topology).2
                     (Actor.id user))
       = (Account.createdCourses (account_of Semester.campus0 (Actor.id user))
          ++ [Semester.topology])%list) ∧
    (∀ aenv (areq : Req.t CreateBody),
       Req.user areq = Some user →
       cr_course (Req.body areq) = Some Semester.topology →
       create_body_valid Reference.library (Req.body areq) →
       is_Some (castDate Reference.library (field (cr_dueDate (Req.body areq)))) →
       ∃ a w,
         createAssignment Reference.library
           (store (createCourse Reference.library Semester.campus0
                                Semester.topology_env Semester.create_topology).2)
           aenv areq
         = (json 201 (message_assignment "Assignment created successfully"
                                         (new_id aenv) a), w) ∧
         Assignment.course a = Semester.topology ∧
         Assignment.instructor a = Actor.id user).
Proof.
  apply (created_course_belongs_to_its_creator Reference.library Semester.campus0
           Semester.topology_env Semester.create_topology).
  vm_compute. reflexivity.
Defined.


Lemma only_the_course_instructor_or_an_admin_witness :
  (answer_forbidden (updateCourse Semester.campus0 Semester.rename_by_bob).1 = true ∧
   (updateCourse Semester.campus0 Semester.rename_by_bob).2 = Semester.campus0) ∧
  (Actor.role Scenario.colleague ≠ Admin →
     answer_forbidden (deleteCourse Semester.campus0 Semester.delete_algebra_by_bob).1
     = true ∧
     (deleteCourse Semester.campus0 Semester.delete_algebra_by_bob).2 = Semester.campus0) ∧
  (Actor.role Scenario.colleague = Admin →
     (deleteCourse Semester.campus0 Semester.delete_algebra_by_bob).1
     = answered (json 200 (message "Course deleted successfully")) ∧
     courseDocs (store (deleteCourse Semester.campus0 Semester.delete_algebra_by_bob).2)
       !! Scenario.algebra = None).
Proof.
  apply (only_the_course_instructor_or_an_admin Semester.campus0 Semester.algebra_course
           Scenario.colleague Semester.rename_by_bob Semester.delete_algebra_by_bob).
  - vm_compute. reflexivity.
  - vm_compute. reflexivity.
  - reflexivity.
  - reflexivity.
  - vm_compute. congruence.
Defined.

Lemma listCourses_gives_a_page_witness :
  ∃ cs total,
    listCourses ReferenceRuntime.runtime Semester.campus0 Semester.first_page
    = (json_courses cs (total_pages total 50) 1 total, Semester.campus0) ∧
    1 ≤ page_number ReferenceRuntime.runtime Semester.first_page ∧
    1 ≤ page_limit ReferenceRuntime.runtime Semester.first_page ≤ 50 ∧
    Z.of_nat (length cs) ≤ 50 ∧
    Z.of_nat (length cs) ≤ total ∧
    (total_pages total 50 - 1) * 50 < total ≤ total_pages total 50 * 50 ∧
    NoDup ((lc_course <$> cs).*1.*1) ∧
    StronglySorted newest_course_first (lc_course <$> cs) ∧
    ∀ c, c ∈ cs →
         Course.isPublished (lc_course c).1.2 = true ∧
         courseDocs (store Semester.campus0) !! (lc_course c).1.1 = Some (lc_course c).1.2.
Proof.
  apply (listCourses_gives_a_page ReferenceRuntime.runtime Semester.campus0
           Semester.first_page).
  intros s Hs. injection Hs as <-. vm_compute. eauto.
Defined.

Lemma pages_are_a_partition_witness :
  mjoin ((λ p, page_of [1; 2; 3; 4; 5] (Z.of_nat p) 2)
           <$> seq 1 (Z.to_nat (total_pages (Z.of_nat (length [1; 2; 3; 4; 5])) 2)))
  = [1; 2; 3; 4; 5] ∧
  (∀ p, 1 ≤ p ≤ total_pages (Z.of_nat (length [1; 2; 3; 4; 5])) 2 →
        page_of [1; 2; 3; 4; 5] p 2 ≠ []) ∧
  (∀ p, total_pages (Z.of_nat (length [1; 2; 3; 4; 5])) 2 < p →
        page_of [1; 2; 3; 4; 5] p 2 = []).
Proof. apply (pages_are_a_partition [1; 2; 3; 4; 5] 2). lia. Defined.

Lemma enrolled_course_ends_my_courses_witness :
  ∃ enrolled created v,
    myCourses (enroll Semester.campus0 Semester.enrol_tom).2 Semester.enrol_tom
    = (json_my_courses enrolled created, (enroll Semester.campus0 Semester.enrol_tom).2) ∧
    last enrolled = Some v ∧
    v.1.1 = Scenario.algebra ∧
    Scenario.tom ∈ Course.students v.1.2.
Proof.
  apply (enrolled_course_ends_my_courses Semester.campus0 Semester.enrol_tom
           Scenario.outsider).
  - exact semester_tom_enrols.
  - reflexivity.
  - vm_compute. eauto.
Defined.

